(** * acoustic_no.utils.eval: evaluation and autoregressive rollout

    A shallow embedding of [src/acoustic_no/utils/eval.py].

    - Python control flow that can raise is written in a small
      writer-and-exception monad [Run]: a computation yields the list of
      observable events it performed (dataset accesses, predictor calls,
      printed reports, rendering requests) and an [outcome].
    - Tensors are seen along their leading (temporal) axis: a tensor of shape
      [D, H, W] is a [list Frame] of [D] frames, a frame being an opaque
      [H x W] field whose extent is given by the class [Shaped].  The
      frames of one run (inputs, targets, predictions) have one extent, and
      the arithmetic between two frames stays with the losses and the
      presenter: what is modelled of a tensor operation is what it does along
      the leading axis.  A predictor is a pure function on such tensors.
      The batch axis added by
      [unsqueeze(0)] has size one and is not represented; [squeeze()], which
      drops every axis of size one, is modelled by what it does to the three
      other axes.
    - torch, neuralop and Python float arithmetic are libraries outside the
      repository: they enter as the records [Scalars] and [Losses], which are
      instantiated further down by exact rational arithmetic and by IEEE-754
      arithmetic.
    - Device placement ([model.to(device)], [model.eval()], [.cpu()]) has no
      effect on values and is left out. *)

From Stdlib Require Import ZArith List String Lia QArith Qcanon Qcabs.
From Stdlib Require Import Floats.SpecFloat.
From stdpp Require Import base numbers list strings.

Open Scope Z_scope.

(** ** Python exceptions and the [Run] monad *)

Inductive exn : Type :=
| IndexError
| KeyError
| RuntimeError
| ZeroDivisionError
| ValueError (msg : string).

(** [Unfinished] is the outcome of a loop that is still running when the
    fuel given to its model is used up. *)
Inductive outcome (A : Type) : Type :=
| Done (a : A)
| Raised (e : exn)
| Unfinished.

Arguments Done {A} a.
Arguments Raised {A} e.
Arguments Unfinished {A}.

Definition Run (E A : Type) : Type := (list E * outcome A)%type.

Definition run_ret {E A : Type} (a : A) : Run E A := ([], Done a).

Definition run_bind {E A B : Type} (f : A -> Run E B) (m : Run E A) : Run E B :=
  match m with
  | (t, Done a) => let '(t', r) := f a in (t ++ t', r)
  | (t, Raised e) => (t, Raised e)
  | (t, Unfinished) => (t, Unfinished)
  end.

#[global] Instance Run_ret {E : Type} : MRet (Run E) := @run_ret E.
#[global] Instance Run_bind {E : Type} : MBind (Run E) := @run_bind E.

Definition emit {E : Type} (e : E) : Run E unit := ([e], Done tt).
Definition raise {E A : Type} (e : exn) : Run E A := ([], Raised e).
Definition out_of_fuel {E A : Type} : Run E A := ([], Unfinished).

Definition lift {E A : Type} (r : exn + A) : Run E A :=
  match r with
  | inl e => raise e
  | inr a => mret a
  end.

Definition trace {E A : Type} (m : Run E A) : list E := fst m.
Definition result {E A : Type} (m : Run E A) : outcome A := snd m.

(** ** Python indexing and slicing along the leading axis *)

(** Normalisation of a slice bound: a negative bound counts from the end,
    and the outcome is clamped to [0, n]. *)
Definition slice_bound (n i : Z) : Z :=
  if i <? 0 then Z.max 0 (i + n) else Z.min i n.

(** [l[start:stop]] *)
Definition py_slice {A : Type} (l : list A) (start stop : Z) : list A :=
  let n := Z.of_nat (length l) in
  let a := slice_bound n start in
  let b := slice_bound n stop in
  take (Z.to_nat (b - a)) (drop (Z.to_nat a) l).

(** [l[i]]: a negative index counts from the end; out of range raises. *)
Definition py_getitem {A : Type} (l : list A) (i : Z) : exn + A :=
  let n := Z.of_nat (length l) in
  let j := if i <? 0 then i + n else i in
  if (0 <=? j) && (j <? n) then
    match l !! Z.to_nat j with
    | Some a => inr a
    | None => inl IndexError
    end
  else inl IndexError.

(** [l[0] = v] on a tensor: the leading entry is overwritten in place. *)
Definition py_setitem0 {A : Type} (l : list A) (v : A) : exn + list A :=
  match l with
  | [] => inl IndexError
  | _ :: rest => inr (v :: rest)
  end.

(** [torch.stack(ws)]: the list must be non-empty and its tensors must have
    one shape; seen along the leading axis, one length. *)
Definition torch_stack {A : Type} (ws : list (list A)) : exn + list (list A) :=
  match ws with
  | [] => inl RuntimeError
  | w :: rest =>
      if forallb (fun w' => Nat.eqb (length w') (length w)) rest
      then inr ws
      else inl RuntimeError
  end.

(** [t.flatten(0, 1)] of a stacked tensor. *)
Definition flatten01 {A : Type} (ws : list (list A)) : list A := concat ws.

(** ** The data model: samples and the sample source *)

Section Eval.

Context {Frame : Type}.

(** A dataset item; only the entries read by the evaluation code. *)
Record Sample : Type := mkSample {
  data_x : list Frame;
  data_y : list Frame
}.

(** The dataset object: [len(dataset)], [dataset.depth], [dataset[i]]. *)
Record Dataset : Type := mkDataset {
  ds_len : nat;
  depth : Z;
  getitem : Z -> exn + Sample
}.

(** A dataset held in a list, indexed like a Python sequence. *)
Definition list_dataset (d : Z) (samples : list Sample) : Dataset :=
  {| ds_len := length samples; depth := d; getitem := py_getitem samples |}.

Definition Model : Type := list Frame -> list Frame.

(** What the presenter is asked to draw: the last predicted and true frames
    and their difference; the two sequences frame by frame; the error of
    the prediction over the sequence (its titles end in [suffix]).  [path]
    is [None] when the figure is shown on screen. *)
Inductive Rendering : Type :=
| PressureFigure (pred_last target_last : Frame) (title : string) (path : option string)
| AnimationGif (pred target : list Frame) (title : string) (path : string)
| ErrorFigure (pred target : list Frame) (suffix : string) (path : option string).

End Eval.

Arguments Sample Frame : clear implicits.
Arguments Dataset Frame : clear implicits.
Arguments Model Frame : clear implicits.
Arguments Rendering Frame : clear implicits.

(** ** The extent of a frame *)

(** The numbers of rows and of columns of a frame.  The frames of one tensor
    share their extent. *)
Class Shaped (Frame : Type) : Type := mkShaped {
  height : Frame -> Z;
  width : Frame -> Z
}.

(** A frame with a single row or a single column. *)
Definition unit_axis {Frame : Type} {shaped : Shaped Frame} (f : Frame) : bool :=
  (height f =? 1) || (width f =? 1).

Definition no_unit_axis {Frame : Type} {shaped : Shaped Frame} (t : list Frame) : bool :=
  forallb (fun f => negb (unit_axis f)) t.

(** [t.squeeze()[-1, :, :]] for [t] of shape [1, D, H, W].  [squeeze()] drops
    the batch axis and every other axis of size one: when one of [D], [H],
    [W] is one the result has fewer than three axes, and indexing it with
    three indices raises [IndexError].  Otherwise the result has the shape
    [D, H, W] and the index is [t[-1]]. *)
Definition squeezed_last {Frame : Type} {shaped : Shaped Frame} (t : list Frame)
  : exn + Frame :=
  if negb (Nat.eqb (length t) 1) && no_unit_axis t
  then py_getitem t (-1)
  else inl IndexError.

(** ** The numeric libraries, as interfaces *)

(** Python [float] arithmetic on the running sums, and the division of two
    zero-dimensional tensors. *)
Record Scalars (S : Type) : Type := mkScalars {
  f0 : S;                       (* the literal 0.0 *)
  fadd : S -> S -> S;           (* acc + v *)
  fdiv : S -> S -> S;           (* acc / float(n), for n <> 0 *)
  of_int : Z -> S;              (* float(n) *)
  tdiv : S -> S -> S            (* a / b on zero-dimensional tensors *)
}.

(** torch and neuralop on tensors of type [T]; every scalar is taken after
    [.item()]. *)
Record Losses (T S : Type) : Type := mkLosses {
  tsub : T -> T -> T;           (* pred - y *)
  norm2 : T -> S;               (* torch.norm(t, p=2) *)
  max_abs : T -> S;             (* torch.max(torch.abs(t)) *)
  mse_loss : T -> T -> S;       (* torch.nn.MSELoss()(pred, y) *)
  lp_loss : T -> T -> S;        (* LpLoss(d=2, p=2)(pred, y) *)
  sobolev_loss : T -> T -> S    (* H1Loss(d=2)(pred, y) *)
}.

Arguments f0 {S} _.
Arguments fadd {S} _ _ _.
Arguments fdiv {S} _ _ _.
Arguments of_int {S} _ _.
Arguments tdiv {S} _ _ _.
Arguments tsub {T S} _ _ _.
Arguments norm2 {T S} _ _.
Arguments max_abs {T S} _ _.
Arguments mse_loss {T S} _ _ _.
Arguments lp_loss {T S} _ _ _.
Arguments sobolev_loss {T S} _ _ _.

(** The value of [results[name]] in [evaluate_models]. *)
Record MetricRecord (S : Type) : Type := mkMetricRecord {
  mse : S;
  l2_loss : S;
  h1_loss : S;
  rel_l2 : S;
  max_error : S
}.

Arguments mkMetricRecord {S} _ _ _ _ _.
Arguments mse {S} _.
Arguments l2_loss {S} _.
Arguments h1_loss {S} _.
Arguments rel_l2 {S} _.
Arguments max_error {S} _.

(** The four averages printed by [sample_iterative]. *)
Record RolloutMetrics (S : Type) : Type := mkRolloutMetrics {
  avg_mse_loss : S;
  avg_l2_loss : S;
  avg_h1_loss : S;
  avg_max_error : S
}.

Arguments mkRolloutMetrics {S} _ _ _ _.
Arguments avg_mse_loss {S} _.
Arguments avg_l2_loss {S} _.
Arguments avg_h1_loss {S} _.
Arguments avg_max_error {S} _.

(** Observable events, in program order. *)
Inductive Event (Frame S : Type) : Type :=
| EvGet (i : Z)                                          (* dataset[i] *)
| EvCall (name : option string) (input : list Frame)     (* model(x.unsqueeze(0)) *)
| EvSampled (n : nat)                                    (* "Sampled n initial conditions." *)
| EvRolloutReport (name : option string) (m : RolloutMetrics S)
| EvReport (name : string) (r : MetricRecord S)
| EvPrint (msg : string)
| EvRender (r : Rendering Frame).

Arguments EvGet {Frame S} i.
Arguments EvCall {Frame S} name input.
Arguments EvSampled {Frame S} n.
Arguments EvRolloutReport {Frame S} name m.
Arguments EvReport {Frame S} name r.
Arguments EvPrint {Frame S} msg.
Arguments EvRender {Frame S} r.

(** [acc / n] for a float [acc] and an int [n]. *)
Definition py_truediv {E S : Type} (sc : Scalars S) (acc : S) (n : Z) : Run E S :=
  if n =? 0 then raise ZeroDivisionError else mret (fdiv sc acc (of_int sc n)).

(** A dict with string keys, in insertion order. *)
Definition dict (V : Type) : Type := list (string * V).

Fixpoint dict_get {V : Type} (d : dict V) (k : string) : exn + V :=
  match d with
  | [] => inl KeyError
  | (k', v) :: rest => if String.eqb k' k then inr v else dict_get rest k
  end.

Fixpoint dict_set {V : Type} (d : dict V) (k : string) (v : V) : dict V :=
  match d with
  | [] => [(k, v)]
  | (k', v') :: rest =>
      if String.eqb k' k then (k', v) :: rest else (k', v') :: dict_set rest k v
  end.

Definition dict_keys {V : Type} (d : dict V) : list string := map fst d.

(** [for a in l: body], threading the loop state [s]. *)
Fixpoint for_each {E A St : Type} (l : list A) (body : St -> A -> Run E St) (s : St)
  : Run E St :=
  match l with
  | [] => mret s
  | a :: rest => s' ← body s a; for_each rest body s'
  end.

(** ** The programs of [eval.py] *)

Section Programs.

Context {Frame Sc : Type} {shaped : Shaped Frame}.

(** [sc]: Python floats; [batch]: the losses on the batched tensors of
    [evaluate_models]; [field]: the losses on single frames, as applied by
    the metric loop of [sample_iterative]. *)
Variable sc : Scalars Sc.
Variable batch : Losses (list Frame) Sc.
Variable field : Losses Frame Sc.

#[local] Abbreviation Prog := (Run (Event Frame Sc)).

(** [dataset[i]] *)
Definition get (dataset : Dataset Frame) (i : Z) : Prog (Sample Frame) :=
  emit (EvGet i);; lift (getitem dataset i).

(** [model(x.unsqueeze(0))] *)
Definition call (name : option string) (model : Model Frame) (x : list Frame)
  : Prog (list Frame) :=
  emit (EvCall name x);; mret (model x).

(** *** evaluate_models *)

Definition zero_record : MetricRecord Sc :=
  mkMetricRecord (f0 sc) (f0 sc) (f0 sc) (f0 sc) (f0 sc).

(** Lines 60-67: the five [+=] on [results[name]]. *)
Definition accumulate (r : MetricRecord Sc) (y_pred y_true : list Frame)
  : MetricRecord Sc :=
  let rel_l2_v :=
    tdiv sc (norm2 batch (tsub batch y_pred y_true)) (norm2 batch y_true) in
  let max_error_v := max_abs batch (tsub batch y_pred y_true) in
  {| mse := fadd sc (mse r) (mse_loss batch y_pred y_true);
     l2_loss := fadd sc (l2_loss r) (lp_loss batch y_pred y_true);
     h1_loss := fadd sc (h1_loss r) (sobolev_loss batch y_pred y_true);
     rel_l2 := fadd sc (rel_l2 r) rel_l2_v;
     max_error := fadd sc (max_error r) max_error_v |}.

(** Lines 53-67: the body of [for i in range(N)]. *)
Definition eval_sample (models : dict (Model Frame)) (dataset : Dataset Frame)
    (results : dict (MetricRecord Sc)) (i : Z) : Prog (dict (MetricRecord Sc)) :=
  data ← get dataset i;
  let x := data_x data in
  let y_true := data_y data in
  for_each models
    (fun results '(name, model) =>
       y_pred ← call (Some name) model x;
       r ← lift (dict_get results name);
       mret (dict_set results name (accumulate r y_pred y_true)))
    results.

(** Lines 71-75: the body of [for name in results.keys()]. *)
Definition average (N : Z) (results : dict (MetricRecord Sc)) (name : string)
  : Prog (dict (MetricRecord Sc)) :=
  r ← lift (dict_get results name);
  a ← py_truediv sc (mse r) N;
  b ← py_truediv sc (l2_loss r) N;
  c ← py_truediv sc (h1_loss r) N;
  d ← py_truediv sc (rel_l2 r) N;
  e ← py_truediv sc (max_error r) N;
  mret (dict_set results name (mkMetricRecord a b c d e)).

Definition evaluate_models (models : dict (Model Frame)) (dataset : Dataset Frame)
    (print_results : bool) : Prog (dict (MetricRecord Sc)) :=
  let results := map (fun '(name, _) => (name, zero_record)) models in
  let N := Z.of_nat (ds_len dataset) in
  results ← for_each (seqZ 0 N) (eval_sample models dataset) results;
  results ← for_each (dict_keys results) (average N) results;
  (if print_results
   then for_each results (fun _ '(name, metrics) => emit (EvReport name metrics)) tt
   else mret tt);;
  mret results.

(** *** plot_inference_results_direct

    The matplotlib and seaborn calls are outside the repository and are
    recorded as one [EvRender] request.  What is modelled of each branch is
    what the code itself does with the two arrays along their leading axis:
    the indexing, the reductions, the broadcast of the difference and the
    reads of the animation's [update].  The arithmetic inside a frame stays
    with the presenter. *)

Definition unknown_kind (kind : string) : exn :=
  ValueError ("Unknown kind: " ++ kind ++
              ". Choose from 'pressure', 'animation', or 'error'.")%string.

Definition zero_size_min : exn :=
  ValueError "zero-size array to reduction operation minimum which has no identity".

(** The error of [a - b] on numpy arrays whose shapes do not broadcast; the
    two shapes that end the message are left out. *)
Definition broadcast_error : exn :=
  ValueError "operands could not be broadcast together".

(** Broadcasting along the leading axis: the lengths agree or one is one. *)
Definition broadcastable (m n : nat) : bool :=
  Nat.eqb m n || Nat.eqb m 1 || Nat.eqb n 1.

Definition plot_inference_results_direct (pred_data target_data : list Frame)
    (path : option string) (kind : string) (name : option string) : Prog unit :=
  let name := match name with
              | None => ""
              | Some n => " (" ++ n ++ ")"
              end%string in
  if String.eqb kind "pressure" then
    p ← lift (py_getitem pred_data (-1));
    t ← lift (py_getitem target_data (-1));
    emit (EvRender (PressureFigure p t ("Pressure Results" ++ name)%string path))
  else if String.eqb kind "animation" then
    emit (EvPrint "Creating prediction animation...");;
    (match pred_data, target_data with
     | _ :: _, _ :: _ => mret tt
     | _, _ => raise zero_size_min
     end);;
    let path := match path with
                | None => "pressure_evolution.gif"%string
                | Some p => p
                end in
    emit (EvPrint ("Saving animation to " ++ path)%string);;
    (* [anim.save] runs [update(frame)] for every [frame] below
       [pred_data.shape[0]], and [update] reads [target_data[frame]] *)
    (if (length target_data <? length pred_data)%nat
     then raise IndexError
     else mret tt);;
    emit (EvRender (AnimationGif pred_data target_data
                      ("Pressure Field Evolution" ++ name)%string path));;
    emit (EvPrint "Animation saved.")
  else if String.eqb kind "error" then
    (* [np.abs(pred_data - target_data)], before anything is printed *)
    (if broadcastable (length pred_data) (length target_data)
     then mret tt
     else raise broadcast_error);;
    emit (EvPrint "Plotting error evolution...");;
    emit (EvPrint "Plotting error distribution...");;
    emit (EvRender (ErrorFigure pred_data target_data name path));;
    emit (EvPrint "Error plots saved.")
  else raise (unknown_kind kind).

(** *** sample_iterative *)

(** Lines 313-334, the [while] loop. *)
Fixpoint rollout_loop (fuel : nat) (model : Model Frame) (dataset : Dataset Frame)
    (i : Z) (init_cond : Frame) (y_true y_pred : list (list Frame))
  : Prog (list (list Frame) * list (list Frame)) :=
  if i <? Z.of_nat (ds_len dataset) then
    match fuel with
    | O => out_of_fuel
    | S fuel' =>
        data ← get dataset i;
        x ← lift (py_setitem0 (data_x data) init_cond);
        pred ← call None model x;
        init_cond' ← lift (squeezed_last pred);
        rollout_loop fuel' model dataset (i + (depth dataset - 1)) init_cond'
          (y_true ++ [py_slice (data_y data) 0 (-1)])
          (y_pred ++ [py_slice pred 0 (-1)])
    end
  else mret (y_true, y_pred).

(** Lines 305-338: the stitched sequences [(y_true, y_pred)]. *)
Definition rollout (fuel : nat) (model : Model Frame) (dataset : Dataset Frame)
  : Prog (list Frame * list Frame) :=
  first ← get dataset 0;
  init_cond ← lift (py_getitem (data_x first) 0);
  '(y_true, y_pred) ← rollout_loop fuel model dataset 0 init_cond [] [];
  let N := Z.of_nat (ds_len dataset) in
  y_true ← lift (torch_stack y_true);
  let y_true := py_slice (flatten01 y_true) 0 N in
  y_pred ← lift (torch_stack y_pred);
  let y_pred := py_slice (flatten01 y_pred) 0 N in
  mret (y_true, y_pred).

Definition zero_totals : RolloutMetrics Sc :=
  mkRolloutMetrics (f0 sc) (f0 sc) (f0 sc) (f0 sc).

(** Lines 359-377: the body of the metric loop. *)
Definition metric_step (y_true y_pred : list Frame) (tot : RolloutMetrics Sc) (i : Z)
  : Prog (RolloutMetrics Sc) :=
  y ← lift (py_getitem y_true i);
  pred ← lift (py_getitem y_pred i);
  mret {| avg_l2_loss := fadd sc (avg_l2_loss tot) (lp_loss field pred y);
          avg_h1_loss := fadd sc (avg_h1_loss tot) (sobolev_loss field pred y);
          avg_mse_loss := fadd sc (avg_mse_loss tot) (mse_loss field pred y);
          avg_max_error := fadd sc (avg_max_error tot)
                             (max_abs field (tsub field pred y)) |}.

(** Lines 342-391. *)
Definition rollout_metrics (dataset : Dataset Frame) (name : option string)
    (y_true y_pred : list Frame) : Prog unit :=
  let N := Z.of_nat (ds_len dataset) in
  tot ← for_each (seqZ 0 N) (metric_step y_true y_pred) zero_totals;
  l2 ← py_truediv sc (avg_l2_loss tot) N;
  h1 ← py_truediv sc (avg_h1_loss tot) N;
  ms ← py_truediv sc (avg_mse_loss tot) N;
  mx ← py_truediv sc (avg_max_error tot) N;
  emit (EvRolloutReport name (mkRolloutMetrics ms l2 h1 mx)).

(** Lines 393-413: the presentation window [(y_pred, y_true)]. *)
Definition window (kind : string) (index : option Z) (dataset : Dataset Frame)
    (y_pred y_true : list Frame) : list Frame * list Frame :=
  let N := Z.of_nat (ds_len dataset) in
  let D := depth dataset in
  if String.eqb kind "pressure" then
    let index := match index with None => N / 2 | Some k => k end in
    (py_slice y_pred index (index + D), py_slice y_true index (index + D))
  else
    match String.eqb kind "error", index with
    | true, Some index =>
        (py_slice y_pred index (index + D), py_slice y_true index (index + D))
    | _, _ =>
        if String.eqb kind "animation" then
          let index := match index with None => D | Some k => k end in
          (py_slice y_pred (N / 2) (N / 2 + index),
           py_slice y_true (N / 2) (N / 2 + index))
        else (y_pred, y_true)
    end.

Definition sample_iterative (fuel : nat) (model : Model Frame)
    (dataset : Dataset Frame) (path : option string) (kind : string)
    (name : option string) (compute_metrics : bool) (index : option Z)
  : Prog unit :=
  '(y_true, y_pred) ← rollout fuel model dataset;
  emit (EvSampled (length y_true));;
  (if compute_metrics then rollout_metrics dataset name y_true y_pred else mret tt);;
  let '(y_pred, y_true) := window kind index dataset y_pred y_true in
  plot_inference_results_direct y_pred y_true path kind name.

End Programs.

(** ** Specification-level vocabulary *)

(** The samples [dataset[0], ..., dataset[N-1]], when every one of these
    accesses succeeds. *)
Definition in_range_samples {Frame : Type} (dataset : Dataset Frame)
  : option (list (Sample Frame)) :=
  mapM (fun i => match getitem dataset i with
                 | inr s => Some s
                 | inl _ => None
                 end)
       (seqZ 0 (Z.of_nat (ds_len dataset))).

(** A sample of a source of depth [D]: the target has [D] frames and the
    input has a first frame. *)
Definition wf_sample {Frame : Type} (D : Z) (s : Sample Frame) : bool :=
  (Z.of_nat (length (data_y s)) =? D) &&
  match data_x s with
  | [] => false
  | _ :: _ => true
  end.

(** The accesses [dataset[i]] and the predictor inputs recorded in a trace. *)
Definition gets {Frame Sc : Type} (t : list (Event Frame Sc)) : list Z :=
  omap (fun e => match e with
                 | EvGet i => Some i
                 | _ => None
                 end) t.

Definition calls {Frame Sc : Type} (t : list (Event Frame Sc)) : list (list Frame) :=
  omap (fun e => match e with
                 | EvCall _ x => Some x
                 | _ => None
                 end) t.

(** The indices [0, D-1, 2(D-1), ...] below [N]. *)
Definition window_starts (N D : Z) : list Z :=
  (fun k => k * (D - 1)) <$> seqZ 0 ((N + D - 2) / (D - 1)).

Section Windows.

Context {Frame : Type}.
Variable model : Model Frame.
Variable samples : list (Sample Frame).
Variable stride : nat.

(** One turn of the loop of [sample_iterative]: the index it reads, the
    tensor handed to the predictor, the prediction, and the sample's target. *)
Record Window : Type := mkWindow {
  w_start : nat;
  w_input : list Frame;
  w_pred : list Frame;
  w_target : list Frame
}.

(** The turns taken from index [i] on with carried frame [c], at most [n]. *)
Fixpoint windows (n i : nat) (c : Frame) : list Window :=
  match n with
  | O => []
  | S n' =>
      match samples !! i with
      | None => []
      | Some s =>
          let x := c :: tail (data_x s) in
          let p := model x in
          mkWindow i x p (data_y s) :: windows n' (i + stride) (default c (last p))
      end
  end.

Definition window_events {Sc : Type} (w : Window) : list (Event Frame Sc) :=
  [EvGet (Z.of_nat (w_start w)); EvCall None (w_input w)].

Definition emitted_true (w : Window) : list Frame := py_slice (w_target w) 0 (-1).
Definition emitted_pred (w : Window) : list Frame := py_slice (w_pred w) 0 (-1).

End Windows.

Arguments Window Frame : clear implicits.

(** ** Two instances of the numeric libraries *)

(** Exact arithmetic on the rationals: rounding is left out. *)
Definition exact_scalars : Scalars Qc :=
  {| f0 := 0%Qc;
     fadd := Qcplus;
     fdiv := Qcdiv;
     of_int := Qc_of_Z;
     tdiv := Qcdiv |}.

(** IEEE-754 arithmetic, as specified by [SpecFloat].  The running sums are
    Python floats, that is binary64.  The tensors have a dtype of precision
    [tprec] and exponent bound [temax] (24 and 128 for float32, 53 and 1024
    for float64); [.item()] widens a value without changing it. *)
Definition ieee_scalars (tprec temax : Z) : Scalars spec_float :=
  {| f0 := S754_zero false;
     fadd := SFadd 53 1024;
     fdiv := SFdiv 53 1024;
     of_int := fun n => binary_normalize 53 1024 n 0 false;
     tdiv := SFdiv tprec temax |}.

(** A value that is an infinity or a NaN. *)
Definition non_finite (v : spec_float) : bool :=
  match v with
  | S754_infinity _ | S754_nan => true
  | S754_zero _ | S754_finite _ _ _ => false
  end.

Definition is_zero (v : spec_float) : bool :=
  match v with
  | S754_zero _ => true
  | _ => false
  end.

(** ** The extent of concrete frames *)

(** A frame given by its rows. *)
#[global] Instance rows_shaped {A : Type} : Shaped (list (list A)) :=
  {| height := fun f => Z.of_nat (length f);
     width := fun f => Z.of_nat (length (hd [] f)) |}.

(** ** A small source for examples

    Frames are uniform [2 x 2] fields: the integer [z] stands for the field
    whose four entries are [z].  Sample [i] has input frames
    [10 i, 10 i + 1, 10 i + 2] and target frames
    [100 i, 100 i + 1, 100 i + 2]. *)

#[global] Instance uniform_shaped : Shaped Z :=
  {| height := fun _ => 2; width := fun _ => 2 |}.

Definition demo_sample (i : Z) : Sample Z :=
  mkSample [10 * i; 10 * i + 1; 10 * i + 2] [100 * i; 100 * i + 1; 100 * i + 2].

Definition demo_samples : list (Sample Z) := demo_sample <$> [0; 1; 2; 3; 4].

(** [N = 5], [D = 3]. *)
Definition demo_dataset : Dataset Z := list_dataset 3 demo_samples.

(** A predictor: three frames computed from the first input frame. *)
Definition demo_model : Model Z :=
  fun x => let c := hd 0 x in [c + 1000; c + 2000; c + 3000].

(** The losses on a uniform [2 x 2] field, in exact arithmetic. *)
Definition pixel_losses : Losses Z Qc :=
  {| tsub := Z.sub;
     norm2 := fun t => Qc_of_Z (2 * Z.abs t);
     max_abs := fun t => Qc_of_Z (Z.abs t);
     mse_loss := fun p y => Qc_of_Z ((p - y) * (p - y));
     lp_loss := fun p y => (Qc_of_Z (Z.abs (p - y)) / Qc_of_Z (Z.abs y))%Qc;
     sobolev_loss := fun p y => (Qc_of_Z (Z.abs (p - y)) / Qc_of_Z (Z.abs y))%Qc |}.

(** ** Vocabulary for [evaluate_models] *)

(** The running sum [0.0 + f a1 + f a2 + ...], added in list order. *)
Definition running_sum {Sc A : Type} (sc : Scalars Sc) (f : A -> Sc) (l : list A) : Sc :=
  foldl (fun acc a => fadd sc acc (f a)) (f0 sc) l.

(** The five accumulators, each divided by [float(N)]. *)
Definition averaged {Sc : Type} (sc : Scalars Sc) (N : Z) (r : MetricRecord Sc)
  : MetricRecord Sc :=
  mkMetricRecord (fdiv sc (mse r) (of_int sc N)) (fdiv sc (l2_loss r) (of_int sc N))
    (fdiv sc (h1_loss r) (of_int sc N)) (fdiv sc (rel_l2 r) (of_int sc N))
    (fdiv sc (max_error r) (of_int sc N)).

Section EvaluateVocabulary.

Context {Frame Sc : Type}.
Variable sc : Scalars Sc.
Variable batch : Losses (list Frame) Sc.
Variable models : dict (Model Frame).

(** The accumulators of one predictor after the samples, in order. *)
Definition total_record (model : Model Frame) (samples : list (Sample Frame))
  : MetricRecord Sc :=
  foldl (fun r s => accumulate sc batch r (model (data_x s)) (data_y s))
        (zero_record sc) samples.

(** The events of one turn of the sample loop: the access to the sample,
    then one call per predictor, in the order of the dict. *)
Definition sample_events (p : Z * Sample Frame) : list (Event Frame Sc) :=
  EvGet p.1 :: map (fun '(name, _) => EvCall (Some name) (data_x p.2)) models.

(** The results after one more sample. *)
Definition step_all (s : Sample Frame) (d : dict (MetricRecord Sc))
  : dict (MetricRecord Sc) :=
  map (fun '(k, r) =>
         (k, match find (fun a : string * Model Frame => String.eqb a.1 k) models with
             | Some a => accumulate sc batch r (a.2 (data_x s)) (data_y s)
             | None => r
             end)) d.

(** What [evaluate_models] returns on a non-empty source. *)
Definition expected_results (samples : list (Sample Frame)) : dict (MetricRecord Sc) :=
  map (fun '(name, model) =>
         (name, averaged sc (Z.of_nat (length samples))
                  (total_record model samples))) models.

End EvaluateVocabulary.

(** ** Tensors of rationals *)

(** A frame is an [H x W] field, a tensor a list of frames. *)
Definition QFrame : Type := list (list Qc).

(** The entries of a tensor, in row-major order. *)
Definition entries (t : list QFrame) : list Qc := concat (concat t).

Definition qsum (l : list Qc) : Qc := foldr Qcplus 0%Qc l.

(** The mean of the squared differences of the entries. *)
Definition exact_mse (pred y : list QFrame) : Qc :=
  (qsum (zip_with (fun a b => (a - b) * (a - b)) (entries pred) (entries y))
   / Qc_of_Z (Z.of_nat (length (entries pred))))%Qc.

(** [t + c], entry by entry. *)
Definition shift (c : Qc) (t : list QFrame) : list QFrame :=
  map (map (map (fun a => (a + c)%Qc))) t.


(** An instance of the tensor library over the rationals.  The mean squared
    error and the maximal absolute entry are exact.  The 2-norm of a rational
    tensor is not rational in general: this instance holds the squared norm
    in its place, and the ratio of squared norms for the two relative
    losses. *)
Definition qmax_abs (t : list QFrame) : Qc :=
  foldr (fun a m => if Qclt_le_dec m (Qcabs a) then Qcabs a else m) 0%Qc
    (entries t).

Definition squared_norm (t : list QFrame) : Qc :=
  qsum (map (fun a => (a * a)%Qc) (entries t)).

Definition tensor_sub (p y : list QFrame) : list QFrame :=
  zip_with (zip_with (zip_with Qcminus)) p y.

Definition rational_losses : Losses (list QFrame) Qc :=
  {| tsub := tensor_sub;
     norm2 := squared_norm;
     max_abs := qmax_abs;
     mse_loss := exact_mse;
     lp_loss := fun p y => (squared_norm (tensor_sub p y) / squared_norm y)%Qc;
     sobolev_loss := fun p y => (squared_norm (tensor_sub p y) / squared_norm y)%Qc |}.

(** Two samples of depth 2 on [1 x 2] fields, whose input is their target,
    and two predictors: the identity and the shift by 3. *)
Definition q (z : Z) : Qc := Qc_of_Z z.

Definition demo_qsamples : list (Sample QFrame) :=
  [ mkSample [[[q 1; q 2]]; [[q 3; q 4]]] [[[q 1; q 2]]; [[q 3; q 4]]];
    mkSample [[[q 5; q 6]]; [[q 7; q 8]]] [[[q 5; q 6]]; [[q 7; q 8]]] ].

Definition demo_qdataset : Dataset QFrame := list_dataset 2 demo_qsamples.

Definition demo_models : dict (Model QFrame) :=
  [("identity"%string, fun x => x); ("shifted"%string, shift (q 3))].

(** ** A float32 instance for examples

    Frames are [1 x 1] fields holding a float32. *)

Definition f32 (z : Z) : spec_float := binary_normalize 24 128 z 0 false.

Definition f32_sum_squares (t : list spec_float) : spec_float :=
  foldl (fun acc v => SFadd 24 128 acc (SFmul 24 128 v v)) (S754_zero false) t.

Definition f32_max_abs (t : list spec_float) : spec_float :=
  foldl (fun m v => if SFltb m (SFabs v) then SFabs v else m) (S754_zero false) t.

Definition f32_sub (p y : list spec_float) : list spec_float :=
  zip_with (SFsub 24 128) p y.

Definition f32_norm (t : list spec_float) : spec_float :=
  SFsqrt 24 128 (f32_sum_squares t).

Definition f32_losses : Losses (list spec_float) spec_float :=
  {| tsub := f32_sub;
     norm2 := f32_norm;
     max_abs := f32_max_abs;
     mse_loss := fun p y =>
       SFdiv 24 128 (f32_sum_squares (f32_sub p y)) (f32 (Z.of_nat (length p)));
     lp_loss := fun p y => SFdiv 24 128 (f32_norm (f32_sub p y)) (f32_norm y);
     sobolev_loss := fun p y => SFdiv 24 128 (f32_norm (f32_sub p y)) (f32_norm y) |}.

(** Two samples of depth 2; the target of the second is zero everywhere. *)
Definition demo_fsamples : list (Sample spec_float) :=
  [ mkSample [f32 1; f32 2] [f32 3; f32 4];
    mkSample [f32 1; f32 2] [f32 0; f32 0] ].

Definition demo_fdataset : Dataset spec_float := list_dataset 2 demo_fsamples.

Definition demo_fmodels : dict (Model spec_float) := [("copy"%string, fun x => x)].





(** ** Vocabulary for the metrics of [sample_iterative] *)

Section RolloutVocabulary.

Context {Frame Sc : Type}.
Variable sc : Scalars Sc.
Variable field : Losses Frame Sc.

(** The four running sums over the aligned pairs, in order. *)
Definition rollout_totals (y_true y_pred : list Frame) : RolloutMetrics Sc :=
  foldl (fun tot '(y, pred) =>
           {| avg_l2_loss := fadd sc (avg_l2_loss tot) (lp_loss field pred y);
              avg_h1_loss := fadd sc (avg_h1_loss tot) (sobolev_loss field pred y);
              avg_mse_loss := fadd sc (avg_mse_loss tot) (mse_loss field pred y);
              avg_max_error := fadd sc (avg_max_error tot)
                                 (max_abs field (tsub field pred y)) |})
        (zero_totals sc) (zip y_true y_pred).

(** The averages printed when [compute_metrics] is set. *)
Definition rollout_report (N : Z) (y_true y_pred : list Frame) : RolloutMetrics Sc :=
  mkRolloutMetrics
    (fdiv sc (avg_mse_loss (rollout_totals y_true y_pred)) (of_int sc N))
    (fdiv sc (avg_l2_loss (rollout_totals y_true y_pred)) (of_int sc N))
    (fdiv sc (avg_h1_loss (rollout_totals y_true y_pred)) (of_int sc N))
    (fdiv sc (avg_max_error (rollout_totals y_true y_pred)) (of_int sc N)).

(** The events of lines 342-391. *)
Definition metrics_events (compute_metrics : bool) (name : option string) (N : Z)
    (y_true y_pred : list Frame) : list (Event Frame Sc) :=
  if compute_metrics then [EvRolloutReport name (rollout_report N y_true y_pred)] else [].

End RolloutVocabulary.

(** The same losses on a single frame. *)
Definition rational_frame_losses : Losses QFrame Qc :=
  {| tsub := fun p y => zip_with (zip_with Qcminus) p y;
     norm2 := fun f => squared_norm [f];
     max_abs := fun f => qmax_abs [f];
     mse_loss := fun p y => exact_mse [p] [y];
     lp_loss := fun p y => lp_loss rational_losses [p] [y];
     sobolev_loss := fun p y => sobolev_loss rational_losses [p] [y] |}.

(** ** The remaining entry points of [eval.py] *)

(** *** plot_inference_results (lines 237-275)

    One sample, one call of the predictor, one figure.  [pred[0]] removes
    the batch axis, which is not represented. *)
Definition plot_inference_results {Frame Sc : Type} (model : Model Frame)
    (dataset : Dataset Frame) (index : option Z) (path : option string)
    (kind : string) (name : option string) : Run (Event Frame Sc) unit :=
  let index := match index with
               | None => Z.of_nat (ds_len dataset) / 2
               | Some k => k
               end in
  data ← get dataset index;
  pred ← call None model (data_x data);
  plot_inference_results_direct pred (data_y data) path kind name.

(** The samples [dataset[0], ..., dataset[k-1]], when these accesses
    succeed. *)
Definition samples_upto {Frame : Type} (dataset : Dataset Frame) (k : nat)
  : option (list (Sample Frame)) :=
  mapM (fun i => match getitem dataset i with
                 | inr s => Some s
                 | inl _ => None
                 end)
       (seqZ 0 (Z.of_nat k)).

(** A source of three samples whose third access fails. *)
Definition demo_broken_dataset : Dataset QFrame :=
  {| ds_len := 3;
     depth := 2;
     getitem := fun i => if i <? 2 then py_getitem demo_qsamples i else inl RuntimeError |}.

(** A sample whose input has a first frame. *)
Definition has_input {Frame : Type} (s : Sample Frame) : bool :=
  match data_x s with
  | [] => false
  | _ :: _ => true
  end.

(** Five samples of depth 3, the third of which has a target of two frames
    only. *)
Definition demo_ragged_samples : list (Sample Z) :=
  [demo_sample 0; demo_sample 1; mkSample [20; 21; 22] [200; 201];
   demo_sample 3; demo_sample 4].

(** *** plot_initial_conditions (lines 91-132)

    Here the three tensors of a sample are read entry by entry: a tensor of
    shape [C, H, W] is a list of [C] frames, a frame a list of [H] rows of
    [W] entries.  torch tensors are rectangular; on rectangular lists the
    functions below are the torch operations they are named after. *)

Section InitialConditions.

Context {S : Type}.

(** The entries of a dataset item read by [plot_initial_conditions]. *)
Record FieldSample : Type := mkFieldSample {
  fs_y : list (list (list S));      (* data["y"], pressure *)
  fs_v : list (list (list S));      (* data["v"], velocity: x and y channels in turn *)
  fs_a : list (list (list S))       (* data["a"], alpha *)
}.

Record FieldDataset : Type := mkFieldDataset {
  fd_len : nat;
  fd_getitem : Z -> exn + FieldSample
}.

(** The arithmetic of the tensor entries: [0], [a - b], [a / b], and the
    binary minimum and maximum that [t.min()] and [t.max()] reduce with. *)
Record FieldOps : Type := mkFieldOps {
  e_zero : S;
  e_sub : S -> S -> S;
  e_div : S -> S -> S;
  e_min : S -> S -> S;
  e_max : S -> S -> S
}.

(** What is drawn: the first pressure frame, the first velocity image (a
    pixel is the list of its three colour channels) and the first alpha
    frame. *)
Inductive InitEvent : Type :=
| InitGet (i : Z)
| InitRender (pressure : list (list S)) (velocity : list (list (list S)))
    (alpha : list (list S)) (path : option string).

Variable ops : FieldOps.

(** [v.reshape(-1, 2, H, W)]: the frames two by two.  An odd number of
    frames does not fit the shape. *)
Fixpoint pair_up (v : list (list (list S)))
  : exn + list (list (list S) * list (list S)) :=
  match v with
  | [] => inr []
  | [_] => inl RuntimeError
  | vx :: vy :: rest =>
      match pair_up rest with
      | inl e => inl e
      | inr pairs => inr ((vx, vy) :: pairs)
      end
  end.

(** [v.permute(0, 2, 3, 1)] followed by [torch.cat([v, zeros], dim=3)] on one
    pair of frames: the pixel at [(h, w)] holds the two velocity components
    and a zero. *)
Definition to_pixels (p : list (list S) * list (list S)) : list (list (list S)) :=
  zip_with (zip_with (fun vx vy => [vx; vy; e_zero ops])) p.1 p.2.

Definition pixel_entries (v : list (list (list (list S)))) : list S :=
  concat (concat (concat v)).

(** [t.min()] and [t.max()]: a reduction over all entries, which raises on a
    tensor without entries. *)
Definition reduce (f : S -> S -> S) (l : list S) : exn + S :=
  match l with
  | [] => inl RuntimeError
  | a :: rest => inr (foldl f a rest)
  end.

(** [(v - v.min()) / (v.max() - v.min())] *)
Definition normalise (lo hi : S) (v : list (list (list (list S))))
  : list (list (list (list S))) :=
  map (map (map (map (fun a => e_div ops (e_sub ops a lo) (e_sub ops hi lo))))) v.

Definition plot_initial_conditions (dataset : FieldDataset) (index : option Z)
    (path : option string) : Run InitEvent unit :=
  let index := match index with
               | None => Z.of_nat (fd_len dataset) / 2
               | Some k => k
               end in
  emit (InitGet index);;
  data ← lift (fd_getitem dataset index);
  let p := fs_y data in
  let v := fs_v data in
  let a := fs_a data in
  pairs ← lift (pair_up v);
  let v := map to_pixels pairs in
  lo ← lift (reduce (e_min ops) (pixel_entries v));
  hi ← lift (reduce (e_max ops) (pixel_entries v));
  let v := normalise lo hi v in
  p0 ← lift (py_getitem p 0);
  v0 ← lift (py_getitem v 0);
  a0 ← lift (py_getitem a 0);
  emit (InitRender p0 v0 a0 path).

End InitialConditions.

Arguments FieldSample S : clear implicits.
Arguments FieldDataset S : clear implicits.
Arguments FieldOps S : clear implicits.
Arguments InitEvent S : clear implicits.

(** The entries as exact rationals. *)
Definition rational_ops : FieldOps Qc :=
  {| e_zero := 0%Qc;
     e_sub := Qcminus;
     e_div := Qcdiv;
     e_min := fun a b => if Qclt_le_dec b a then b else a;
     e_max := fun a b => if Qclt_le_dec a b then b else a |}.

(** The entries as float32 values; a NaN operand makes the minimum and the
    maximum NaN. *)
Definition f32_ops : FieldOps spec_float :=
  {| e_zero := S754_zero false;
     e_sub := SFsub 24 128;
     e_div := SFdiv 24 128;
     e_min := fun a b =>
       match a, b with
       | S754_nan, _ | _, S754_nan => S754_nan
       | _, _ => if SFltb b a then b else a
       end;
     e_max := fun a b =>
       match a, b with
       | S754_nan, _ | _, S754_nan => S754_nan
       | _, _ => if SFltb a b then b else a
       end |}.

(** A sample of [2 x 2] fields with one velocity pair, in a source of one
    sample. *)
Definition demo_field_sample : FieldSample Qc :=
  mkFieldSample [[[q 1; q 2]; [q 3; q 4]]]
                [[[q (-2); q 0]; [q 1; q 2]]; [[q 2; q (-1)]; [q 0; q 1]]]
                [[[q 5; q 5]; [q 5; q 5]]].

Definition demo_field_dataset : FieldDataset Qc :=
  {| fd_len := 1; fd_getitem := py_getitem [demo_field_sample] |}.

(** A sample at rest: every velocity entry is zero. *)
Definition demo_still_sample : FieldSample spec_float :=
  mkFieldSample [[[f32 1; f32 2]]] [[[f32 0; f32 0]]; [[f32 0; f32 0]]] [[[f32 3; f32 3]]].

Definition demo_still_dataset : FieldDataset spec_float :=
  {| fd_len := 1; fd_getitem := py_getitem [demo_still_sample] |}.

(** A sample whose velocity has three channels, which cannot be paired. *)
Definition demo_odd_sample : FieldSample Qc :=
  mkFieldSample [[[q 1]]] [[[q 1]]; [[q 2]]; [[q 3]]] [[[q 5]]].

Definition demo_odd_dataset : FieldDataset Qc :=
  {| fd_len := 1; fd_getitem := py_getitem [demo_odd_sample] |}.

(** * Facts *)

(** ** Slicing and indexing *)

Lemma slice_bound_nonneg n i : 0 <= n -> 0 <= i -> slice_bound n i = Z.min i n.
Proof. intros Hn Hi. unfold slice_bound. destruct (Z.ltb_spec i 0); [lia | done]. Qed.

Lemma py_slice_nonneg {A} (l : list A) (start stop : Z) :
  0 <= start -> 0 <= stop ->
  py_slice l start stop = take (Z.to_nat (stop - start)) (drop (Z.to_nat start) l).
Proof.
  intros Ha Hb. unfold py_slice.
  rewrite !slice_bound_nonneg by lia.
  destruct (Z.le_gt_cases start (Z.of_nat (length l))) as [Hle | Hgt].
  - rewrite (Z.min_l start) by lia.
    destruct (Z.le_gt_cases stop (Z.of_nat (length l))) as [Hle' | Hgt'].
    + by rewrite (Z.min_l stop) by lia.
    + rewrite (Z.min_r stop) by lia.
      rewrite !take_ge; [done | |]; rewrite length_drop; lia.
  - rewrite (Z.min_r start) by lia.
    rewrite !(drop_ge l); [by rewrite !take_nil | lia | lia].
Qed.

Lemma py_slice_prefix {A} (l : list A) (n : nat) :
  py_slice l 0 (Z.of_nat n) = take n l.
Proof.
  rewrite py_slice_nonneg by lia. simpl.
  by rewrite Z.sub_0_r, Nat2Z.id.
Qed.

Lemma py_slice_drop_last {A} (l : list A) :
  py_slice l 0 (-1) = take (length l - 1) l.
Proof.
  unfold py_slice, slice_bound.
  change (0 <? 0) with false. change (-1 <? 0) with true. cbv iota.
  destruct l as [|a l]; [done|].
  rewrite Z.min_l by lia.
  rewrite Z.max_r by (simpl length; lia).
  simpl drop. f_equal. simpl length. lia.
Qed.

Lemma py_getitem_last {A} (l : list A) :
  py_getitem l (-1) = from_option inr (inl IndexError) (last l).
Proof.
  unfold py_getitem. change (-1 <? 0) with true. cbv iota.
  destruct l as [|a l]; [done|].
  destruct (Z.leb_spec 0 (-1 + Z.of_nat (length (a :: l)))); [|simpl length in *; lia].
  destruct (Z.ltb_spec (-1 + Z.of_nat (length (a :: l))) (Z.of_nat (length (a :: l)))); [|lia].
  simpl andb. cbv iota.
  replace (Z.to_nat (-1 + Z.of_nat (length (a :: l)))) with (pred (length (a :: l))) by lia.
  rewrite <- last_lookup. by destruct (last (a :: l)).
Qed.

Lemma py_getitem_nat {A} (l : list A) (i : nat) :
  py_getitem l (Z.of_nat i) = from_option inr (inl IndexError) (l !! i).
Proof.
  unfold py_getitem.
  destruct (Z.ltb_spec (Z.of_nat i) 0); [lia|].
  destruct (Z.leb_spec 0 (Z.of_nat i)); [|lia].
  rewrite Nat2Z.id.
  destruct (Z.ltb_spec (Z.of_nat i) (Z.of_nat (length l))); simpl.
  - by destruct (l !! i).
  - rewrite lookup_ge_None_2 by lia. done.
Qed.

(** ** Facts about [Run] *)

Lemma bind_done {E A B} (f : A -> Run E B) (m : Run E A) t a t' r :
  m = (t, Done a) -> f a = (t', r) -> mbind f m = (t ++ t', r).
Proof. intros -> Hf. unfold mbind, Run_bind, run_bind. by rewrite Hf. Qed.

Lemma bind_step {E A B} (f : A -> Run E B) (m : Run E A) t a :
  m = (t, Done a) -> mbind f m = (t ++ trace (f a), result (f a)).
Proof. intros ->. unfold mbind, Run_bind, run_bind. by destruct (f a). Qed.

Lemma bind_ret {E A B} (f : A -> Run E B) (a : A) : mbind f (mret a) = f a.
Proof.
  unfold mbind, Run_bind, run_bind, mret, Run_ret, run_ret.
  by destruct (f a).
Qed.

Lemma bind_emit {E B} (f : unit -> Run E B) (e : E) :
  mbind f (emit e) = (e :: trace (f tt), result (f tt)).
Proof. unfold mbind, Run_bind, run_bind, emit. by destruct (f tt). Qed.

Lemma bind_lift_inr {E A B} (f : A -> Run E B) (a : A) : mbind f (lift (inr a)) = f a.
Proof. apply bind_ret. Qed.

(** ** The windows of the rollout *)

Section WindowsFacts.

Context {Frame : Type}.
Variable model : Model Frame.
Variable samples : list (Sample Frame).
Variable stride : nat.

#[local] Abbreviation windows' := (windows model samples stride).


Lemma windows_lookup n i c k w :
  windows' n i c !! k = Some w ->
  w_start w = (i + k * stride)%nat /\
  w_pred w = model (w_input w) /\
  exists s, samples !! w_start w = Some s /\ w_target w = data_y s /\
            tail (w_input w) = tail (data_x s) /\ w_input w <> [].
Proof.
  revert i c k. induction n as [|n IH]; intros i c k; [done|]. simpl.
  destruct (samples !! i) as [s|] eqn:Hs; [|done].
  destruct k as [|k]; simpl.
  - intros [= <-]. simpl. split; [lia|]. split; [done|]. by exists s.
  - intros Hk. apply IH in Hk as (-> & Hp & Hrest).
    split; [lia|]. split; [done|]. done.
Qed.


Lemma ceil_div_step (m s : nat) :
  (1 <= s)%nat -> (1 <= m)%nat -> ((m + s - 1) / s = S ((m - s + s - 1) / s))%nat.
Proof.
  intros Hs Hm.
  destruct (Nat.le_gt_cases s m) as [Hle | Hgt].
  - replace (m + s - 1)%nat with ((m - s + s - 1) + 1 * s)%nat by lia.
    rewrite Nat.div_add by lia. lia.
  - replace (m - s + s - 1)%nat with (s - 1)%nat by lia.
    rewrite (Nat.div_small (s - 1)) by lia.
    replace (m + s - 1)%nat with ((m - 1) + 1 * s)%nat by lia.
    rewrite Nat.div_add by lia. rewrite Nat.div_small by lia. done.
Qed.

Lemma windows_length n i c :
  (1 <= stride)%nat -> (length samples - i <= n * stride)%nat ->
  length (windows' n i c) = ((length samples - i + stride - 1) / stride)%nat.
Proof.
  intros Hs. revert i c. induction n as [|n IH]; intros i c Hn; simpl.
  - replace (length samples - i)%nat with 0%nat by lia.
    simpl. rewrite Nat.div_small by lia. done.
  - destruct (samples !! i) as [s|] eqn:Hsi.
    + apply lookup_lt_Some in Hsi. simpl. rewrite IH by lia.
      rewrite (ceil_div_step (length samples - i)) by lia.
      do 3 f_equal. lia.
    + apply lookup_ge_None in Hsi.
      replace (length samples - i)%nat with 0%nat by lia.
      simpl. rewrite Nat.div_small by lia. done.
Qed.

End WindowsFacts.

(** ** The frames a window emits *)

Section EmittedFacts.

Context {Frame : Type}.
Variable model : Model Frame.
Variable samples : list (Sample Frame).
Variable stride : nat.
Hypothesis Hy : Forall (fun s => length (data_y s) = S stride) samples.
Hypothesis Hmodel : forall x, length (model x) = S stride.





Lemma emitted_true_length fuel i c :
  Forall (fun w => length w = stride) (emitted_true <$> windows model samples stride fuel i c).
Proof.
  apply Forall_fmap, Forall_lookup. intros k w Hw. simpl.
  apply windows_lookup in Hw as (_ & _ & s & Hs & Ht & _).
  unfold emitted_true. rewrite py_slice_drop_last, Ht, length_take.
  rewrite Forall_lookup in Hy. rewrite (Hy _ _ Hs). lia.
Qed.

Lemma emitted_pred_length fuel i c :
  Forall (fun w => length w = stride) (emitted_pred <$> windows model samples stride fuel i c).
Proof.
  apply Forall_fmap, Forall_lookup. intros k w Hw. simpl.
  apply windows_lookup in Hw as (_ & Hp & _).
  unfold emitted_pred. rewrite py_slice_drop_last, Hp, length_take, Hmodel. lia.
Qed.

End EmittedFacts.

(** ** The rollout, window by window *)

Lemma in_range_samples_length {Frame} (dataset : Dataset Frame) samples :
  in_range_samples dataset = Some samples -> length samples = ds_len dataset.
Proof.
  unfold in_range_samples. intros H. apply length_mapM in H.
  rewrite length_seqZ in H. lia.
Qed.

Lemma in_range_samples_lookup {Frame} (dataset : Dataset Frame) samples i s :
  in_range_samples dataset = Some samples -> samples !! i = Some s ->
  getitem dataset (Z.of_nat i) = inr s.
Proof.
  unfold in_range_samples. intros H Hs.
  apply mapM_Some_1 in H.
  destruct (Forall2_lookup_r _ _ _ _ _ H Hs) as (z & Hz & Hg).
  apply lookup_seqZ in Hz as [-> _]. rewrite Z.add_0_l in Hg.
  destruct (getitem dataset (Z.of_nat i)); congruence.
Qed.

(** With at least two frames, none with a unit axis, [squeeze()] drops the
    batch axis alone. *)
Lemma squeezed_last_keeps {Frame} {shaped : Shaped Frame} (t : list Frame) :
  length t <> 1%nat -> no_unit_axis t = true -> squeezed_last t = py_getitem t (-1).
Proof.
  intros Hlen Hax. unfold squeezed_last. rewrite Hax.
  by destruct (Nat.eqb_spec (length t) 1).
Qed.

Lemma squeezed_last_single {Frame} {shaped : Shaped Frame} (f : Frame) :
  squeezed_last [f] = inl IndexError.
Proof. done. Qed.

Lemma squeezed_last_unit_axis {Frame} {shaped : Shaped Frame} (t : list Frame) :
  no_unit_axis t = false -> squeezed_last t = inl IndexError.
Proof. intros Hax. unfold squeezed_last. rewrite Hax. by rewrite andb_false_r. Qed.

Section RolloutFacts.

Context {Frame Sc : Type} {shaped : Shaped Frame}.
Variable model : Model Frame.
Variable dataset : Dataset Frame.
Variable samples : list (Sample Frame).
Variable stride : nat.

Hypothesis Hsamples : in_range_samples dataset = Some samples.
Hypothesis Hdepth : depth dataset = Z.of_nat (S stride).
Hypothesis Hx : Forall (fun s => data_x s <> []) samples.
Hypothesis Hy : Forall (fun s => length (data_y s) = S stride) samples.
Hypothesis Hmodel : forall x, length (model x) = S stride.
Hypothesis Hstride : (1 <= stride)%nat.
Hypothesis Hframes : forall x, no_unit_axis (model x) = true.

Lemma get_inr (dataset0 : Dataset Frame) i s {B} (f : Sample Frame -> Run (Event Frame Sc) B) :
  getitem dataset0 i = inr s ->
  get dataset0 i ≫= f = (EvGet i :: trace (f s), result (f s)).
Proof.
  intros H. unfold get. rewrite H.
  unfold mbind, Run_bind, run_bind, emit, lift, mret, Run_ret, run_ret.
  by destruct (f s).
Qed.

Lemma get_inl (dataset0 : Dataset Frame) i e {B} (f : Sample Frame -> Run (Event Frame Sc) B) :
  getitem dataset0 i = inl e ->
  get dataset0 i ≫= f = ([EvGet i], Raised e).
Proof. intros H. unfold get. by rewrite H. Qed.

Lemma call_bind name (m : Model Frame) x {B} (f : list Frame -> Run (Event Frame Sc) B) :
  call name m x ≫= f = (EvCall name x :: trace (f (m x)), result (f (m x))).
Proof.
  unfold call, mbind, Run_bind, run_bind, emit, mret, Run_ret, run_ret.
  by destruct (f (m x)).
Qed.

Lemma rollout_loop_unfold fuel i c y_true y_pred :
  rollout_loop (Sc:=Sc) (S fuel) model dataset i c y_true y_pred =
    if i <? Z.of_nat (ds_len dataset) then
      data ← get dataset i;
      x ← lift (py_setitem0 (data_x data) c);
      pred ← call None model x;
      init_cond' ← lift (squeezed_last pred);
      rollout_loop fuel model dataset (i + (depth dataset - 1)) init_cond'
        (y_true ++ [py_slice (data_y data) 0 (-1)])
        (y_pred ++ [py_slice pred 0 (-1)])
    else mret (y_true, y_pred).
Proof. done. Qed.

Lemma rollout_loop_windows fuel i c y_true y_pred :
  (length samples - i <= fuel * stride)%nat ->
  rollout_loop fuel model dataset (Z.of_nat i) c y_true y_pred =
    (flat_map (window_events (Sc:=Sc)) (windows model samples stride fuel i c),
     Done (y_true ++ map emitted_true (windows model samples stride fuel i c),
           y_pred ++ map emitted_pred (windows model samples stride fuel i c))).
Proof.
  pose proof (in_range_samples_length _ _ Hsamples) as Hlen.
  revert i c y_true y_pred.
  induction fuel as [|fuel IH]; intros i c y_true y_pred Hfuel.
  - simpl. destruct (Z.ltb_spec (Z.of_nat i) (Z.of_nat (ds_len dataset))); [lia|].
    by rewrite !app_nil_r.
  - rewrite rollout_loop_unfold.
    destruct (Z.ltb_spec (Z.of_nat i) (Z.of_nat (ds_len dataset))) as [Hlt | Hge].
    + destruct (lookup_lt_is_Some_2 samples i) as [s Hs]; [lia|].
      pose proof (in_range_samples_lookup _ _ _ _ Hsamples Hs) as Hget.
      assert (Hxs : exists a rest, data_x s = a :: rest).
      { rewrite Forall_lookup in Hx. specialize (Hx _ _ Hs).
        destruct (data_x s) as [|a rest]; [done|]. by exists a, rest. }
      destruct Hxs as (a & rest & Hxs).
      assert (Hlast : exists c', last (model (c :: rest)) = Some c').
      { destruct (last (model (c :: rest))) eqn:Hl; [by eexists|].
        apply last_None in Hl. specialize (Hmodel (c :: rest)).
        by rewrite Hl in Hmodel. }
      destruct Hlast as (c' & Hlast).
      rewrite (get_inr _ _ _ _ Hget), Hxs. simpl py_setitem0.
      rewrite bind_lift_inr, call_bind.
      rewrite squeezed_last_keeps by (rewrite ?Hmodel; lia || done).
      rewrite py_getitem_last, Hlast.
      simpl from_option. rewrite bind_lift_inr.
      replace (Z.of_nat i + (depth dataset - 1)) with (Z.of_nat (i + stride)) by lia.
      rewrite IH by lia.
      simpl windows. rewrite Hs, Hxs. simpl tail. rewrite Hlast. simpl.
      by rewrite <- !app_assoc.
    + simpl windows. rewrite lookup_ge_None_2 by lia. simpl. by rewrite !app_nil_r.
Qed.

Lemma torch_stack_uniform {A} (ws : list (list A)) n :
  ws <> [] -> Forall (fun w => length w = n) ws -> torch_stack ws = inr ws.
Proof.
  intros Hne Hall. destruct ws as [|w rest]; [done|]. simpl.
  apply Forall_cons in Hall as [Hw Hrest].
  replace (forallb _ rest) with true; [done|].
  symmetry. apply forallb_forall. intros w' Hin.
  apply Nat.eqb_eq. rewrite Hw.
  rewrite Forall_forall in Hrest. apply Hrest. by apply list_elem_of_In.
Qed.

Lemma rollout_windows fuel :
  samples <> [] -> (length samples <= fuel)%nat ->
  exists s0 c0,
    samples !! 0%nat = Some s0 /\ head (data_x s0) = Some c0 /\
    rollout fuel model dataset =
      (EvGet 0 :: flat_map (window_events (Sc:=Sc)) (windows model samples stride fuel 0 c0),
       Done (take (length samples)
               (concat (emitted_true <$> windows model samples stride fuel 0 c0)),
             take (length samples)
               (concat (emitted_pred <$> windows model samples stride fuel 0 c0)))).
Proof.
  intros Hne Hfuel.
  pose proof (in_range_samples_length _ _ Hsamples) as Hlen.
  assert (Hne' : is_Some (samples !! 0%nat)).
  { apply lookup_lt_is_Some_2. destruct samples; [done | simpl; lia]. }
  assert (Hs0 : exists s0, samples !! 0%nat = Some s0).
  { apply lookup_lt_is_Some_2. destruct samples; [done | simpl; lia]. }
  destruct Hs0 as (s0 & Hs0).
  assert (Hx0 : exists c0, head (data_x s0) = Some c0).
  { rewrite Forall_lookup in Hx. specialize (Hx _ _ Hs0).
    destruct (data_x s0) as [|c0 ?]; [done|]. by exists c0. }
  destruct Hx0 as (c0 & Hc0).
  exists s0, c0. split; [done|]. split; [done|].
  set (ws := windows model samples stride fuel 0 c0).
  assert (Hws : ws <> []).
  { unfold ws. apply lookup_lt_Some in Hs0.
    destruct fuel as [|fuel']; [lia|].
    simpl. destruct (samples !! 0%nat); [done|]. by destruct Hne'. }
  unfold rollout.
  rewrite (get_inr _ 0 s0) by apply (in_range_samples_lookup _ _ 0 _ Hsamples Hs0).
  rewrite (py_getitem_nat _ 0), <- head_lookup, Hc0.
  simpl from_option. rewrite bind_lift_inr.
  erewrite bind_done; [| apply (rollout_loop_windows fuel 0%nat); nia |]; [by rewrite app_nil_r|].
  fold ws. simpl app. cbv beta iota zeta.
  rewrite (torch_stack_uniform (map emitted_true ws) stride), bind_lift_inr;
    [| by destruct ws | apply (emitted_true_length model samples stride Hy)].
  rewrite (torch_stack_uniform (map emitted_pred ws) stride), bind_lift_inr;
    [| by destruct ws | apply (emitted_pred_length model samples stride Hmodel)].
  unfold flatten01. by rewrite <- Hlen, !py_slice_prefix.
Qed.

End RolloutFacts.

(** ** Reading a trace *)

Section TraceFacts.

Context {Frame Sc : Type}.

Lemma gets_window_events (ws : list (Window Frame)) :
  gets (flat_map (window_events (Sc:=Sc)) ws) = (fun w => Z.of_nat (w_start w)) <$> ws.
Proof.
  induction ws as [|w ws IH]; [done|].
  change (gets (flat_map (window_events (Sc:=Sc)) (w :: ws)))
    with (Z.of_nat (w_start w) :: gets (flat_map (window_events (Sc:=Sc)) ws)).
  by rewrite IH.
Qed.

Lemma calls_window_events (ws : list (Window Frame)) :
  calls (flat_map (window_events (Sc:=Sc)) ws) = w_input <$> ws.
Proof.
  induction ws as [|w ws IH]; [done|].
  change (calls (flat_map (window_events (Sc:=Sc)) (w :: ws)))
    with (w_input w :: calls (flat_map (window_events (Sc:=Sc)) ws)).
  by rewrite IH.
Qed.

End TraceFacts.


Lemma ceil_div_covers (m s : nat) : (1 <= s)%nat -> (m <= (m + s - 1) / s * s)%nat.
Proof.
  intros Hs.
  pose proof (Nat.div_mod (m + s - 1) s ltac:(lia)) as Hdm.
  pose proof (Nat.mod_upper_bound (m + s - 1) s ltac:(lia)) as Hlt.
  nia.
Qed.

Lemma ceil_div_Z (m s : nat) :
  (1 <= s)%nat ->
  (Z.of_nat m + Z.of_nat (S s) - 2) / (Z.of_nat (S s) - 1) = Z.of_nat ((m + s - 1) / s).
Proof.
  intros Hs. rewrite Nat2Z.inj_div. f_equal; lia.
Qed.

Section WindowStarts.

Context {Frame : Type}.
Variable model : Model Frame.
Variable samples : list (Sample Frame).
Variable stride : nat.

Lemma windows_starts n c :
  (1 <= stride)%nat -> (length samples <= n * stride)%nat ->
  (fun w => Z.of_nat (w_start w)) <$> windows model samples stride n 0 c =
  window_starts (Z.of_nat (length samples)) (Z.of_nat (S stride)).
Proof.
  intros Hs Hn. unfold window_starts. rewrite ceil_div_Z by done.
  pose proof (windows_length model samples stride n 0 c Hs ltac:(lia)) as Hlen.
  rewrite Nat.sub_0_r in Hlen.
  apply list_eq. intros k. rewrite !list_lookup_fmap.
  destruct (windows model samples stride n 0 c !! k) as [w|] eqn:Hw; simpl.
  - pose proof (lookup_lt_Some _ _ _ Hw) as Hk.
    apply windows_lookup in Hw as (Hst & _).
    rewrite lookup_seqZ_lt by lia. simpl. f_equal. lia.
  - apply lookup_ge_None in Hw. by rewrite lookup_seqZ_ge by lia.
Qed.

End WindowStarts.

Lemma length_concat_uniform {A} (ls : list (list A)) (n : nat) :
  Forall (fun l => length l = n) ls -> length (concat ls) = (length ls * n)%nat.
Proof.
  induction 1 as [|l ls Hl Hall IH]; [done|].
  simpl. rewrite length_app, IH, Hl. lia.
Qed.

Lemma wf_sample_spec {Frame} (D : Z) (samples : list (Sample Frame)) :
  forallb (wf_sample D) samples = true ->
  Forall (fun s => data_x s <> []) samples /\
  Forall (fun s => Z.of_nat (length (data_y s)) = D) samples.
Proof.
  intros H. rewrite forallb_forall in H.
  split; apply Forall_forall; intros s Hs; apply list_elem_of_In, H in Hs;
    unfold wf_sample in Hs; apply andb_prop in Hs as [Hy Hx].
  - by destruct (data_x s).
  - by apply Z.eqb_eq.
Qed.

(** The rollout under the data-model invariants: [N >= 1], [D >= 2], every
    sample in range with a target of [D] frames, a predictor returning [D]
    frames without a unit axis, and fuel for every window. *)
Lemma rollout_run {Frame Sc} {shaped : Shaped Frame} (fuel : nat) (model : Model Frame)
    (dataset : Dataset Frame) (samples : list (Sample Frame)) :
  in_range_samples dataset = Some samples ->
  (1 <= length samples)%nat ->
  2 <= depth dataset ->
  forallb (wf_sample (depth dataset)) samples = true ->
  (forall x, Z.of_nat (length (model x)) = depth dataset) ->
  (forall x, no_unit_axis (model x) = true) ->
  (length samples <= fuel)%nat ->
  exists stride s0 c0,
    depth dataset = Z.of_nat (S stride) /\ (1 <= stride)%nat /\
    samples !! 0%nat = Some s0 /\ head (data_x s0) = Some c0 /\
    Forall (fun s => length (data_y s) = S stride) samples /\
    (forall x, length (model x) = S stride) /\
    rollout (Sc:=Sc) fuel model dataset =
      (EvGet 0 :: flat_map window_events (windows model samples stride fuel 0 c0),
       Done (take (length samples)
               (concat (emitted_true <$> windows model samples stride fuel 0 c0)),
             take (length samples)
               (concat (emitted_pred <$> windows model samples stride fuel 0 c0)))).
Proof.
  intros Hs Hn Hd Hwf Hm Hax Hf.
  apply wf_sample_spec in Hwf as [Hx Hy].
  set (stride := Z.to_nat (depth dataset - 1)).
  assert (Hdepth : depth dataset = Z.of_nat (S stride)) by (unfold stride; lia).
  assert (Hstride : (1 <= stride)%nat) by (unfold stride; lia).
  assert (Hy' : Forall (fun s => length (data_y s) = S stride) samples).
  { eapply Forall_impl; [exact Hy|]. intros s Hl. simpl in Hl. lia. }
  assert (Hm' : forall x, length (model x) = S stride).
  { intros x. specialize (Hm x). lia. }
  assert (Hne : samples <> []) by (destruct samples; [simpl in Hn; lia | done]).
  destruct (rollout_windows (Sc:=Sc) model dataset samples stride Hs Hdepth Hx Hy' Hm'
              Hstride Hax fuel Hne Hf) as (s0 & c0 & Hs0 & Hc0 & Hrun).
  exists stride, s0, c0. done.
Qed.

Section EntryPoint.

Context {Frame Sc : Type} {shaped : Shaped Frame}.
Variable sc : Scalars Sc.
Variable field : Losses Frame Sc.

(** What follows line 338 of [sample_iterative]. *)
Lemma sample_iterative_after_rollout fuel model dataset path kind name cm index
    t (y_true y_pred : list Frame) :
  rollout fuel model dataset = (t, Done (y_true, y_pred)) ->
  sample_iterative sc field fuel model dataset path kind name cm index =
    (t ++ EvSampled (length y_true) ::
       trace ((if cm then rollout_metrics sc field dataset name y_true y_pred
               else mret tt);;
              plot_inference_results_direct
                (window kind index dataset y_pred y_true).1
                (window kind index dataset y_pred y_true).2 path kind name),
     result ((if cm then rollout_metrics sc field dataset name y_true y_pred
              else mret tt);;
             plot_inference_results_direct
               (window kind index dataset y_pred y_true).1
               (window kind index dataset y_pred y_true).2 path kind name)).
Proof.
  intros Hr. unfold sample_iterative.
  eapply bind_done; [exact Hr|].
  cbv beta iota zeta. rewrite bind_emit.
  by destruct (window kind index dataset y_pred y_true).
Qed.

Lemma sample_iterative_rollout_raised fuel model dataset path kind name cm index t e :
  rollout fuel model dataset = (t, Raised e) ->
  sample_iterative sc field fuel model dataset path kind name cm index = (t, Raised e).
Proof. intros Hr. unfold sample_iterative. by rewrite Hr. Qed.

End EntryPoint.



(** ** Dicts *)

Lemma dict_get_elem {V} (d : dict V) (k : string) (v : V) :
  NoDup (dict_keys d) -> (k, v) ∈ d -> dict_get d k = inr v.
Proof.
  induction d as [|[k' v'] d IH]; intros Hnd Hin.
  - by apply elem_of_nil in Hin.
  - simpl in Hnd. apply NoDup_cons in Hnd as [Hk' Hnd].
    apply elem_of_cons in Hin as [Heq | Hin]; simpl.
    + injection Heq as -> ->. by rewrite String.eqb_refl.
    + destruct (String.eqb_spec k' k) as [-> | Hne]; [|by apply IH].
      exfalso. apply Hk'. unfold dict_keys.
      apply list_elem_of_fmap. by exists (k, v).
Qed.

Lemma dict_get_key {V} (d : dict V) (k : string) :
  k ∈ dict_keys d -> exists v, dict_get d k = inr v /\ (k, v) ∈ d.
Proof.
  induction d as [|[k' v'] d IH]; intros Hin.
  - by apply elem_of_nil in Hin.
  - simpl. destruct (String.eqb_spec k' k) as [-> | Hne].
    + exists v'. split; [done | apply elem_of_cons; by left].
    + simpl in Hin. apply elem_of_cons in Hin as [-> | Hin]; [done|].
      destruct (IH Hin) as (v & Hv & Hel). exists v. split; [done|].
      apply elem_of_cons. by right.
Qed.

Lemma dict_set_map {V} (d : dict V) (k : string) (v : V) :
  NoDup (dict_keys d) -> k ∈ dict_keys d ->
  dict_set d k v = map (fun '(k', v') => (k', if String.eqb k' k then v else v')) d.
Proof.
  induction d as [|[k' v'] d IH]; intros Hnd Hin.
  - by apply elem_of_nil in Hin.
  - simpl in Hnd. apply NoDup_cons in Hnd as [Hk' Hnd]. simpl.
    destruct (String.eqb_spec k' k) as [-> | Hne].
    + f_equal. symmetry. rewrite <- (map_id d) at 2. apply map_ext_in.
      intros [k2 v2] Hin2. destruct (String.eqb_spec k2 k) as [-> | ]; [|done].
      exfalso. apply Hk'. unfold dict_keys. apply list_elem_of_fmap.
      exists (k, v2). split; [done | by apply list_elem_of_In].
    + f_equal. apply IH; [done|].
      simpl in Hin. by apply elem_of_cons in Hin as [-> | Hin].
Qed.

Lemma dict_keys_map {V W} (f : string -> V -> W) (d : dict V) :
  dict_keys (map (fun '(k, v) => (k, f k v)) d) = dict_keys d.
Proof.
  unfold dict_keys. rewrite map_map. apply map_ext. by intros [k v].
Qed.

Lemma find_all_false {A} (f : A -> bool) (l : list A) :
  (forall a, In a l -> f a = false) -> find f l = None.
Proof.
  induction l as [|a l IH]; intros H; [done|]. simpl.
  rewrite (H a) by (by left). apply IH. intros a' Ha'. apply H. by right.
Qed.

(** A loop that updates one entry of a dict per item. *)
Lemma for_each_dict {E A V} (key : A -> string) (ev : A -> list E)
    (g : A -> V -> V) (body : dict V -> A -> Run E (dict V)) (l : list A) (d : dict V) :
  (forall d' a r, dict_get d' (key a) = inr r ->
     body d' a = (ev a, Done (dict_set d' (key a) (g a r)))) ->
  NoDup (key <$> l) -> NoDup (dict_keys d) ->
  (forall a, a ∈ l -> key a ∈ dict_keys d) ->
  for_each l body d =
    (flat_map ev l,
     Done (map (fun '(k, r) =>
                  (k, match find (fun a => String.eqb (key a) k) l with
                      | Some a => g a r
                      | None => r
                      end)) d)).
Proof.
  intros Hbody. revert d. induction l as [|a l IH]; intros d Hl Hd Hsub.
  - simpl. unfold mret, Run_ret, run_ret. do 2 f_equal.
    rewrite <- (map_id d) at 1. apply map_ext. by intros [k r].
  - simpl in Hl. apply NoDup_cons in Hl as [Ha Hl].
    assert (Hka : key a ∈ dict_keys d) by (apply Hsub, elem_of_cons; by left).
    destruct (dict_get_key d (key a) Hka) as (r & Hr & Hel).
    simpl for_each.
    erewrite bind_done; [reflexivity | by apply Hbody |].
    rewrite dict_set_map by done.
    rewrite IH; [| done | by rewrite dict_keys_map | ].
    + simpl flat_map. do 2 f_equal. rewrite map_map. apply map_ext_in.
      intros [k r'] Hin. f_equal. simpl find.
      destruct (String.eqb_spec (key a) k) as [<- | Hne].
      * rewrite String.eqb_refl.
        replace (find (fun a0 => String.eqb (key a0) (key a)) l) with (@None A).
        -- rewrite (dict_get_elem d (key a) r') in Hr by (done || by apply list_elem_of_In).
           by injection Hr as ->.
        -- symmetry. apply find_all_false. intros a' Ha'.
           apply String.eqb_neq. intros Heq. apply Ha.
           apply list_elem_of_fmap. exists a'. split; [done | by apply list_elem_of_In].
      * destruct (String.eqb_spec k (key a)) as [-> | _]; [done|]. done.
    + intros a' Ha'. rewrite dict_keys_map. apply Hsub, elem_of_cons. by right.
Qed.

Lemma find_key_NoDup {B} (d : dict B) (k : string) (b : B) :
  NoDup (dict_keys d) -> (k, b) ∈ d ->
  find (fun a : string * B => String.eqb a.1 k) d = Some (k, b).
Proof.
  induction d as [|[k' b'] d IH]; intros Hnd Hin.
  - by apply elem_of_nil in Hin.
  - simpl in Hnd. apply NoDup_cons in Hnd as [Hk' Hnd]. simpl.
    apply elem_of_cons in Hin as [Heq | Hin].
    + injection Heq as -> ->. by rewrite String.eqb_refl.
    + destruct (String.eqb_spec k' k) as [-> | Hne]; [|by apply IH].
      exfalso. apply Hk'. apply list_elem_of_fmap. by exists (k, b).
Qed.

(** ** evaluate_models, loop by loop *)

Section EvaluateFacts.

Context {Frame Sc : Type}.
Variable sc : Scalars Sc.
Variable batch : Losses (list Frame) Sc.
Variable models : dict (Model Frame).
Variable dataset : Dataset Frame.
Hypothesis Hmodels : NoDup (dict_keys models).

#[local] Abbreviation step_all' := (step_all sc batch models).
#[local] Abbreviation sample_events' := (sample_events (Sc:=Sc) models).

Lemma eval_sample_step (d : dict (MetricRecord Sc)) i s :
  getitem dataset i = inr s ->
  NoDup (dict_keys d) -> dict_keys d = dict_keys models ->
  eval_sample sc batch models dataset d i = (sample_events' (i, s), Done (step_all' s d)).
Proof.
  intros Hget Hd Hkeys. unfold eval_sample.
  rewrite (get_inr _ _ _ _ Hget). cbv beta zeta.
  rewrite (for_each_dict (fun a : string * Model Frame => a.1)
             (fun a => [EvCall (Some a.1) (data_x s)])
             (fun a r => accumulate sc batch r (a.2 (data_x s)) (data_y s))).
  - unfold sample_events, trace, result. simpl. do 2 f_equal.
    clear. induction models as [|[n m] l IH]; [done|]. simpl. by rewrite IH.
  - intros d' [n m] r Hr. cbv beta iota zeta delta [fst snd] in Hr |- *.
    rewrite call_bind, Hr, bind_lift_inr. done.
  - exact Hmodels.
  - exact Hd.
  - intros a Ha. rewrite Hkeys. unfold dict_keys. apply list_elem_of_fmap. by exists a.
Qed.

Lemma step_all_keys s d : dict_keys (step_all' s d) = dict_keys d.
Proof. unfold step_all. apply dict_keys_map. Qed.

Lemma eval_samples_steps (idx : list Z) (ss : list (Sample Frame)) (d : dict (MetricRecord Sc)) :
  Forall2 (fun i s => getitem dataset i = inr s) idx ss ->
  NoDup (dict_keys d) -> dict_keys d = dict_keys models ->
  for_each idx (eval_sample sc batch models dataset) d =
    (flat_map sample_events' (zip idx ss), Done (foldl (fun d s => step_all' s d) d ss)).
Proof.
  intros H. revert d. induction H as [|i s idx ss Hget H IH]; intros d Hd Hkeys; [done|].
  simpl for_each.
  erewrite bind_done; [reflexivity | by apply eval_sample_step |].
  rewrite IH; [done | by rewrite step_all_keys | by rewrite step_all_keys].
Qed.

Lemma step_all_models (R : Model Frame -> MetricRecord Sc) s :
  step_all' s (map (fun '(n, m) => (n, R m)) models) =
  map (fun '(n, m) => (n, accumulate sc batch (R m) (m (data_x s)) (data_y s))) models.
Proof.
  unfold step_all. rewrite map_map. apply map_ext_in. intros [n m] Hin.
  rewrite (find_key_NoDup models n m) by (done || by apply list_elem_of_In). done.
Qed.

Lemma steps_models (ss : list (Sample Frame)) (R : Model Frame -> MetricRecord Sc) :
  foldl (fun d s => step_all' s d) (map (fun '(n, m) => (n, R m)) models) ss =
  map (fun '(n, m) =>
         (n, foldl (fun r s => accumulate sc batch r (m (data_x s)) (data_y s)) (R m) ss))
      models.
Proof.
  revert R. induction ss as [|s ss IH]; intros R; [done|]. simpl.
  rewrite step_all_models.
  by rewrite (IH (fun m => accumulate sc batch (R m) (m (data_x s)) (data_y s))).
Qed.

Lemma average_step N (d : dict (MetricRecord Sc)) name r :
  N <> 0 -> dict_get d name = inr r ->
  average (Frame:=Frame) sc N d name = ([], Done (dict_set d name (averaged sc N r))).
Proof.
  intros HN Hr. unfold average, py_truediv. rewrite Hr, bind_lift_inr.
  destruct (Z.eqb_spec N 0) as [|_]; [done|].
  by rewrite !bind_ret.
Qed.

Lemma average_all N (d : dict (MetricRecord Sc)) :
  N <> 0 -> NoDup (dict_keys d) ->
  for_each (dict_keys d) (average (Frame:=Frame) sc N) d =
    ([], Done (map (fun '(k, r) => (k, averaged sc N r)) d)).
Proof.
  intros HN Hd.
  rewrite (for_each_dict (fun k : string => k) (fun _ => []) (fun _ r => averaged sc N r)).
  - f_equal.
    + clear. induction (dict_keys d) as [|k0 l0 IH0]; [done | exact IH0].
    + f_equal. apply map_ext_in. intros [k r] Hin. f_equal.
      assert (Hk : In k (dict_keys d)).
      { unfold dict_keys. apply in_map_iff. by exists (k, r). }
      clear -Hk. induction (dict_keys d) as [|k' l IH]; [done|]. simpl.
      destruct (String.eqb_spec k' k); [done|]. destruct Hk as [|Hk]; [done|].
      specialize (IH Hk). by destruct (find _ l).
  - intros d' k r Hr. by apply average_step.
  - by rewrite list_fmap_id.
  - exact Hd.
  - done.
Qed.

Lemma average_zero (d : dict (MetricRecord Sc)) :
  d <> [] ->
  for_each (dict_keys d) (average (Frame:=Frame) sc 0) d = ([], Raised ZeroDivisionError).
Proof.
  intros Hd. destruct d as [|[k r] d]; [done|].
  assert (Hfirst : average (Frame:=Frame) sc 0 ((k, r) :: d) k =
                   ([], Raised ZeroDivisionError)).
  { unfold average. cbn [dict_get]. rewrite String.eqb_refl, bind_lift_inr.
    unfold py_truediv. change (0 =? 0) with true. done. }
  cbn [dict_keys map fst for_each].
  by rewrite Hfirst.
Qed.

Lemma report_all (results : dict (MetricRecord Sc)) :
  for_each (E:=Event Frame Sc) results (fun _ '(name, metrics) => emit (EvReport name metrics)) tt =
    (map (fun '(name, metrics) => EvReport name metrics) results, Done tt).
Proof.
  induction results as [|[n r] l IH]; [done|].
  cbn [for_each]. cbv beta iota.
  rewrite bind_emit, IH. done.
Qed.

End EvaluateFacts.

Lemma in_range_samples_Forall2 {Frame} (dataset : Dataset Frame) samples :
  in_range_samples dataset = Some samples ->
  Forall2 (fun i s => getitem dataset i = inr s)
    (seqZ 0 (Z.of_nat (ds_len dataset))) samples.
Proof.
  intros H. apply mapM_Some_1 in H.
  eapply Forall2_impl; [exact H|]. intros i s Hi. simpl in Hi.
  destruct (getitem dataset i); congruence.
Qed.

Section EvaluateRun.

Context {Frame Sc : Type}.
Variable sc : Scalars Sc.
Variable batch : Losses (list Frame) Sc.
Variable models : dict (Model Frame).
Variable dataset : Dataset Frame.
Variable samples : list (Sample Frame).
Hypothesis Hmodels : NoDup (dict_keys models).
Hypothesis Hsamples : in_range_samples dataset = Some samples.

Lemma zero_results_keys :
  dict_keys (map (fun '(name, _) => (name, zero_record sc)) models) = dict_keys models.
Proof. unfold dict_keys. rewrite map_map. apply map_ext. by intros [n m]. Qed.

(** Lines 52-67. *)
Lemma evaluate_models_samples :
  for_each (seqZ 0 (Z.of_nat (ds_len dataset))) (eval_sample sc batch models dataset)
    (map (fun '(name, _) => (name, zero_record sc)) models) =
  (flat_map (sample_events (Sc:=Sc) models) (zip (seqZ 0 (Z.of_nat (ds_len dataset))) samples),
   Done (map (fun '(name, model) => (name, total_record sc batch model samples)) models)).
Proof.
  rewrite (eval_samples_steps sc batch models dataset Hmodels _ samples).
  - do 2 f_equal.
    change (map (fun '(name, _) => (name, zero_record sc)) models)
      with (map (fun '(n, m) => (n, (fun _ : Model Frame => zero_record sc) m)) models).
    by rewrite (steps_models sc batch models Hmodels).
  - by apply in_range_samples_Forall2.
  - by rewrite zero_results_keys.
  - apply zero_results_keys.
Qed.

Lemma evaluate_models_run print_results :
  (1 <= length samples)%nat ->
  evaluate_models sc batch models dataset print_results =
    (flat_map (sample_events (Sc:=Sc) models)
       (zip (seqZ 0 (Z.of_nat (ds_len dataset))) samples) ++
     (if print_results
      then map (fun '(name, metrics) => EvReport name metrics)
             (expected_results sc batch models samples)
      else []),
     Done (expected_results sc batch models samples)).
Proof.
  intros Hn. pose proof (in_range_samples_length _ _ Hsamples) as Hlen.
  unfold evaluate_models. cbv zeta.
  rewrite (bind_step _ _ _ _ evaluate_models_samples).
  set (totals := map (fun '(name, model) => (name, total_record sc batch model samples))
                   models).
  assert (Hkeys : dict_keys totals = dict_keys models).
  { unfold totals, dict_keys. rewrite map_map. apply map_ext. by intros [n m]. }
  assert (Havg : map (fun '(k, r) => (k, averaged sc (Z.of_nat (ds_len dataset)) r)) totals
                 = expected_results sc batch models samples).
  { unfold totals, expected_results. rewrite map_map, Hlen. apply map_ext. by intros [n m]. }
  assert (HN : Z.of_nat (ds_len dataset) <> 0) by lia.
  assert (Hnd : NoDup (dict_keys totals)) by (by rewrite Hkeys).
  rewrite (bind_step _ _ _ _ (average_all (Frame:=Frame) sc _ totals HN Hnd)).
  rewrite Havg. unfold trace, result.
  destruct print_results.
  - rewrite (bind_step _ _ _ _ (report_all _)). simpl. by rewrite app_nil_r.
  - rewrite bind_ret. simpl. done.
Qed.

End EvaluateRun.

(** An empty source: the sample loop does nothing and the first division
    raises, unless there is no predictor to average. *)
Lemma evaluate_models_empty {Frame Sc} (sc : Scalars Sc) (batch : Losses (list Frame) Sc)
    (models : dict (Model Frame)) (dataset : Dataset Frame) print_results :
  ds_len dataset = 0%nat -> models <> [] ->
  evaluate_models sc batch models dataset print_results = ([], Raised ZeroDivisionError).
Proof.
  intros Hlen Hne. unfold evaluate_models. cbv zeta. rewrite Hlen.
  change (seqZ 0 (Z.of_nat 0)) with (@nil Z). cbn [for_each]. rewrite bind_ret.
  change (Z.of_nat 0) with 0.
  rewrite average_zero; [done|]. by destruct models.
Qed.


(** The accumulators, field by field. *)
Lemma accumulated_fields {Frame Sc} (sc : Scalars Sc) (batch : Losses (list Frame) Sc)
    (model : Model Frame) (samples : list (Sample Frame)) (r : MetricRecord Sc) :
  let total := foldl (fun r s => accumulate sc batch r (model (data_x s)) (data_y s))
                 r samples in
  mse total =
    foldl (fun a s => fadd sc a (mse_loss batch (model (data_x s)) (data_y s)))
      (mse r) samples /\
  l2_loss total =
    foldl (fun a s => fadd sc a (lp_loss batch (model (data_x s)) (data_y s)))
      (l2_loss r) samples /\
  h1_loss total =
    foldl (fun a s => fadd sc a (sobolev_loss batch (model (data_x s)) (data_y s)))
      (h1_loss r) samples /\
  rel_l2 total =
    foldl (fun a s => fadd sc a
             (tdiv sc (norm2 batch (tsub batch (model (data_x s)) (data_y s)))
                (norm2 batch (data_y s))))
      (rel_l2 r) samples /\
  max_error total =
    foldl (fun a s => fadd sc a (max_abs batch (tsub batch (model (data_x s)) (data_y s))))
      (max_error r) samples.
Proof.
  revert r. induction samples as [|s l IH]; intros r; [done|].
  simpl. apply (IH (accumulate sc batch r (model (data_x s)) (data_y s))).
Qed.

Lemma expected_results_keys {Frame Sc} (sc : Scalars Sc) (batch : Losses (list Frame) Sc)
    (models : dict (Model Frame)) (samples : list (Sample Frame)) :
  dict_keys (expected_results sc batch models samples) = dict_keys models.
Proof.
  unfold expected_results, dict_keys. rewrite map_map. apply map_ext. by intros [n m].
Qed.

Lemma expected_results_lookup {Frame Sc} (sc : Scalars Sc) (batch : Losses (list Frame) Sc)
    (models : dict (Model Frame)) (samples : list (Sample Frame)) name model :
  NoDup (dict_keys models) -> (name, model) ∈ models ->
  dict_get (expected_results sc batch models samples) name =
    inr (averaged sc (Z.of_nat (length samples)) (total_record sc batch model samples)).
Proof.
  intros Hnd Hin. apply dict_get_elem.
  - by rewrite expected_results_keys.
  - unfold expected_results. apply list_elem_of_In, in_map_iff.
    exists (name, model). split; [done | by apply list_elem_of_In].
Qed.

Lemma total_record_fields {Frame Sc} (sc : Scalars Sc) (batch : Losses (list Frame) Sc)
    (model : Model Frame) (samples : list (Sample Frame)) :
  mse (total_record sc batch model samples) =
    running_sum sc (fun s => mse_loss batch (model (data_x s)) (data_y s)) samples /\
  l2_loss (total_record sc batch model samples) =
    running_sum sc (fun s => lp_loss batch (model (data_x s)) (data_y s)) samples /\
  h1_loss (total_record sc batch model samples) =
    running_sum sc (fun s => sobolev_loss batch (model (data_x s)) (data_y s)) samples /\
  rel_l2 (total_record sc batch model samples) =
    running_sum sc
      (fun s => tdiv sc (norm2 batch (tsub batch (model (data_x s)) (data_y s)))
                  (norm2 batch (data_y s))) samples /\
  max_error (total_record sc batch model samples) =
    running_sum sc
      (fun s => max_abs batch (tsub batch (model (data_x s)) (data_y s))) samples.
Proof.
  apply (accumulated_fields sc batch model samples (zero_record sc)).
Qed.

(** ** Exact rational arithmetic *)







(** ** IEEE-754: division by zero and non-finite values *)

Lemma SFdiv_by_zero prec emax (n z : spec_float) :
  is_zero z = true -> non_finite (SFdiv prec emax n z) = true.
Proof. destruct z; [|done..]. by destruct n. Qed.

Lemma SFdiv_non_finite prec emax (a b : spec_float) :
  non_finite a = true -> non_finite (SFdiv prec emax a b) = true.
Proof. destruct a; try done; by destruct b. Qed.

Lemma SFadd_non_finite_l prec emax (a b : spec_float) :
  non_finite a = true -> non_finite (SFadd prec emax a b) = true.
Proof.
  destruct a as [|sa| |]; [done| | |done]; destruct b as [|sb| |]; try done.
  by destruct sa, sb.
Qed.

Lemma SFadd_non_finite_r prec emax (a b : spec_float) :
  non_finite b = true -> non_finite (SFadd prec emax a b) = true.
Proof.
  destruct b as [|sb| |]; [done| | |done]; destruct a as [|sa| |]; try done.
  by destruct sa, sb.
Qed.

Lemma running_sum_non_finite {A} tprec temax (f : A -> spec_float) (l : list A) k a :
  l !! k = Some a -> non_finite (f a) = true ->
  non_finite (running_sum (ieee_scalars tprec temax) f l) = true.
Proof.
  intros Hk Hf. unfold running_sum. simpl fadd.
  generalize (f0 (ieee_scalars tprec temax)). revert k Hk.
  induction l as [|b l IH]; intros k Hk acc; [done|].
  destruct k as [|k]; simpl in Hk.
  - injection Hk as ->. simpl foldl.
    assert (Hacc : non_finite (SFadd 53 1024 acc (f a)) = true)
      by by apply SFadd_non_finite_r.
    revert Hacc. generalize (SFadd 53 1024 acc (f a)). clear.
    induction l as [|b l IH]; intros acc Hacc; [done|].
    simpl. apply IH. by apply SFadd_non_finite_l.
  - simpl foldl. by apply (IH k).
Qed.

(** ** The metrics and the presentation of [sample_iterative] *)

Section PresentationFacts.

Context {Frame Sc : Type} {shaped : Shaped Frame}.
Variable sc : Scalars Sc.
Variable field : Losses Frame Sc.

Lemma metric_step_ok (y_true y_pred : list Frame) (tot : RolloutMetrics Sc) (a : nat) y p :
  y_true !! a = Some y -> y_pred !! a = Some p ->
  metric_step (Frame:=Frame) sc field y_true y_pred tot (Z.of_nat a) =
    ([], Done {| avg_l2_loss := fadd sc (avg_l2_loss tot) (lp_loss field p y);
                 avg_h1_loss := fadd sc (avg_h1_loss tot) (sobolev_loss field p y);
                 avg_mse_loss := fadd sc (avg_mse_loss tot) (mse_loss field p y);
                 avg_max_error := fadd sc (avg_max_error tot)
                                    (max_abs field (tsub field p y)) |}).
Proof.
  intros Hy Hp. unfold metric_step.
  rewrite !py_getitem_nat, Hy, Hp. cbn [from_option].
  by rewrite !bind_lift_inr.
Qed.

Lemma metric_loop (y_true y_pred : list Frame) (n a : nat) (tot : RolloutMetrics Sc) :
  (a + n <= length y_true)%nat -> (a + n <= length y_pred)%nat ->
  for_each (E:=Event Frame Sc) (seqZ (Z.of_nat a) (Z.of_nat n))
    (metric_step sc field y_true y_pred) tot =
  ([], Done (foldl (fun tot '(y, pred) =>
               {| avg_l2_loss := fadd sc (avg_l2_loss tot) (lp_loss field pred y);
                  avg_h1_loss := fadd sc (avg_h1_loss tot) (sobolev_loss field pred y);
                  avg_mse_loss := fadd sc (avg_mse_loss tot) (mse_loss field pred y);
                  avg_max_error := fadd sc (avg_max_error tot)
                                     (max_abs field (tsub field pred y)) |})
               tot (zip (take n (drop a y_true)) (take n (drop a y_pred))))).
Proof.
  revert a tot. induction n as [|n IH]; intros a tot Ht Hp.
  - change (Z.of_nat 0) with 0. by rewrite seqZ_nil.
  - rewrite seqZ_cons by lia.
    replace (Z.succ (Z.of_nat a)) with (Z.of_nat (S a)) by lia.
    replace (Z.pred (Z.of_nat (S n))) with (Z.of_nat n) by lia.
    destruct (lookup_lt_is_Some_2 y_true a) as [y Hy]; [lia|].
    destruct (lookup_lt_is_Some_2 y_pred a) as [p Hp']; [lia|].
    cbn [for_each].
    rewrite (bind_step _ _ _ _ (metric_step_ok y_true y_pred tot a y p Hy Hp')).
    rewrite IH by lia. unfold trace, result. cbn [fst snd app].
    rewrite (drop_S y_true y a Hy), (drop_S y_pred p a Hp'). done.
Qed.

Lemma rollout_metrics_run (dataset : Dataset Frame) name (y_true y_pred : list Frame) :
  (1 <= ds_len dataset)%nat ->
  length y_true = ds_len dataset -> length y_pred = ds_len dataset ->
  rollout_metrics sc field dataset name y_true y_pred =
    (metrics_events sc field true name (Z.of_nat (ds_len dataset)) y_true y_pred, Done tt).
Proof.
  intros Hn Ht Hp. unfold rollout_metrics. cbv zeta.
  rewrite (bind_step _ _ _ _ (metric_loop y_true y_pred (ds_len dataset) 0
                                (zero_totals sc) ltac:(simpl; lia) ltac:(simpl; lia))).
  rewrite !drop_0, !take_ge by lia.
  fold (rollout_totals sc field y_true y_pred).
  unfold py_truediv.
  destruct (Z.eqb_spec (Z.of_nat (ds_len dataset)) 0) as [|_]; [lia|].
  rewrite !bind_ret. done.
Qed.

(** [sample_iterative] after a rollout that returned sequences of length
    [N >= 1]: the metrics, then the window, then the presenter. *)
Lemma sample_iterative_run fuel model (dataset : Dataset Frame) path kind name cm index
    t (y_true y_pred : list Frame) :
  rollout fuel model dataset = (t, Done (y_true, y_pred)) ->
  (1 <= ds_len dataset)%nat ->
  length y_true = ds_len dataset -> length y_pred = ds_len dataset ->
  sample_iterative sc field fuel model dataset path kind name cm index =
    (t ++ EvSampled (ds_len dataset) ::
       metrics_events sc field cm name (Z.of_nat (ds_len dataset)) y_true y_pred ++
       trace (plot_inference_results_direct (Sc:=Sc)
                (window kind index dataset y_pred y_true).1
                (window kind index dataset y_pred y_true).2 path kind name),
     result (plot_inference_results_direct (Sc:=Sc)
               (window kind index dataset y_pred y_true).1
               (window kind index dataset y_pred y_true).2 path kind name)).
Proof.
  intros Hr Hn Ht Hp.
  rewrite (sample_iterative_after_rollout sc field _ _ _ path kind name cm index _ _ _ Hr).
  rewrite Ht. destruct cm.
  - rewrite (bind_step _ _ _ _ (rollout_metrics_run dataset name y_true y_pred Hn Ht Hp)).
    done.
  - rewrite bind_ret. done.
Qed.

End PresentationFacts.

(** A slice from a position of the sequence on. *)
Lemma py_slice_from {A} (l : list A) (i n : Z) :
  0 <= i -> 0 <= n ->
  py_slice l i (i + n) = take (Z.to_nat n) (drop (Z.to_nat i) l) /\
  length (py_slice l i (i + n)) = Z.to_nat (Z.min n (Z.max 0 (Z.of_nat (length l) - i))) /\
  forall j : nat, (j < length (py_slice l i (i + n)))%nat ->
    py_slice l i (i + n) !! j = l !! (Z.to_nat i + j)%nat.
Proof.
  intros Hi Hn. rewrite py_slice_nonneg by lia.
  replace (i + n - i) with n by lia.
  split; [done|]. split.
  - rewrite length_take, length_drop. lia.
  - intros j Hj. rewrite length_take, length_drop in Hj.
    rewrite lookup_take. destruct (decide (j < Z.to_nat n)%nat); [|lia].
    by rewrite lookup_drop.
Qed.

(** * The rollout: length, carried state, alignment *)







(** * Batch evaluation *)

(** C4.  [evaluate_models] on a source of [N >= 1] samples reads the samples
    in ascending order and, for each sample, calls every predictor once, in
    the order of the dict.  The value returned for a predictor holds, for
    each of the five metrics, the running sum over the samples of that
    metric on the predictor's own predictions, divided by [N]: it does not
    depend on the other predictors. *)
Theorem evaluate_models_accumulates {Frame Sc : Type} (sc : Scalars Sc)
    (batch : Losses (list Frame) Sc) (models : dict (Model Frame))
    (dataset : Dataset Frame) (samples : list (Sample Frame)) (print_results : bool) :
  NoDup (dict_keys models) ->
  in_range_samples dataset = Some samples ->
  (1 <= length samples)%nat ->
  exists results printed,
    evaluate_models sc batch models dataset print_results =
      (flat_map (fun '(i, s) =>
                   EvGet i :: map (fun '(name, _) => EvCall (Some name) (data_x s)) models)
         (zip (seqZ 0 (Z.of_nat (ds_len dataset))) samples) ++ printed,
       Done results) /\
    printed = (if print_results
               then map (fun '(name, metrics) => EvReport name metrics) results
               else []) /\
    dict_keys results = dict_keys models /\
    forall name model, (name, model) ∈ models ->
      exists r,
        dict_get results name = inr r /\
        mse r = fdiv sc
                  (running_sum sc (fun s => mse_loss batch (model (data_x s)) (data_y s))
                     samples)
                  (of_int sc (Z.of_nat (ds_len dataset))) /\
        l2_loss r = fdiv sc
                      (running_sum sc (fun s => lp_loss batch (model (data_x s)) (data_y s))
                         samples)
                      (of_int sc (Z.of_nat (ds_len dataset))) /\
        h1_loss r = fdiv sc
                      (running_sum sc
                         (fun s => sobolev_loss batch (model (data_x s)) (data_y s))
                         samples)
                      (of_int sc (Z.of_nat (ds_len dataset))) /\
        rel_l2 r = fdiv sc
                     (running_sum sc
                        (fun s => tdiv sc
                                    (norm2 batch (tsub batch (model (data_x s)) (data_y s)))
                                    (norm2 batch (data_y s)))
                        samples)
                     (of_int sc (Z.of_nat (ds_len dataset))) /\
        max_error r = fdiv sc
                        (running_sum sc
                           (fun s => max_abs batch (tsub batch (model (data_x s)) (data_y s)))
                           samples)
                        (of_int sc (Z.of_nat (ds_len dataset))).
Proof.
  intros Hnd Hs Hn.
  pose proof (in_range_samples_length _ _ Hs) as Hlen.
  exists (expected_results sc batch models samples).
  eexists. split; [|split; [reflexivity|split]].
  - rewrite (evaluate_models_run sc batch models dataset samples Hnd Hs print_results Hn).
    f_equal. f_equal. apply flat_map_ext. by intros [i s].
  - apply expected_results_keys.
  - intros name model Hin.
    exists (averaged sc (Z.of_nat (length samples)) (total_record sc batch model samples)).
    split; [by apply expected_results_lookup|].
    rewrite <- Hlen.
    destruct (total_record_fields sc batch model samples) as (H1 & H2 & H3 & H4 & H5).
    simpl. by rewrite H1, H2, H3, H4, H5.
Qed.

Lemma evaluate_models_accumulates_witness :
  exists results,
    result (evaluate_models exact_scalars rational_losses demo_models demo_qdataset true)
      = Done results /\
    dict_keys results = ["identity"; "shifted"]%string /\
    gets (trace (evaluate_models exact_scalars rational_losses demo_models
                   demo_qdataset true)) = [0; 1].
Proof.
  destruct (evaluate_models_accumulates exact_scalars rational_losses demo_models
              demo_qdataset demo_qsamples true)
    as (results & printed & Hrun & _ & Hkeys & _).
  - by apply (bool_decide_unpack _).
  - reflexivity.
  - simpl. lia.
  - exists results. split; [by rewrite Hrun|]. split; [exact Hkeys|].
    vm_compute. reflexivity.
Defined.




(** C8.  In IEEE-754 arithmetic, whatever the dtype of the tensors: the
    [rel_l2] returned for a predictor is the running sum over the samples of
    [norm2 (pred - target) / norm2 target], divided by [N].  When the target
    of some sample has norm zero, no exception is raised, the quotient for
    that sample is an infinity or a NaN, and so is the value returned. *)
Theorem evaluate_models_zero_norm {Frame : Type} (tprec temax : Z)
    (batch : Losses (list Frame) spec_float) (models : dict (Model Frame))
    (dataset : Dataset Frame) (samples : list (Sample Frame)) (print_results : bool)
    (name : string) (model : Model Frame) (k : nat) (s : Sample Frame) :
  NoDup (dict_keys models) ->
  in_range_samples dataset = Some samples ->
  (name, model) ∈ models ->
  samples !! k = Some s ->
  is_zero (norm2 batch (data_y s)) = true ->
  exists results r,
    result (evaluate_models (ieee_scalars tprec temax) batch models dataset print_results)
      = Done results /\
    dict_get results name = inr r /\
    rel_l2 r =
      SFdiv 53 1024
        (running_sum (ieee_scalars tprec temax)
           (fun s' => SFdiv tprec temax
                        (norm2 batch (tsub batch (model (data_x s')) (data_y s')))
                        (norm2 batch (data_y s')))
           samples)
        (binary_normalize 53 1024 (Z.of_nat (ds_len dataset)) 0 false) /\
    non_finite (SFdiv tprec temax
                  (norm2 batch (tsub batch (model (data_x s)) (data_y s)))
                  (norm2 batch (data_y s))) = true /\
    non_finite (rel_l2 r) = true.
Proof.
  intros Hnd Hs Hin Hk Hzero.
  pose proof (in_range_samples_length _ _ Hs) as Hlen.
  assert (Hn : (1 <= length samples)%nat) by (apply lookup_lt_Some in Hk; lia).
  set (sc := ieee_scalars tprec temax).
  exists (expected_results sc batch models samples),
         (averaged sc (Z.of_nat (length samples)) (total_record sc batch model samples)).
  split; [by rewrite (evaluate_models_run sc batch models dataset samples Hnd Hs
                        print_results Hn)|].
  split; [by apply expected_results_lookup|].
  destruct (total_record_fields sc batch model samples) as (_ & _ & _ & Hrel & _).
  assert (Hq : non_finite (SFdiv tprec temax
                             (norm2 batch (tsub batch (model (data_x s)) (data_y s)))
                             (norm2 batch (data_y s))) = true)
    by by apply SFdiv_by_zero.
  split; [simpl; by rewrite Hrel, Hlen|].
  split; [exact Hq|].
  simpl. rewrite Hrel. apply SFdiv_non_finite.
  by apply (running_sum_non_finite tprec temax _ samples k s).
Qed.

Lemma evaluate_models_zero_norm_witness :
  exists results r,
    result (evaluate_models (ieee_scalars 24 128) f32_losses demo_fmodels demo_fdataset
              false) = Done results /\
    dict_get results "copy" = inr r /\
    rel_l2 r = S754_infinity false.
Proof.
  destruct (evaluate_models_zero_norm 24 128 f32_losses demo_fmodels demo_fdataset
              demo_fsamples false "copy" (fun x => x) 1
              (mkSample [f32 1; f32 2] [f32 0; f32 0]))
    as (results & r & Hres & Hget & Hrel & _).
  - by apply (bool_decide_unpack _).
  - reflexivity.
  - apply elem_of_cons. by left.
  - reflexivity.
  - reflexivity.
  - exists results, r. split; [exact Hres|]. split; [exact Hget|].
    rewrite Hrel. vm_compute. reflexivity.
Defined.

(** * Presentation *)

(** C7, as stated, fails for a negative index: on the source of 5 samples of
    depth 3, [index = -1] names the last stitched entry, but the slice
    [y[-1 : 2]] is empty: the window holds no entry and the call raises
    [IndexError]. *)
Lemma pressure_window_negative_index :
  (result (rollout (Sc:=Qc) 5 demo_model demo_dataset) =
     Done ([0; 1; 200; 201; 400], [1000; 2000; 4000; 5000; 7000])) /\
  (py_getitem [0; 1; 200; 201; 400] (-1) = inr 400) /\
  (window "pressure" (Some (-1)) demo_dataset
     [1000; 2000; 4000; 5000; 7000] [0; 1; 200; 201; 400] = ([], [])) /\
  (result (sample_iterative exact_scalars pixel_losses 5 demo_model demo_dataset None
             "pressure" None false (Some (-1))) = Raised IndexError).
Proof. repeat split; reflexivity. Qed.

(** C7, amended.  For [kind = "pressure"] the window is the pair of slices
    [y_pred[index : index + D]] and [y_true[index : index + D]] of the
    stitched sequences, [index] being [N // 2] when none is given, and it is
    what the presenter receives.  For an index that is a position
    ([0 <= index], as the default is) such a slice holds the consecutive
    stitched entries from [index] on: [D] of them, or the [N - index] that
    remain when the end of the sequence comes first.
    The data model is assumed: targets and predictions of [D] frames, and
    frames with no axis of size one, so that [squeeze()] removes the batch
    axis alone. *)
Theorem pressure_window {Frame Sc : Type} {shaped : Shaped Frame} (sc : Scalars Sc) (field : Losses Frame Sc)
    (fuel : nat) (model : Model Frame) (dataset : Dataset Frame)
    (samples : list (Sample Frame)) :
  in_range_samples dataset = Some samples ->
  (1 <= length samples)%nat ->
  2 <= depth dataset ->
  forallb (wf_sample (depth dataset)) samples = true ->
  (forall x, Z.of_nat (length (model x)) = depth dataset) ->
  (forall x, no_unit_axis (model x) = true) ->
  (length samples <= fuel)%nat ->
  exists y_true y_pred,
    result (rollout (Sc:=Sc) fuel model dataset) = Done (y_true, y_pred) /\
    length y_true = ds_len dataset /\ length y_pred = ds_len dataset /\
    forall (index : option Z) path name compute_metrics,
      window "pressure" index dataset y_pred y_true =
        (py_slice y_pred (default (Z.of_nat (ds_len dataset) / 2) index)
           (default (Z.of_nat (ds_len dataset) / 2) index + depth dataset),
         py_slice y_true (default (Z.of_nat (ds_len dataset) / 2) index)
           (default (Z.of_nat (ds_len dataset) / 2) index + depth dataset)) /\
      (index = None -> 0 <= default (Z.of_nat (ds_len dataset) / 2) index
                       < Z.of_nat (ds_len dataset)) /\
      sample_iterative sc field fuel model dataset path "pressure" name
        compute_metrics index =
        (trace (rollout (Sc:=Sc) fuel model dataset) ++
         EvSampled (ds_len dataset) ::
         metrics_events sc field compute_metrics name (Z.of_nat (ds_len dataset))
           y_true y_pred ++
         trace (plot_inference_results_direct (Sc:=Sc)
                  (py_slice y_pred (default (Z.of_nat (ds_len dataset) / 2) index)
                     (default (Z.of_nat (ds_len dataset) / 2) index + depth dataset))
                  (py_slice y_true (default (Z.of_nat (ds_len dataset) / 2) index)
                     (default (Z.of_nat (ds_len dataset) / 2) index + depth dataset))
                  path "pressure" name),
         result (plot_inference_results_direct (Sc:=Sc)
                   (py_slice y_pred (default (Z.of_nat (ds_len dataset) / 2) index)
                      (default (Z.of_nat (ds_len dataset) / 2) index + depth dataset))
                   (py_slice y_true (default (Z.of_nat (ds_len dataset) / 2) index)
                      (default (Z.of_nat (ds_len dataset) / 2) index + depth dataset))
                   path "pressure" name)) /\
      forall (stitched : list Frame) (i : Z),
        (stitched = y_pred \/ stitched = y_true) ->
        i = default (Z.of_nat (ds_len dataset) / 2) index -> 0 <= i ->
        py_slice stitched i (i + depth dataset) =
          take (Z.to_nat (depth dataset)) (drop (Z.to_nat i) stitched) /\
        length (py_slice stitched i (i + depth dataset)) =
          Z.to_nat (Z.min (depth dataset) (Z.max 0 (Z.of_nat (ds_len dataset) - i))) /\
        forall j : nat, (j < length (py_slice stitched i (i + depth dataset)))%nat ->
          py_slice stitched i (i + depth dataset) !! j = stitched !! (Z.to_nat i + j)%nat.
Proof.
  intros Hs Hn Hd Hwf Hm Hax Hf.
  pose proof (in_range_samples_length _ _ Hs) as Hlen.
  destruct (rollout_run (Sc:=Sc) fuel model dataset samples Hs Hn Hd Hwf Hm Hax Hf)
    as (stride & s0 & c0 & Hdepth & Hstride & Hs0 & Hc0 & Hy & Hm' & Hrun).
  set (ws := windows model samples stride fuel 0 c0) in *.
  assert (Hws : length ws = ((length samples + stride - 1) / stride)%nat).
  { unfold ws. rewrite windows_length by nia. by rewrite Nat.sub_0_r. }
  pose proof (ceil_div_covers (length samples) stride Hstride) as Hcover.
  set (y_true := take (length samples) (concat (emitted_true <$> ws))) in *.
  set (y_pred := take (length samples) (concat (emitted_pred <$> ws))) in *.
  assert (Ht : length y_true = ds_len dataset).
  { unfold y_true. rewrite length_take, (length_concat_uniform _ stride), length_fmap.
    - lia.
    - apply (emitted_true_length model samples stride Hy). }
  assert (Hp : length y_pred = ds_len dataset).
  { unfold y_pred. rewrite length_take, (length_concat_uniform _ stride), length_fmap.
    - lia.
    - apply (emitted_pred_length model samples stride Hm'). }
  assert (HN : (1 <= ds_len dataset)%nat) by lia.
  exists y_true, y_pred. split; [by rewrite Hrun|]. split; [done|]. split; [done|].
  intros index path name cm.
  split; [unfold window; simpl String.eqb; cbv iota; by destruct index|].
  split.
  { intros ->. simpl. split; [apply Z.div_pos; lia|].
    apply Z.div_lt_upper_bound; lia. }
  split.
  - rewrite (sample_iterative_run sc field fuel model dataset path "pressure" name cm index
               _ y_true y_pred Hrun HN Ht Hp).
    rewrite Hrun. unfold window. simpl String.eqb. cbv iota. simpl fst. simpl snd.
    by destruct index.
  - intros stitched i Hst _ Hi.
    assert (Hl : length stitched = ds_len dataset) by (by destruct Hst as [-> | ->]).
    rewrite <- Hl. apply py_slice_from; lia.
Qed.

Lemma pressure_window_witness :
  trace (sample_iterative exact_scalars pixel_losses 5 demo_model demo_dataset None
           "pressure" None false (Some 1)) =
    trace (rollout (Sc:=Qc) 5 demo_model demo_dataset) ++
    [EvSampled 5; EvRender (PressureFigure 5000 201 "Pressure Results" None)] /\
  py_slice [1000; 2000; 4000; 5000; 7000] 1 (1 + 3) = [2000; 4000; 5000].
Proof.
  destruct (pressure_window exact_scalars pixel_losses 5 demo_model demo_dataset
              demo_samples)
    as (y_true & y_pred & Hres & _ & _ & Hwin).
  - reflexivity.
  - simpl. lia.
  - simpl. lia.
  - reflexivity.
  - intros x. reflexivity.
  - intros x. reflexivity.
  - simpl. lia.
  - split; reflexivity.
Defined.

(** C6, as stated, fails: on a source of 4 samples of depth 3 and with no
    index given, the animation is handed 2 frames, not a window of [D = 3]
    frames. *)
Lemma animation_window_short :
  In (EvRender (AnimationGif [4000; 5000] [200; 201] "Pressure Field Evolution"
                  "pressure_evolution.gif"))
     (trace (sample_iterative exact_scalars pixel_losses 4 demo_model
               (list_dataset 3 (take 4 demo_samples)) None "animation" None false None)) /\
  length [4000; 5000] <> Z.to_nat (depth (list_dataset 3 (take 4 demo_samples))).
Proof. split; [vm_compute; tauto | vm_compute; lia]. Qed.

(** C6, amended.  For [kind = "animation"] the window is the pair of slices
    [y_pred[N // 2 : N // 2 + index]] and [y_true[N // 2 : N // 2 + index]]
    of the stitched sequences, [index] being [D] when none is given, and it
    is what the presenter receives.  For a number of frames [0 <= index]
    such a slice holds the [index] stitched entries from position [N // 2]
    on, or the [N - N // 2] that remain when the end of the sequence comes
    first.
    Whatever [kind] and [index] are, the events of [sample_iterative] are
    those of the rollout, the printed length, the printed metrics (if
    requested), and only then those of the presenter: the metrics are
    computed on the full stitched sequences and do not depend on [kind] or
    [index].
    The data model is assumed: targets and predictions of [D] frames, and
    frames with no axis of size one, so that [squeeze()] removes the batch
    axis alone. *)
Theorem animation_window {Frame Sc : Type} {shaped : Shaped Frame} (sc : Scalars Sc) (field : Losses Frame Sc)
    (fuel : nat) (model : Model Frame) (dataset : Dataset Frame)
    (samples : list (Sample Frame)) :
  in_range_samples dataset = Some samples ->
  (1 <= length samples)%nat ->
  2 <= depth dataset ->
  forallb (wf_sample (depth dataset)) samples = true ->
  (forall x, Z.of_nat (length (model x)) = depth dataset) ->
  (forall x, no_unit_axis (model x) = true) ->
  (length samples <= fuel)%nat ->
  exists y_true y_pred,
    result (rollout (Sc:=Sc) fuel model dataset) = Done (y_true, y_pred) /\
    length y_true = ds_len dataset /\ length y_pred = ds_len dataset /\
    (forall kind (index : option Z) path name compute_metrics,
       exists shown_pred shown_true,
         sample_iterative sc field fuel model dataset path kind name
           compute_metrics index =
           (trace (rollout (Sc:=Sc) fuel model dataset) ++
            EvSampled (ds_len dataset) ::
            metrics_events sc field compute_metrics name (Z.of_nat (ds_len dataset))
              y_true y_pred ++
            trace (plot_inference_results_direct (Sc:=Sc) shown_pred shown_true
                     path kind name),
            result (plot_inference_results_direct (Sc:=Sc) shown_pred shown_true
                      path kind name))) /\
    forall (index : option Z) path name compute_metrics,
      window "animation" index dataset y_pred y_true =
        (py_slice y_pred (Z.of_nat (ds_len dataset) / 2)
           (Z.of_nat (ds_len dataset) / 2 + default (depth dataset) index),
         py_slice y_true (Z.of_nat (ds_len dataset) / 2)
           (Z.of_nat (ds_len dataset) / 2 + default (depth dataset) index)) /\
      sample_iterative sc field fuel model dataset path "animation" name
        compute_metrics index =
        (trace (rollout (Sc:=Sc) fuel model dataset) ++
         EvSampled (ds_len dataset) ::
         metrics_events sc field compute_metrics name (Z.of_nat (ds_len dataset))
           y_true y_pred ++
         trace (plot_inference_results_direct (Sc:=Sc)
                  (py_slice y_pred (Z.of_nat (ds_len dataset) / 2)
                     (Z.of_nat (ds_len dataset) / 2 + default (depth dataset) index))
                  (py_slice y_true (Z.of_nat (ds_len dataset) / 2)
                     (Z.of_nat (ds_len dataset) / 2 + default (depth dataset) index))
                  path "animation" name),
         result (plot_inference_results_direct (Sc:=Sc)
                   (py_slice y_pred (Z.of_nat (ds_len dataset) / 2)
                      (Z.of_nat (ds_len dataset) / 2 + default (depth dataset) index))
                   (py_slice y_true (Z.of_nat (ds_len dataset) / 2)
                      (Z.of_nat (ds_len dataset) / 2 + default (depth dataset) index))
                   path "animation" name)) /\
      forall (stitched : list Frame) (n mid : Z),
        (stitched = y_pred \/ stitched = y_true) ->
        n = default (depth dataset) index -> mid = Z.of_nat (ds_len dataset) / 2 ->
        0 <= n ->
        py_slice stitched mid (mid + n) = take (Z.to_nat n) (drop (Z.to_nat mid) stitched) /\
        length (py_slice stitched mid (mid + n)) =
          Z.to_nat (Z.min n (Z.of_nat (ds_len dataset) - mid)) /\
        forall j : nat, (j < length (py_slice stitched mid (mid + n)))%nat ->
          py_slice stitched mid (mid + n) !! j = stitched !! (Z.to_nat mid + j)%nat.
Proof.
  intros Hs Hn Hd Hwf Hm Hax Hf.
  pose proof (in_range_samples_length _ _ Hs) as Hlen.
  destruct (rollout_run (Sc:=Sc) fuel model dataset samples Hs Hn Hd Hwf Hm Hax Hf)
    as (stride & s0 & c0 & Hdepth & Hstride & Hs0 & Hc0 & Hy & Hm' & Hrun).
  set (ws := windows model samples stride fuel 0 c0) in *.
  assert (Hws : length ws = ((length samples + stride - 1) / stride)%nat).
  { unfold ws. rewrite windows_length by nia. by rewrite Nat.sub_0_r. }
  pose proof (ceil_div_covers (length samples) stride Hstride) as Hcover.
  set (y_true := take (length samples) (concat (emitted_true <$> ws))) in *.
  set (y_pred := take (length samples) (concat (emitted_pred <$> ws))) in *.
  assert (Ht : length y_true = ds_len dataset).
  { unfold y_true. rewrite length_take, (length_concat_uniform _ stride), length_fmap.
    - lia.
    - apply (emitted_true_length model samples stride Hy). }
  assert (Hp : length y_pred = ds_len dataset).
  { unfold y_pred. rewrite length_take, (length_concat_uniform _ stride), length_fmap.
    - lia.
    - apply (emitted_pred_length model samples stride Hm'). }
  assert (HN : (1 <= ds_len dataset)%nat) by lia.
  exists y_true, y_pred. split; [by rewrite Hrun|]. split; [done|]. split; [done|].
  split.
  - intros kind index path name cm.
    exists (window kind index dataset y_pred y_true).1,
           (window kind index dataset y_pred y_true).2.
    rewrite (sample_iterative_run sc field fuel model dataset path kind name cm index
               _ y_true y_pred Hrun HN Ht Hp).
    by rewrite Hrun.
  - intros index path name cm.
    split; [unfold window; simpl String.eqb; cbv iota; by destruct index|].
    split.
    + rewrite (sample_iterative_run sc field fuel model dataset path "animation" name cm
                 index _ y_true y_pred Hrun HN Ht Hp).
      rewrite Hrun. unfold window. simpl String.eqb. cbv iota. simpl fst. simpl snd.
      by destruct index.
    + intros stitched n mid Hst _ Hmid Hn0.
      assert (Hl : length stitched = ds_len dataset) by (by destruct Hst as [-> | ->]).
      assert (Hmid0 : 0 <= mid <= Z.of_nat (ds_len dataset)).
      { rewrite Hmid. split; [apply Z.div_pos; lia|].
        apply Z.div_le_upper_bound; lia. }
      destruct (py_slice_from stitched mid n ltac:(lia) Hn0) as (H1 & H2 & H3).
      split; [done|]. split; [|done].
      rewrite H2, Hl. f_equal. lia.
Qed.

Lemma animation_window_witness :
  trace (sample_iterative exact_scalars pixel_losses 5 demo_model demo_dataset None
           "animation" None true (Some 2)) =
    trace (rollout (Sc:=Qc) 5 demo_model demo_dataset) ++
    EvSampled 5 ::
    metrics_events exact_scalars pixel_losses true None 5
      [0; 1; 200; 201; 400] [1000; 2000; 4000; 5000; 7000] ++
    [EvPrint "Creating prediction animation...";
     EvPrint "Saving animation to pressure_evolution.gif";
     EvRender (AnimationGif [4000; 5000] [200; 201] "Pressure Field Evolution"
                 "pressure_evolution.gif");
     EvPrint "Animation saved."].
Proof.
  destruct (animation_window exact_scalars pixel_losses 5 demo_model demo_dataset
              demo_samples)
    as (y_true & y_pred & Hres & _ & _ & _ & Hwin).
  - reflexivity.
  - simpl. lia.
  - simpl. lia.
  - reflexivity.
  - intros x. reflexivity.
  - intros x. reflexivity.
  - simpl. lia.
  - assert (Heq : Done (A:=list Z * list Z)
                    ([0; 1; 200; 201; 400], [1000; 2000; 4000; 5000; 7000]) =
                  Done (y_true, y_pred)) by exact Hres.
    injection Heq as <- <-.
    destruct (Hwin (Some 2) None None true) as (_ & -> & _). reflexivity.
Defined.

(** C9, as stated, fails: with the recognised kind ["pressure"] and empty
    sequences (what [sample_iterative] hands over for an index at or past the
    end of the stitched sequence), [plot_inference_results_direct] raises,
    at [pred_data[-1]]. *)
Lemma plot_pressure_empty_raises :
  plot_inference_results_direct (Frame:=Z) (Sc:=Qc) [] [] None "pressure" None =
    ([], Raised IndexError) /\
  result (sample_iterative exact_scalars pixel_losses 5 demo_model demo_dataset None
            "pressure" None false (Some 5)) = Raised IndexError.
Proof. split; reflexivity. Qed.

(** C9, amended.  [plot_inference_results_direct] raises its "Unknown kind"
    [ValueError] if and only if [kind] is none of ["pressure"],
    ["animation"], ["error"], and then it raises it at once, before any
    output.  Each of the three kinds selects its own branch, and a branch
    can raise an error of its own.  ["pressure"] asks for the figure of the
    two last frames, and raises [IndexError] when a sequence is empty.
    ["animation"] asks for the animation of the sequences; it raises the
    [ValueError] of an empty reduction when a sequence is empty, and
    [IndexError] while saving when the target has fewer frames than the
    prediction.  ["error"] asks for the error figure, and raises the
    [ValueError] of a failed broadcast, before any output, when the two
    lengths differ and neither is one. *)
Theorem plot_kind_dispatch {Frame Sc : Type} (pred_data target_data : list Frame)
    (path : option string) (kind : string) (name : option string) :
  ((exists t, plot_inference_results_direct (Sc:=Sc) pred_data target_data path kind name
              = (t, Raised (unknown_kind kind))) <->
   kind <> "pressure"%string /\ kind <> "animation"%string /\ kind <> "error"%string) /\
  (kind <> "pressure"%string /\ kind <> "animation"%string /\ kind <> "error"%string ->
   plot_inference_results_direct (Sc:=Sc) pred_data target_data path kind name
     = ([], Raised (unknown_kind kind))) /\
  (kind = "pressure"%string ->
   match last pred_data, last target_data with
   | Some p, Some t =>
       exists title,
         plot_inference_results_direct (Sc:=Sc) pred_data target_data path kind name
           = ([EvRender (PressureFigure p t title path)], Done tt)
   | _, _ =>
       plot_inference_results_direct (Sc:=Sc) pred_data target_data path kind name
         = ([], Raised IndexError)
   end) /\
  (kind = "animation"%string ->
   match pred_data, target_data with
   | _ :: _, _ :: _ =>
       exists title file,
         file = default "pressure_evolution.gif"%string path /\
         if (length target_data <? length pred_data)%nat
         then
           plot_inference_results_direct (Sc:=Sc) pred_data target_data path kind name
             = ([EvPrint "Creating prediction animation...";
                 EvPrint ("Saving animation to " ++ file)], Raised IndexError)
         else
           plot_inference_results_direct (Sc:=Sc) pred_data target_data path kind name
             = ([EvPrint "Creating prediction animation...";
                 EvPrint ("Saving animation to " ++ file);
                 EvRender (AnimationGif pred_data target_data title file);
                 EvPrint "Animation saved."], Done tt)
   | _, _ =>
       plot_inference_results_direct (Sc:=Sc) pred_data target_data path kind name
         = ([EvPrint "Creating prediction animation..."], Raised zero_size_min)
   end) /\
  (kind = "error"%string ->
   if broadcastable (length pred_data) (length target_data)
   then
     exists title,
       plot_inference_results_direct (Sc:=Sc) pred_data target_data path kind name
         = ([EvPrint "Plotting error evolution...";
             EvPrint "Plotting error distribution...";
             EvRender (ErrorFigure pred_data target_data title path);
             EvPrint "Error plots saved."], Done tt)
   else
     plot_inference_results_direct (Sc:=Sc) pred_data target_data path kind name
       = ([], Raised broadcast_error)).
Proof.
  assert (Hpressure : kind = "pressure"%string ->
    match last pred_data, last target_data with
    | Some p, Some t =>
        exists title,
          plot_inference_results_direct (Sc:=Sc) pred_data target_data path kind name
            = ([EvRender (PressureFigure p t title path)], Done tt)
    | _, _ =>
        plot_inference_results_direct (Sc:=Sc) pred_data target_data path kind name
          = ([], Raised IndexError)
    end).
  { intros ->. unfold plot_inference_results_direct. simpl String.eqb. cbv iota.
    rewrite !py_getitem_last.
    destruct (last pred_data) as [p|]; [|done].
    destruct (last target_data) as [t|]; [|done].
    eexists. reflexivity. }
  assert (Hanimation : kind = "animation"%string ->
    match pred_data, target_data with
    | _ :: _, _ :: _ =>
        exists title file,
          file = default "pressure_evolution.gif"%string path /\
          if (length target_data <? length pred_data)%nat
          then
            plot_inference_results_direct (Sc:=Sc) pred_data target_data path kind name
              = ([EvPrint "Creating prediction animation...";
                  EvPrint ("Saving animation to " ++ file)], Raised IndexError)
          else
            plot_inference_results_direct (Sc:=Sc) pred_data target_data path kind name
              = ([EvPrint "Creating prediction animation...";
                  EvPrint ("Saving animation to " ++ file);
                  EvRender (AnimationGif pred_data target_data title file);
                  EvPrint "Animation saved."], Done tt)
    | _, _ =>
        plot_inference_results_direct (Sc:=Sc) pred_data target_data path kind name
          = ([EvPrint "Creating prediction animation..."], Raised zero_size_min)
    end).
  { intros ->. unfold plot_inference_results_direct. simpl String.eqb. cbv iota.
    destruct pred_data as [|p ps]; [done|].
    destruct target_data as [|t ts]; [done|].
    do 2 eexists. split; [reflexivity|].
    destruct (length (t :: ts) <? length (p :: ps))%nat; by destruct path. }
  assert (Herror : kind = "error"%string ->
    if broadcastable (length pred_data) (length target_data)
    then
      exists title,
        plot_inference_results_direct (Sc:=Sc) pred_data target_data path kind name
          = ([EvPrint "Plotting error evolution...";
              EvPrint "Plotting error distribution...";
              EvRender (ErrorFigure pred_data target_data title path);
              EvPrint "Error plots saved."], Done tt)
    else
      plot_inference_results_direct (Sc:=Sc) pred_data target_data path kind name
        = ([], Raised broadcast_error)).
  { intros ->. unfold plot_inference_results_direct. simpl String.eqb. cbv iota.
    destruct (broadcastable (length pred_data) (length target_data)); [|done].
    eexists. reflexivity. }
  assert (Hunknown :
    kind <> "pressure"%string /\ kind <> "animation"%string /\ kind <> "error"%string ->
    plot_inference_results_direct (Sc:=Sc) pred_data target_data path kind name
      = ([], Raised (unknown_kind kind))).
  { intros (H1 & H2 & H3). unfold plot_inference_results_direct.
    apply String.eqb_neq in H1, H2, H3. by rewrite H1, H2, H3. }
  split; [|done].
  split; [|intros H; eexists; by apply Hunknown].
  intros (t & Hraised).
  split; [|split]; intros Hk.
  - specialize (Hpressure Hk).
    destruct (last pred_data), (last target_data);
      try destruct Hpressure as (title & Hpressure);
      rewrite Hpressure in Hraised; subst kind; discriminate.
  - specialize (Hanimation Hk).
    destruct pred_data as [|p ps], target_data as [|t' ts];
      try (rewrite Hanimation in Hraised; subst kind; discriminate).
    destruct Hanimation as (title & file & _ & Hanimation).
    destruct (length (t' :: ts) <? length (p :: ps))%nat;
      rewrite Hanimation in Hraised; subst kind; discriminate.
  - specialize (Herror Hk).
    destruct (broadcastable (length pred_data) (length target_data)).
    + destruct Herror as (title & Herr). rewrite Herr in Hraised. discriminate.
    + rewrite Herror in Hraised. subst kind. discriminate.
Qed.

Lemma plot_kind_dispatch_witness :
  plot_inference_results_direct (Frame:=Z) (Sc:=Qc) [1; 2] [3; 4] None "movie" None
    = ([], Raised (ValueError
         "Unknown kind: movie. Choose from 'pressure', 'animation', or 'error'.")).
Proof.
  destruct (plot_kind_dispatch (Frame:=Z) (Sc:=Qc) [1; 2] [3; 4] None "movie" None)
    as (_ & Hunknown & _).
  apply Hunknown. repeat split; discriminate.
Defined.

(** * The empty source *)

(** C10, as stated, fails: on an empty source [evaluate_models] with no
    predictor returns the empty mapping; and [sample_iterative] on an empty
    list-backed source raises at the seeding access [dataset[0]], before any
    list is stacked. *)
Lemma empty_source_returns :
  evaluate_models exact_scalars rational_losses [] (list_dataset 2 []) true = ([], Done []) /\
  sample_iterative exact_scalars pixel_losses 5 demo_model (list_dataset 3 []) None
    "pressure" None false None = ([EvGet 0], Raised IndexError).
Proof. split; reflexivity. Qed.

(** C10, amended.  On an empty source ([N = 0]) [evaluate_models] with at
    least one predictor raises [ZeroDivisionError] at the first average,
    after no access and no call (with no predictor it returns the empty
    mapping); and [sample_iterative] never returns, whatever the fuel: it
    raises right after the access [dataset[0]], with the error of that
    access when it fails, with [IndexError] when the sample has no input
    frame, and otherwise with the [RuntimeError] of stacking an empty list. *)
Theorem empty_source_fails {Frame Sc : Type} {shaped : Shaped Frame} (sc : Scalars Sc)
    (batch : Losses (list Frame) Sc) (field : Losses Frame Sc)
    (dataset : Dataset Frame) :
  ds_len dataset = 0%nat ->
  (forall models print_results, models <> [] ->
     evaluate_models sc batch models dataset print_results
       = ([], Raised ZeroDivisionError)) /\
  (forall print_results,
     evaluate_models sc batch [] dataset print_results = ([], Done [])) /\
  (forall fuel model path kind name compute_metrics index,
     exists e,
       sample_iterative sc field fuel model dataset path kind name compute_metrics index
         = ([EvGet 0], Raised e) /\
       e = match getitem dataset 0 with
           | inl e' => e'
           | inr s => match data_x s with
                      | [] => IndexError
                      | _ :: _ => RuntimeError
                      end
           end).
Proof.
  intros Hlen. split; [|split].
  - intros models pr Hne. by apply evaluate_models_empty.
  - intros pr. unfold evaluate_models. cbv zeta. rewrite Hlen.
    change (seqZ 0 (Z.of_nat 0)) with (@nil Z). by destruct pr.
  - intros fuel model path kind name cm index. eexists. split; [|reflexivity].
    apply sample_iterative_rollout_raised. unfold rollout.
    destruct (getitem dataset 0) as [e' | s] eqn:Hget.
    + by rewrite (get_inl _ _ _ _ Hget).
    + rewrite (get_inr _ _ _ _ Hget).
      destruct (data_x s) as [|c rest]; [done|].
      change (py_getitem (c :: rest) 0) with (inr (B:=Frame) (A:=exn) c).
      rewrite bind_lift_inr.
      assert (Hloop : rollout_loop (Sc:=Sc) fuel model dataset 0 c [] [] = ([], Done ([], []))).
      { destruct fuel; simpl; rewrite Hlen; done. }
      rewrite (bind_step _ _ _ _ Hloop). done.
Qed.

Lemma empty_source_fails_witness :
  evaluate_models exact_scalars rational_losses demo_models (list_dataset 2 []) true
    = ([], Raised ZeroDivisionError) /\
  evaluate_models exact_scalars rational_losses [] (list_dataset 2 []) true = ([], Done []).
Proof.
  destruct (empty_source_fails exact_scalars rational_losses rational_frame_losses
              (list_dataset 2 []))
    as (Hraise & Hnone & _).
  - reflexivity.
  - split; [apply Hraise; discriminate | apply Hnone].
Defined.

(** * Further properties of the code *)

Lemma bind_result_done {E A B} (f : A -> Run E B) (m : Run E A) (b : B) :
  result (m ≫= f) = Done b -> exists a, result m = Done a /\ result (f a) = Done b.
Proof.
  destruct m as [t [a | e |]]; unfold mbind, Run_bind, run_bind; [|done..].
  intros H. exists a. split; [done|]. by destruct (f a).
Qed.

Lemma bind_result_emit {E B} (f : unit -> Run E B) (e : E) :
  result (emit e ≫= f) = result (f tt).
Proof. by rewrite bind_emit. Qed.

(** ** A depth of one or less *)

Lemma rollout_loop_no_return {Frame Sc} {shaped : Shaped Frame} fuel (model : Model Frame) (dataset : Dataset Frame)
    i c y_true y_pred r :
  depth dataset <= 1 -> i < Z.of_nat (ds_len dataset) ->
  result (rollout_loop (Sc:=Sc) fuel model dataset i c y_true y_pred) <> Done r.
Proof.
  intros Hd. revert i c y_true y_pred.
  induction fuel as [|fuel IH]; intros i c y_true y_pred Hi.
  - simpl. destruct (Z.ltb_spec i (Z.of_nat (ds_len dataset))); [done | lia].
  - rewrite rollout_loop_unfold.
    destruct (Z.ltb_spec i (Z.of_nat (ds_len dataset))); [|lia].
    intros Hdone.
    apply bind_result_done in Hdone as (data & _ & Hdone).
    apply bind_result_done in Hdone as (x & _ & Hdone).
    apply bind_result_done in Hdone as (pred & _ & Hdone).
    apply bind_result_done in Hdone as (c' & _ & Hdone).
    revert Hdone. apply IH. lia.
Qed.

Lemma rollout_no_return {Frame Sc} {shaped : Shaped Frame} fuel (model : Model Frame) (dataset : Dataset Frame) r :
  depth dataset <= 1 ->
  result (rollout (Sc:=Sc) fuel model dataset) <> Done r.
Proof.
  intros Hd Hdone. unfold rollout in Hdone.
  apply bind_result_done in Hdone as (first & _ & Hdone).
  apply bind_result_done in Hdone as (c & _ & Hdone).
  apply bind_result_done in Hdone as ([y_true y_pred] & Hloop & Hdone).
  destruct (Z.ltb_spec 0 (Z.of_nat (ds_len dataset))) as [Hpos | Hzero].
  - by apply rollout_loop_no_return in Hloop.
  - assert (Hnil : y_true = []).
    { destruct fuel; simpl in Hloop;
        (destruct (Z.ltb_spec 0 (Z.of_nat (ds_len dataset))); [lia|]);
        by injection Hloop as <- <-. }
    subst y_true. cbv zeta in Hdone.
    apply bind_result_done in Hdone as (w & Hw & _). done.
Qed.

(** X1.  With a depth of one or less [sample_iterative] never returns,
    whatever the source, the predictor and the other arguments: the index of
    the loop does not advance, so the loop does not end by its condition, and
    with no sample at all the empty list cannot be stacked. *)
Theorem sample_iterative_flat_depth {Frame Sc : Type} {shaped : Shaped Frame} (sc : Scalars Sc)
    (field : Losses Frame Sc) (fuel : nat) (model : Model Frame)
    (dataset : Dataset Frame) path kind name compute_metrics index :
  depth dataset <= 1 ->
  result (sample_iterative sc field fuel model dataset path kind name
            compute_metrics index) <> Done tt.
Proof.
  intros Hd Hdone. unfold sample_iterative in Hdone.
  apply bind_result_done in Hdone as ([y_true y_pred] & Hr & _).
  by apply rollout_no_return in Hr.
Qed.

Lemma sample_iterative_flat_depth_witness :
  result (sample_iterative exact_scalars pixel_losses 7 demo_model
            (list_dataset 1 demo_samples) None "pressure" None false None) = Unfinished.
Proof.
  pose proof (sample_iterative_flat_depth exact_scalars pixel_losses 7 demo_model
                (list_dataset 1 demo_samples) None "pressure" None false None) as H.
  assert (Hd : depth (list_dataset 1 demo_samples) <= 1) by (simpl; lia).
  specialize (H Hd). reflexivity.
Defined.

Lemma rollout_loop_spins {Frame Sc} {shaped : Shaped Frame} (model : Model Frame) (dataset : Dataset Frame)
    (s0 : Sample Frame) fuel c y_true y_pred :
  depth dataset = 1 -> (1 <= ds_len dataset)%nat ->
  getitem dataset 0 = inr s0 -> data_x s0 <> [] ->
  (forall x, (2 <= length (model x))%nat) ->
  (forall x, no_unit_axis (model x) = true) ->
  result (rollout_loop (Sc:=Sc) fuel model dataset 0 c y_true y_pred) = Unfinished /\
  gets (trace (rollout_loop (Sc:=Sc) fuel model dataset 0 c y_true y_pred)) =
    replicate fuel 0 /\
  length (calls (trace (rollout_loop (Sc:=Sc) fuel model dataset 0 c y_true y_pred))) = fuel.
Proof.
  intros Hd Hn Hget Hx Hm Hax. revert c y_true y_pred.
  induction fuel as [|fuel IH]; intros c y_true y_pred.
  - simpl. destruct (Z.ltb_spec 0 (Z.of_nat (ds_len dataset))); [done | lia].
  - rewrite rollout_loop_unfold.
    destruct (Z.ltb_spec 0 (Z.of_nat (ds_len dataset))); [|lia].
    destruct (data_x s0) as [|a rest] eqn:Hxs; [done|].
    assert (Hlast : exists c', last (model (c :: rest)) = Some c').
    { destruct (last (model (c :: rest))) eqn:Hl; [by eexists|].
      apply last_None in Hl. specialize (Hm (c :: rest)). rewrite Hl in Hm.
      simpl in Hm. lia. }
    destruct Hlast as (c' & Hlast).
    rewrite (get_inr _ _ _ _ Hget), Hxs. simpl py_setitem0.
    rewrite bind_lift_inr, call_bind.
    rewrite squeezed_last_keeps by (done || (specialize (Hm (c :: rest)); lia)).
    rewrite py_getitem_last, Hlast.
    simpl from_option. rewrite bind_lift_inr.
    replace (0 + (depth dataset - 1)) with 0 by lia.
    destruct (IH c' (y_true ++ [py_slice (data_y s0) 0 (-1)])
                (y_pred ++ [py_slice (model (c :: rest)) 0 (-1)])) as (Hres & Hgets & Hcalls).
    unfold trace, result in *. simpl fst. simpl snd.
    split; [done|]. split.
    + change (gets (EvGet 0 :: EvCall None (c :: rest) :: ?t)) with (0 :: gets t).
      by rewrite Hgets.
    + change (calls (EvGet 0 :: EvCall None (c :: rest) :: ?t))
        with ((c :: rest) :: calls t).
      simpl length. by rewrite Hcalls.
Qed.

(** X2.  With a depth of exactly one and a predictor whose predictions keep
    their three axes under [squeeze()] (two frames or more, no axis of size
    one), the loop of [sample_iterative] spins on the first sample: whatever
    the fuel, the run is still unfinished when the fuel is used up, every
    access it made is [dataset[0]] and the predictor was called once per
    turn. *)
Theorem sample_iterative_unit_depth_spins {Frame Sc : Type} {shaped : Shaped Frame} (sc : Scalars Sc)
    (field : Losses Frame Sc) (fuel : nat) (model : Model Frame)
    (dataset : Dataset Frame) (s0 : Sample Frame)
    path kind name compute_metrics index :
  depth dataset = 1 -> (1 <= ds_len dataset)%nat ->
  getitem dataset 0 = inr s0 -> data_x s0 <> [] ->
  (forall x, (2 <= length (model x))%nat) ->
  (forall x, no_unit_axis (model x) = true) ->
  result (sample_iterative sc field fuel model dataset path kind name
            compute_metrics index) = Unfinished /\
  gets (trace (sample_iterative sc field fuel model dataset path kind name
                 compute_metrics index)) = replicate (S fuel) 0 /\
  length (calls (trace (sample_iterative sc field fuel model dataset path kind name
                          compute_metrics index))) = fuel.
Proof.
  intros Hd Hn Hget Hx Hm Hax.
  destruct (data_x s0) as [|a rest] eqn:Hxs; [done|].
  assert (Hx' : data_x s0 <> []) by by rewrite Hxs.
  destruct (rollout_loop_spins (Sc:=Sc) model dataset s0 fuel a [] [] Hd Hn Hget Hx' Hm Hax)
    as (Hres & Hgets & Hcalls).
  assert (Hroll : rollout (Sc:=Sc) fuel model dataset =
                  (EvGet 0 :: trace (rollout_loop (Sc:=Sc) fuel model dataset 0 a [] []),
                   Unfinished)).
  { unfold rollout. rewrite (get_inr _ _ _ _ Hget), Hxs.
    change (py_getitem (a :: rest) 0) with (inr (A:=exn) a).
    rewrite bind_lift_inr.
    destruct (rollout_loop (Sc:=Sc) fuel model dataset 0 a [] []) as [t o] eqn:Hloop.
    unfold result in Hres. simpl in Hres. subst o. done. }
  assert (Hrun : sample_iterative sc field fuel model dataset path kind name
                   compute_metrics index =
                 (EvGet 0 :: trace (rollout_loop (Sc:=Sc) fuel model dataset 0 a [] []),
                  Unfinished)).
  { unfold sample_iterative. by rewrite Hroll. }
  rewrite Hrun. unfold trace, result in *. cbn [fst snd].
  split; [done|]. split.
  - change (gets (EvGet 0 :: ?t)) with (0 :: gets t). by rewrite Hgets.
  - change (calls (EvGet 0 :: ?t)) with (calls t). done.
Qed.

Lemma sample_iterative_unit_depth_spins_witness :
  result (sample_iterative exact_scalars pixel_losses 3 demo_model
            (list_dataset 1 demo_samples) None "pressure" None false None) = Unfinished /\
  gets (trace (sample_iterative exact_scalars pixel_losses 3 demo_model
                 (list_dataset 1 demo_samples) None "pressure" None false None))
    = [0; 0; 0; 0].
Proof.
  destruct (sample_iterative_unit_depth_spins exact_scalars pixel_losses 3 demo_model
              (list_dataset 1 demo_samples) (demo_sample 0)
              None "pressure" None false None)
    as (Hres & Hgets & _).
  - reflexivity.
  - simpl. lia.
  - reflexivity.
  - discriminate.
  - intros x. simpl. lia.
  - intros x. reflexivity.
  - split; [exact Hres | exact Hgets].
Defined.

(** ** What [sample_iterative] presents *)

Lemma last_take_drop {A} (l : list A) (i n : nat) :
  (i < length l)%nat -> (1 <= n)%nat ->
  last (take n (drop i l)) = l !! (Nat.min (i + n) (length l) - 1)%nat.
Proof.
  intros Hi Hn. rewrite last_lookup, length_take, length_drop.
  rewrite lookup_take.
  destruct (decide (Nat.pred (Nat.min n (length l - i)) < n)%nat); [|lia].
  rewrite lookup_drop. f_equal. lia.
Qed.

Lemma py_slice_same_length {A} (l l' : list A) (a b : Z) :
  length l = length l' -> length (py_slice l a b) = length (py_slice l' a b).
Proof. intros Hl. unfold py_slice. by rewrite !length_take, !length_drop, Hl. Qed.

Lemma broadcastable_same (n : nat) : broadcastable n n = true.
Proof. unfold broadcastable. by rewrite Nat.eqb_refl. Qed.

(** The error figure of two sequences of one length. *)
Lemma plot_error_same_length {Frame Sc} (pred target : list Frame) path name :
  length pred = length target ->
  plot_inference_results_direct (Sc:=Sc) pred target path "error" name =
    ([EvPrint "Plotting error evolution...";
      EvPrint "Plotting error distribution...";
      EvRender (ErrorFigure pred target
                  (match name with
                   | None => ""
                   | Some n => " (" ++ n ++ ")"
                   end)%string path);
      EvPrint "Error plots saved."], Done tt).
Proof.
  intros Hl. unfold plot_inference_results_direct. simpl String.eqb. cbv iota.
  by rewrite Hl, broadcastable_same.
Qed.

(** [sample_iterative] under the data-model invariants: the stitched
    sequences exist, and every call continues with the metrics, the window
    and the presenter. *)
Lemma sample_iterative_stitched {Frame Sc : Type} {shaped : Shaped Frame} (sc : Scalars Sc)
    (field : Losses Frame Sc) (fuel : nat) (model : Model Frame)
    (dataset : Dataset Frame) (samples : list (Sample Frame)) :
  in_range_samples dataset = Some samples ->
  (1 <= length samples)%nat ->
  2 <= depth dataset ->
  forallb (wf_sample (depth dataset)) samples = true ->
  (forall x, Z.of_nat (length (model x)) = depth dataset) ->
  (forall x, no_unit_axis (model x) = true) ->
  (length samples <= fuel)%nat ->
  exists y_true y_pred,
    result (rollout (Sc:=Sc) fuel model dataset) = Done (y_true, y_pred) /\
    length y_true = ds_len dataset /\ length y_pred = ds_len dataset /\
    (1 <= ds_len dataset)%nat /\
    forall path kind name cm index,
      sample_iterative sc field fuel model dataset path kind name cm index =
        (trace (rollout (Sc:=Sc) fuel model dataset) ++
         EvSampled (ds_len dataset) ::
         metrics_events sc field cm name (Z.of_nat (ds_len dataset)) y_true y_pred ++
         trace (plot_inference_results_direct (Sc:=Sc)
                  (window kind index dataset y_pred y_true).1
                  (window kind index dataset y_pred y_true).2 path kind name),
         result (plot_inference_results_direct (Sc:=Sc)
                   (window kind index dataset y_pred y_true).1
                   (window kind index dataset y_pred y_true).2 path kind name)).
Proof.
  intros Hs Hn Hd Hwf Hm Hax Hf.
  pose proof (in_range_samples_length _ _ Hs) as Hlen.
  destruct (rollout_run (Sc:=Sc) fuel model dataset samples Hs Hn Hd Hwf Hm Hax Hf)
    as (stride & s0 & c0 & Hdepth & Hstride & Hs0 & Hc0 & Hy & Hm' & Hrun).
  set (ws := windows model samples stride fuel 0 c0) in *.
  assert (Hws : length ws = ((length samples + stride - 1) / stride)%nat).
  { unfold ws. rewrite windows_length by nia. by rewrite Nat.sub_0_r. }
  pose proof (ceil_div_covers (length samples) stride Hstride) as Hcover.
  set (y_true := take (length samples) (concat (emitted_true <$> ws))) in *.
  set (y_pred := take (length samples) (concat (emitted_pred <$> ws))) in *.
  assert (Ht : length y_true = ds_len dataset).
  { unfold y_true. rewrite length_take, (length_concat_uniform _ stride), length_fmap.
    - lia.
    - apply (emitted_true_length model samples stride Hy). }
  assert (Hp : length y_pred = ds_len dataset).
  { unfold y_pred. rewrite length_take, (length_concat_uniform _ stride), length_fmap.
    - lia.
    - apply (emitted_pred_length model samples stride Hm'). }
  assert (HN : (1 <= ds_len dataset)%nat) by lia.
  exists y_true, y_pred. split; [by rewrite Hrun|]. do 3 (split; [done|]).
  intros path kind name cm index.
  rewrite (sample_iterative_run sc field fuel model dataset path kind name cm index
             _ y_true y_pred Hrun HN Ht Hp).
  by rewrite Hrun.
Qed.

(** X3.  [sample_iterative] looks at [kind] last: with a [kind] that is none
    of the three, the whole rollout is run, the length is printed and the
    metrics (if requested) are computed and printed, and only then is the
    call rejected with the "Unknown kind" [ValueError].
    The data model is assumed: targets and predictions of [D] frames, and
    frames with no axis of size one, so that [squeeze()] removes the batch
    axis alone. *)
Theorem sample_iterative_unknown_kind {Frame Sc : Type} {shaped : Shaped Frame} (sc : Scalars Sc)
    (field : Losses Frame Sc) (fuel : nat) (model : Model Frame)
    (dataset : Dataset Frame) (samples : list (Sample Frame))
    path (kind : string) name compute_metrics index :
  in_range_samples dataset = Some samples ->
  (1 <= length samples)%nat ->
  2 <= depth dataset ->
  forallb (wf_sample (depth dataset)) samples = true ->
  (forall x, Z.of_nat (length (model x)) = depth dataset) ->
  (forall x, no_unit_axis (model x) = true) ->
  (length samples <= fuel)%nat ->
  kind <> "pressure"%string -> kind <> "animation"%string -> kind <> "error"%string ->
  exists y_true y_pred,
    result (rollout (Sc:=Sc) fuel model dataset) = Done (y_true, y_pred) /\
    sample_iterative sc field fuel model dataset path kind name compute_metrics index =
      (trace (rollout (Sc:=Sc) fuel model dataset) ++
       EvSampled (ds_len dataset) ::
       metrics_events sc field compute_metrics name (Z.of_nat (ds_len dataset))
         y_true y_pred,
       Raised (unknown_kind kind)).
Proof.
  intros Hs Hn Hd Hwf Hm Hax Hf H1 H2 H3.
  destruct (sample_iterative_stitched sc field fuel model dataset samples Hs Hn Hd Hwf Hm Hax Hf)
    as (y_true & y_pred & Hres & _ & _ & _ & Hrun).
  exists y_true, y_pred. split; [done|]. rewrite Hrun.
  assert (Hplot : forall p t,
            plot_inference_results_direct (Frame:=Frame) (Sc:=Sc) p t path kind name =
            ([], Raised (unknown_kind kind))).
  { intros p t. unfold plot_inference_results_direct.
    apply String.eqb_neq in H1, H2, H3. by rewrite H1, H2, H3. }
  rewrite Hplot. unfold trace at 2, result. simpl fst. simpl snd.
  by rewrite app_nil_r.
Qed.

Lemma sample_iterative_unknown_kind_witness :
  sample_iterative exact_scalars pixel_losses 5 demo_model demo_dataset None "movie"
    None false None =
    (trace (rollout (Sc:=Qc) 5 demo_model demo_dataset) ++ [EvSampled 5],
     Raised (unknown_kind "movie")).
Proof.
  destruct (sample_iterative_unknown_kind exact_scalars pixel_losses 5 demo_model
              demo_dataset demo_samples None "movie" None false None)
    as (y_true & y_pred & _ & Hrun).
  - reflexivity.
  - simpl. lia.
  - simpl. lia.
  - reflexivity.
  - intros x. reflexivity.
  - intros x. reflexivity.
  - simpl. lia.
  - discriminate.
  - discriminate.
  - discriminate.
  - rewrite Hrun. reflexivity.
Defined.

(** X4.  For [kind = "error"] the call never fails after a good rollout.
    With no index the error figure is drawn from the whole stitched
    sequences, all [N] entries; with an index it is drawn from the slice
    [index : index + D], as for ["pressure"].
    The data model is assumed: targets and predictions of [D] frames, and
    frames with no axis of size one, so that [squeeze()] removes the batch
    axis alone. *)
Theorem sample_iterative_error_kind {Frame Sc : Type} {shaped : Shaped Frame} (sc : Scalars Sc)
    (field : Losses Frame Sc) (fuel : nat) (model : Model Frame)
    (dataset : Dataset Frame) (samples : list (Sample Frame))
    path name compute_metrics (index : option Z) :
  in_range_samples dataset = Some samples ->
  (1 <= length samples)%nat ->
  2 <= depth dataset ->
  forallb (wf_sample (depth dataset)) samples = true ->
  (forall x, Z.of_nat (length (model x)) = depth dataset) ->
  (forall x, no_unit_axis (model x) = true) ->
  (length samples <= fuel)%nat ->
  exists y_true y_pred suffix,
    result (rollout (Sc:=Sc) fuel model dataset) = Done (y_true, y_pred) /\
    length y_true = ds_len dataset /\ length y_pred = ds_len dataset /\
    sample_iterative sc field fuel model dataset path "error" name compute_metrics index =
      (trace (rollout (Sc:=Sc) fuel model dataset) ++
       EvSampled (ds_len dataset) ::
       metrics_events sc field compute_metrics name (Z.of_nat (ds_len dataset))
         y_true y_pred ++
       [EvPrint "Plotting error evolution...";
        EvPrint "Plotting error distribution...";
        EvRender (ErrorFigure
                    (match index with
                     | None => y_pred
                     | Some k => py_slice y_pred k (k + depth dataset)
                     end)
                    (match index with
                     | None => y_true
                     | Some k => py_slice y_true k (k + depth dataset)
                     end) suffix path);
        EvPrint "Error plots saved."],
       Done tt).
Proof.
  intros Hs Hn Hd Hwf Hm Hax Hf.
  destruct (sample_iterative_stitched sc field fuel model dataset samples Hs Hn Hd Hwf Hm Hax Hf)
    as (y_true & y_pred & Hres & Ht & Hp & _ & Hrun).
  exists y_true, y_pred. eexists. split; [done|]. split; [done|]. split; [done|].
  rewrite Hrun. unfold window. simpl String.eqb. cbv iota.
  destruct index as [k|]; cbn [fst snd].
  - rewrite plot_error_same_length by (apply py_slice_same_length; lia). reflexivity.
  - rewrite plot_error_same_length by lia. reflexivity.
Qed.

Lemma sample_iterative_error_kind_witness :
  sample_iterative exact_scalars pixel_losses 5 demo_model demo_dataset None "error"
    None false None =
    (trace (rollout (Sc:=Qc) 5 demo_model demo_dataset) ++
     [EvSampled 5;
      EvPrint "Plotting error evolution...";
      EvPrint "Plotting error distribution...";
      EvRender (ErrorFigure [1000; 2000; 4000; 5000; 7000] [0; 1; 200; 201; 400] "" None);
      EvPrint "Error plots saved."],
     Done tt).
Proof.
  destruct (sample_iterative_error_kind exact_scalars pixel_losses 5 demo_model
              demo_dataset demo_samples None None false None)
    as (y_true & y_pred & suffix & _ & _ & _ & Hrun).
  - reflexivity.
  - simpl. lia.
  - simpl. lia.
  - reflexivity.
  - intros x. reflexivity.
  - intros x. reflexivity.
  - simpl. lia.
  - reflexivity.
Defined.

(** X5.  For [kind = "pressure"] and an index inside the stitched sequence
    (the default [N // 2] always is), the figure shows one stitched entry of
    each sequence: the one at position [min(index + D, N) - 1], the last of
    the window.
    The data model is assumed: targets and predictions of [D] frames, and
    frames with no axis of size one, so that [squeeze()] removes the batch
    axis alone. *)
Theorem sample_iterative_pressure_frame {Frame Sc : Type} {shaped : Shaped Frame} (sc : Scalars Sc)
    (field : Losses Frame Sc) (fuel : nat) (model : Model Frame)
    (dataset : Dataset Frame) (samples : list (Sample Frame))
    path name compute_metrics (index : option Z) :
  in_range_samples dataset = Some samples ->
  (1 <= length samples)%nat ->
  2 <= depth dataset ->
  forallb (wf_sample (depth dataset)) samples = true ->
  (forall x, Z.of_nat (length (model x)) = depth dataset) ->
  (forall x, no_unit_axis (model x) = true) ->
  (length samples <= fuel)%nat ->
  (forall k, index = Some k -> 0 <= k < Z.of_nat (ds_len dataset)) ->
  exists y_true y_pred p t title,
    result (rollout (Sc:=Sc) fuel model dataset) = Done (y_true, y_pred) /\
    y_pred !! Z.to_nat (Z.min (default (Z.of_nat (ds_len dataset) / 2) index + depth dataset)
                          (Z.of_nat (ds_len dataset)) - 1) = Some p /\
    y_true !! Z.to_nat (Z.min (default (Z.of_nat (ds_len dataset) / 2) index + depth dataset)
                          (Z.of_nat (ds_len dataset)) - 1) = Some t /\
    sample_iterative sc field fuel model dataset path "pressure" name compute_metrics index =
      (trace (rollout (Sc:=Sc) fuel model dataset) ++
       EvSampled (ds_len dataset) ::
       metrics_events sc field compute_metrics name (Z.of_nat (ds_len dataset))
         y_true y_pred ++
       [EvRender (PressureFigure p t title path)],
       Done tt).
Proof.
  intros Hs Hn Hd Hwf Hm Hax Hf Hidx.
  destruct (sample_iterative_stitched sc field fuel model dataset samples Hs Hn Hd Hwf Hm Hax Hf)
    as (y_true & y_pred & Hres & Ht & Hp & HN & Hrun).
  set (i := default (Z.of_nat (ds_len dataset) / 2) index).
  assert (Hi : 0 <= i < Z.of_nat (ds_len dataset)).
  { unfold i. destruct index as [k|]; simpl; [by apply Hidx|].
    split; [apply Z.div_pos; lia | apply Z.div_lt_upper_bound; lia]. }
  assert (Hwin : window "pressure" index dataset y_pred y_true =
                 (take (Z.to_nat (depth dataset)) (drop (Z.to_nat i) y_pred),
                  take (Z.to_nat (depth dataset)) (drop (Z.to_nat i) y_true))).
  { unfold window. simpl String.eqb. cbv iota.
    destruct (py_slice_from y_pred i (depth dataset)) as (Hsp & _); [lia..|].
    destruct (py_slice_from y_true i (depth dataset)) as (Hst & _); [lia..|].
    rewrite <- Hsp, <- Hst. unfold i. by destruct index. }
  assert (Hpos : Z.to_nat (Z.min (i + depth dataset) (Z.of_nat (ds_len dataset)) - 1) =
                 (Nat.min (Z.to_nat i + Z.to_nat (depth dataset)) (ds_len dataset) - 1)%nat)
    by lia.
  assert (Hlp : last (take (Z.to_nat (depth dataset)) (drop (Z.to_nat i) y_pred)) =
                y_pred !! Z.to_nat (Z.min (i + depth dataset) (Z.of_nat (ds_len dataset)) - 1)).
  { rewrite last_take_drop by lia. by rewrite Hpos, Hp. }
  assert (Hlt : last (take (Z.to_nat (depth dataset)) (drop (Z.to_nat i) y_true)) =
                y_true !! Z.to_nat (Z.min (i + depth dataset) (Z.of_nat (ds_len dataset)) - 1)).
  { rewrite last_take_drop by lia. by rewrite Hpos, Ht. }
  destruct (lookup_lt_is_Some_2 y_pred
              (Z.to_nat (Z.min (i + depth dataset) (Z.of_nat (ds_len dataset)) - 1)))
    as (p & Hpp); [lia|].
  destruct (lookup_lt_is_Some_2 y_true
              (Z.to_nat (Z.min (i + depth dataset) (Z.of_nat (ds_len dataset)) - 1)))
    as (t & Htt); [lia|].
  exists y_true, y_pred, p, t. eexists.
  split; [done|]. split; [done|]. split; [done|].
  rewrite Hrun, Hwin. cbn [fst snd].
  unfold plot_inference_results_direct. simpl String.eqb. cbv iota.
  rewrite !py_getitem_last, Hlp, Hlt, Hpp, Htt. cbn [from_option].
  rewrite !bind_lift_inr. reflexivity.
Qed.

Lemma sample_iterative_pressure_frame_witness :
  sample_iterative exact_scalars pixel_losses 5 demo_model demo_dataset None "pressure"
    None false (Some 3) =
    (trace (rollout (Sc:=Qc) 5 demo_model demo_dataset) ++
     [EvSampled 5; EvRender (PressureFigure 7000 400 "Pressure Results" None)],
     Done tt).
Proof.
  destruct (sample_iterative_pressure_frame exact_scalars pixel_losses 5 demo_model
              demo_dataset demo_samples None None false (Some 3))
    as (y_true & y_pred & p & t & title & _).
  - reflexivity.
  - simpl. lia.
  - simpl. lia.
  - reflexivity.
  - intros x. reflexivity.
  - intros x. reflexivity.
  - simpl. lia.
  - intros k [= <-]. simpl. lia.
  - reflexivity.
Defined.

(** X6.  For [kind = "pressure"] and an index at or past the end of the
    stitched sequence the window is empty, and the call raises [IndexError]
    after the rollout and the metrics, with nothing drawn.
    The data model is assumed: targets and predictions of [D] frames, and
    frames with no axis of size one, so that [squeeze()] removes the batch
    axis alone. *)
Theorem sample_iterative_pressure_past_end {Frame Sc : Type} {shaped : Shaped Frame} (sc : Scalars Sc)
    (field : Losses Frame Sc) (fuel : nat) (model : Model Frame)
    (dataset : Dataset Frame) (samples : list (Sample Frame))
    path name compute_metrics (k : Z) :
  in_range_samples dataset = Some samples ->
  (1 <= length samples)%nat ->
  2 <= depth dataset ->
  forallb (wf_sample (depth dataset)) samples = true ->
  (forall x, Z.of_nat (length (model x)) = depth dataset) ->
  (forall x, no_unit_axis (model x) = true) ->
  (length samples <= fuel)%nat ->
  Z.of_nat (ds_len dataset) <= k ->
  exists y_true y_pred,
    result (rollout (Sc:=Sc) fuel model dataset) = Done (y_true, y_pred) /\
    sample_iterative sc field fuel model dataset path "pressure" name compute_metrics
      (Some k) =
      (trace (rollout (Sc:=Sc) fuel model dataset) ++
       EvSampled (ds_len dataset) ::
       metrics_events sc field compute_metrics name (Z.of_nat (ds_len dataset))
         y_true y_pred,
       Raised IndexError).
Proof.
  intros Hs Hn Hd Hwf Hm Hax Hf Hk.
  destruct (sample_iterative_stitched sc field fuel model dataset samples Hs Hn Hd Hwf Hm Hax Hf)
    as (y_true & y_pred & Hres & Ht & Hp & HN & Hrun).
  exists y_true, y_pred. split; [done|].
  rewrite Hrun. unfold window. simpl String.eqb. cbv iota. cbn [fst snd].
  destruct (py_slice_from y_pred k (depth dataset)) as (-> & _); [lia..|].
  rewrite drop_ge by lia. rewrite take_nil.
  unfold plot_inference_results_direct. simpl String.eqb. cbv iota.
  cbn. by rewrite app_nil_r.
Qed.

Lemma sample_iterative_pressure_past_end_witness :
  sample_iterative exact_scalars pixel_losses 5 demo_model demo_dataset None "pressure"
    None false (Some 9) =
    (trace (rollout (Sc:=Qc) 5 demo_model demo_dataset) ++ [EvSampled 5],
     Raised IndexError).
Proof.
  destruct (sample_iterative_pressure_past_end exact_scalars pixel_losses 5 demo_model
              demo_dataset demo_samples None None false 9)
    as (y_true & y_pred & _ & Hrun).
  - reflexivity.
  - simpl. lia.
  - simpl. lia.
  - reflexivity.
  - intros x. reflexivity.
  - intros x. reflexivity.
  - simpl. lia.
  - simpl. lia.
  - reflexivity.
Defined.

(** X7.  For [kind = "animation"] and a number of frames of at least one
    (the default [D] always is), the call never fails after a good rollout:
    the middle position [N // 2] is inside the sequence, so the animation has
    at least one frame; it has [min(index, N - N // 2)] of them and is
    written to [path], or to ["pressure_evolution.gif"] when no path is
    given.
    The data model is assumed: targets and predictions of [D] frames, and
    frames with no axis of size one, so that [squeeze()] removes the batch
    axis alone. *)
Theorem sample_iterative_animation_frames {Frame Sc : Type} {shaped : Shaped Frame} (sc : Scalars Sc)
    (field : Losses Frame Sc) (fuel : nat) (model : Model Frame)
    (dataset : Dataset Frame) (samples : list (Sample Frame))
    path name compute_metrics (index : option Z) :
  in_range_samples dataset = Some samples ->
  (1 <= length samples)%nat ->
  2 <= depth dataset ->
  forallb (wf_sample (depth dataset)) samples = true ->
  (forall x, Z.of_nat (length (model x)) = depth dataset) ->
  (forall x, no_unit_axis (model x) = true) ->
  (length samples <= fuel)%nat ->
  (forall k, index = Some k -> 1 <= k) ->
  exists y_true y_pred title,
    result (rollout (Sc:=Sc) fuel model dataset) = Done (y_true, y_pred) /\
    (1 <= length (take (Z.to_nat (default (depth dataset) index))
                    (drop (Z.to_nat (Z.of_nat (ds_len dataset) / 2)) y_pred)))%nat /\
    Z.of_nat (length (take (Z.to_nat (default (depth dataset) index))
                        (drop (Z.to_nat (Z.of_nat (ds_len dataset) / 2)) y_pred))) =
      Z.min (default (depth dataset) index)
            (Z.of_nat (ds_len dataset) - Z.of_nat (ds_len dataset) / 2) /\
    sample_iterative sc field fuel model dataset path "animation" name compute_metrics
      index =
      (trace (rollout (Sc:=Sc) fuel model dataset) ++
       EvSampled (ds_len dataset) ::
       metrics_events sc field compute_metrics name (Z.of_nat (ds_len dataset))
         y_true y_pred ++
       [EvPrint "Creating prediction animation...";
        EvPrint ("Saving animation to " ++ default "pressure_evolution.gif"%string path);
        EvRender (AnimationGif
                    (take (Z.to_nat (default (depth dataset) index))
                       (drop (Z.to_nat (Z.of_nat (ds_len dataset) / 2)) y_pred))
                    (take (Z.to_nat (default (depth dataset) index))
                       (drop (Z.to_nat (Z.of_nat (ds_len dataset) / 2)) y_true))
                    title (default "pressure_evolution.gif"%string path));
        EvPrint "Animation saved."],
       Done tt).
Proof.
  intros Hs Hn Hd Hwf Hm Hax Hf Hidx.
  destruct (sample_iterative_stitched sc field fuel model dataset samples Hs Hn Hd Hwf Hm Hax Hf)
    as (y_true & y_pred & Hres & Ht & Hp & HN & Hrun).
  set (n := default (depth dataset) index).
  set (mid := Z.of_nat (ds_len dataset) / 2).
  assert (Hn1 : 1 <= n).
  { unfold n. destruct index as [k|]; simpl; [by apply Hidx | lia]. }
  assert (Hmid : 0 <= mid < Z.of_nat (ds_len dataset)).
  { unfold mid. split; [apply Z.div_pos; lia | apply Z.div_lt_upper_bound; lia]. }
  assert (Hwin : window "animation" index dataset y_pred y_true =
                 (take (Z.to_nat n) (drop (Z.to_nat mid) y_pred),
                  take (Z.to_nat n) (drop (Z.to_nat mid) y_true))).
  { unfold window. simpl String.eqb. cbv iota.
    destruct (py_slice_from y_pred mid n) as (Hsp & _); [lia..|].
    destruct (py_slice_from y_true mid n) as (Hst & _); [lia..|].
    rewrite <- Hsp, <- Hst. unfold n, mid. by destruct index. }
  assert (Hlp : length (take (Z.to_nat n) (drop (Z.to_nat mid) y_pred)) =
                Z.to_nat (Z.min n (Z.of_nat (ds_len dataset) - mid))).
  { rewrite length_take, length_drop, Hp. lia. }
  assert (Hlt : length (take (Z.to_nat n) (drop (Z.to_nat mid) y_true)) =
                Z.to_nat (Z.min n (Z.of_nat (ds_len dataset) - mid))).
  { rewrite length_take, length_drop, Ht. lia. }
  exists y_true, y_pred. eexists.
  split; [done|]. split; [lia|]. split; [lia|].
  rewrite Hrun, Hwin. cbn [fst snd].
  unfold plot_inference_results_direct. simpl String.eqb. cbv iota.
  destruct (take (Z.to_nat n) (drop (Z.to_nat mid) y_pred)) as [|p ps] eqn:Hep;
    [simpl in Hlp; lia|].
  destruct (take (Z.to_nat n) (drop (Z.to_nat mid) y_true)) as [|t ts] eqn:Het;
    [simpl in Hlt; lia|].
  assert (Hsame : (length (t :: ts) <? length (p :: ps))%nat = false)
    by (apply Nat.ltb_ge; lia).
  rewrite Hsame. by destruct path.
Qed.

Lemma sample_iterative_animation_frames_witness :
  sample_iterative exact_scalars pixel_losses 5 demo_model demo_dataset (Some "out.gif")
    "animation" None false None =
    (trace (rollout (Sc:=Qc) 5 demo_model demo_dataset) ++
     [EvSampled 5;
      EvPrint "Creating prediction animation...";
      EvPrint "Saving animation to out.gif";
      EvRender (AnimationGif [4000; 5000; 7000] [200; 201; 400]
                  "Pressure Field Evolution" "out.gif");
      EvPrint "Animation saved."],
     Done tt).
Proof.
  destruct (sample_iterative_animation_frames exact_scalars pixel_losses 5 demo_model
              demo_dataset demo_samples (Some "out.gif"%string) None false None)
    as (y_true & y_pred & title & _).
  - reflexivity.
  - simpl. lia.
  - simpl. lia.
  - reflexivity.
  - intros x. reflexivity.
  - intros x. reflexivity.
  - simpl. lia.
  - intros k Hk. discriminate.
  - reflexivity.
Defined.

(** X8.  For [kind = "animation"] and [index = 0] the window is empty: the
    call raises the [ValueError] of a reduction over an empty array, after
    the rollout, the metrics and the first line of the animation branch, and
    writes no file.
    The data model is assumed: targets and predictions of [D] frames, and
    frames with no axis of size one, so that [squeeze()] removes the batch
    axis alone. *)
Theorem sample_iterative_animation_no_frame {Frame Sc : Type} {shaped : Shaped Frame} (sc : Scalars Sc)
    (field : Losses Frame Sc) (fuel : nat) (model : Model Frame)
    (dataset : Dataset Frame) (samples : list (Sample Frame))
    path name compute_metrics :
  in_range_samples dataset = Some samples ->
  (1 <= length samples)%nat ->
  2 <= depth dataset ->
  forallb (wf_sample (depth dataset)) samples = true ->
  (forall x, Z.of_nat (length (model x)) = depth dataset) ->
  (forall x, no_unit_axis (model x) = true) ->
  (length samples <= fuel)%nat ->
  exists y_true y_pred,
    result (rollout (Sc:=Sc) fuel model dataset) = Done (y_true, y_pred) /\
    sample_iterative sc field fuel model dataset path "animation" name compute_metrics
      (Some 0) =
      (trace (rollout (Sc:=Sc) fuel model dataset) ++
       EvSampled (ds_len dataset) ::
       metrics_events sc field compute_metrics name (Z.of_nat (ds_len dataset))
         y_true y_pred ++
       [EvPrint "Creating prediction animation..."],
       Raised zero_size_min).
Proof.
  intros Hs Hn Hd Hwf Hm Hax Hf.
  destruct (sample_iterative_stitched sc field fuel model dataset samples Hs Hn Hd Hwf Hm Hax Hf)
    as (y_true & y_pred & Hres & Ht & Hp & HN & Hrun).
  exists y_true, y_pred. split; [done|].
  rewrite Hrun. unfold window. simpl String.eqb. cbv iota. cbn [fst snd].
  assert (Hmid : 0 <= Z.of_nat (ds_len dataset) / 2) by (apply Z.div_pos; lia).
  destruct (py_slice_from y_pred (Z.of_nat (ds_len dataset) / 2) 0) as (-> & _); [lia..|].
  rewrite take_0. reflexivity.
Qed.

Lemma sample_iterative_animation_no_frame_witness :
  sample_iterative exact_scalars pixel_losses 5 demo_model demo_dataset None "animation"
    None false (Some 0) =
    (trace (rollout (Sc:=Qc) 5 demo_model demo_dataset) ++
     [EvSampled 5; EvPrint "Creating prediction animation..."],
     Raised zero_size_min).
Proof.
  destruct (sample_iterative_animation_no_frame exact_scalars pixel_losses 5 demo_model
              demo_dataset demo_samples None None false)
    as (y_true & y_pred & _ & Hrun).
  - reflexivity.
  - simpl. lia.
  - simpl. lia.
  - reflexivity.
  - intros x. reflexivity.
  - intros x. reflexivity.
  - simpl. lia.
  - reflexivity.
Defined.

(** ** A failing access in [evaluate_models] *)

Lemma bind_assoc {E A B C} (m : Run E A) (f : A -> Run E B) (g : B -> Run E C) :
  (m ≫= f) ≫= g = m ≫= (fun a => f a ≫= g).
Proof.
  destruct m as [t [a | e |]]; [|done..].
  unfold mbind, Run_bind, run_bind.
  destruct (f a) as [t1 [b | e1 |]]; [|done..].
  destruct (g b) as [t2 r2]. by rewrite app_assoc.
Qed.

Lemma for_each_app {E A St} (l1 l2 : list A) (body : St -> A -> Run E St) (s : St) :
  for_each (l1 ++ l2) body s = for_each l1 body s ≫= for_each l2 body.
Proof.
  revert s. induction l1 as [|a l1 IH]; intros s.
  - cbn [app for_each]. by rewrite bind_ret.
  - cbn [app for_each]. rewrite bind_assoc.
    destruct (body s a) as [t [s' | e |]]; [|done..].
    unfold mbind at 1 2, Run_bind at 1 2, run_bind at 1 2. by rewrite IH.
Qed.

Lemma samples_upto_Forall2 {Frame} (dataset : Dataset Frame) k pre :
  samples_upto dataset k = Some pre ->
  Forall2 (fun i s => getitem dataset i = inr s) (seqZ 0 (Z.of_nat k)) pre.
Proof.
  intros H. apply mapM_Some_1 in H.
  eapply Forall2_impl; [exact H|]. intros i s Hi. simpl in Hi.
  destruct (getitem dataset i); congruence.
Qed.

(** X9.  [evaluate_models] has no partial result: when the access
    [dataset[k]] fails for some [k < N] after the accesses before it
    succeeded, the call raises the error of that access.  By then every
    predictor has been called on each of the [k] samples before, and nothing
    is averaged, printed or returned. *)
Theorem evaluate_models_aborts {Frame Sc : Type} (sc : Scalars Sc)
    (batch : Losses (list Frame) Sc) (models : dict (Model Frame))
    (dataset : Dataset Frame) (k : nat) (pre : list (Sample Frame)) (e : exn)
    (print_results : bool) :
  NoDup (dict_keys models) ->
  (k < ds_len dataset)%nat ->
  samples_upto dataset k = Some pre ->
  getitem dataset (Z.of_nat k) = inl e ->
  evaluate_models sc batch models dataset print_results =
    (flat_map (fun '(i, s) =>
                 EvGet i :: map (fun '(name, _) => EvCall (Some name) (data_x s)) models)
       (zip (seqZ 0 (Z.of_nat k)) pre) ++ [EvGet (Z.of_nat k)],
     Raised e).
Proof.
  intros Hnd Hk Hpre Hget.
  unfold evaluate_models. cbv zeta.
  replace (Z.of_nat (ds_len dataset)) with (Z.of_nat k + Z.of_nat (ds_len dataset - k)) by lia.
  rewrite seqZ_app by lia. rewrite for_each_app.
  pose proof (zero_results_keys sc models) as Hkeys.
  assert (Hnd0 : NoDup (dict_keys (map (fun '(name, _) => (name, zero_record sc)) models)))
    by by rewrite Hkeys.
  rewrite (bind_step _ _ _ _
             (eval_samples_steps sc batch models dataset Hnd _ pre _
                (samples_upto_Forall2 _ _ _ Hpre) Hnd0 Hkeys)).
  assert (Hfail : forall d rest,
            for_each (Z.of_nat k :: rest) (eval_sample sc batch models dataset) d =
            ([EvGet (Z.of_nat k)], Raised e)).
  { intros d rest. cbn [for_each]. unfold eval_sample.
    by rewrite (get_inl _ _ _ _ Hget). }
  rewrite (seqZ_cons (0 + Z.of_nat k)) by lia.
  rewrite Z.add_0_l, Hfail.
  unfold trace, result. cbn [fst snd].
  unfold mbind, Run_bind, run_bind.
  f_equal. f_equal. apply flat_map_ext. by intros [i s].
Qed.

Lemma evaluate_models_aborts_witness :
  evaluate_models exact_scalars rational_losses demo_models demo_broken_dataset true =
    ([EvGet 0; EvCall (Some "identity"%string) [[[q 1; q 2]]; [[q 3; q 4]]];
      EvCall (Some "shifted"%string) [[[q 1; q 2]]; [[q 3; q 4]]];
      EvGet 1; EvCall (Some "identity"%string) [[[q 5; q 6]]; [[q 7; q 8]]];
      EvCall (Some "shifted"%string) [[[q 5; q 6]]; [[q 7; q 8]]];
      EvGet 2],
     Raised RuntimeError).
Proof.
  rewrite (evaluate_models_aborts exact_scalars rational_losses demo_models
             demo_broken_dataset 2 demo_qsamples RuntimeError true).
  - reflexivity.
  - by apply (bool_decide_unpack _).
  - simpl. lia.
  - reflexivity.
  - reflexivity.
Defined.

(** ** plot_inference_results *)

(** X10.  With no index [plot_inference_results] plots the middle sample,
    [dataset[N // 2]], which exists in every source of [N >= 1] samples: the
    sample is fetched, the predictor is called once on its input, and the
    prediction and the sample's target go to
    [plot_inference_results_direct]. *)
Theorem plot_inference_results_middle {Frame Sc : Type} (model : Model Frame)
    (dataset : Dataset Frame) (samples : list (Sample Frame)) path kind name :
  in_range_samples dataset = Some samples ->
  (1 <= length samples)%nat ->
  exists s,
    samples !! (length samples / 2)%nat = Some s /\
    plot_inference_results (Sc:=Sc) model dataset None path kind name =
      (EvGet (Z.of_nat (ds_len dataset) / 2) :: EvCall None (data_x s) ::
         trace (plot_inference_results_direct (Sc:=Sc) (model (data_x s)) (data_y s)
                  path kind name),
       result (plot_inference_results_direct (Sc:=Sc) (model (data_x s)) (data_y s)
                 path kind name)).
Proof.
  intros Hs Hn. pose proof (in_range_samples_length _ _ Hs) as Hlen.
  destruct (lookup_lt_is_Some_2 samples (length samples / 2)%nat) as (s & Hmid).
  { apply Nat.div_lt; lia. }
  exists s. split; [done|].
  unfold plot_inference_results.
  assert (Hget : getitem dataset (Z.of_nat (ds_len dataset) / 2) = inr s).
  { rewrite <- Hlen. change 2 with (Z.of_nat 2). rewrite <- Nat2Z.inj_div.
    by apply (in_range_samples_lookup _ _ _ _ Hs). }
  rewrite (get_inr _ _ _ _ Hget), call_bind. done.
Qed.

Lemma plot_inference_results_middle_witness :
  plot_inference_results (Sc:=Qc) demo_model demo_dataset None None "pressure" None =
    ([EvGet 2; EvCall None [20; 21; 22];
      EvRender (PressureFigure 3020 202 "Pressure Results" None)], Done tt).
Proof.
  destruct (plot_inference_results_middle (Sc:=Qc) demo_model demo_dataset demo_samples
              None "pressure" None)
    as (s & _ & Hrun).
  - reflexivity.
  - simpl. lia.
  - reflexivity.
Defined.

(** X11.  For [kind = "pressure"], [plot_inference_results] draws the last
    time step: the last frame of the prediction beside the last frame of the
    target of the chosen sample.  It needs the access to the sample to
    succeed and both tensors to have a frame. *)
Theorem plot_inference_results_last_step {Frame Sc : Type} (model : Model Frame)
    (dataset : Dataset Frame) (index : option Z) (s : Sample Frame) (p t : Frame)
    path name :
  getitem dataset (default (Z.of_nat (ds_len dataset) / 2) index) = inr s ->
  last (model (data_x s)) = Some p ->
  last (data_y s) = Some t ->
  exists title,
    plot_inference_results (Sc:=Sc) model dataset index path "pressure" name =
      ([EvGet (default (Z.of_nat (ds_len dataset) / 2) index);
        EvCall None (data_x s);
        EvRender (PressureFigure p t title path)], Done tt).
Proof.
  intros Hget Hp Ht. eexists. unfold plot_inference_results.
  assert (Hidx : match index with
                 | Some k => k
                 | None => Z.of_nat (ds_len dataset) / 2
                 end = default (Z.of_nat (ds_len dataset) / 2) index)
    by by destruct index.
  rewrite Hidx, (get_inr _ _ _ _ Hget), call_bind.
  unfold plot_inference_results_direct. simpl String.eqb. cbv iota.
  rewrite !py_getitem_last, Hp, Ht. cbn [from_option].
  rewrite !bind_lift_inr. reflexivity.
Qed.

Lemma plot_inference_results_last_step_witness :
  plot_inference_results (Sc:=Qc) demo_model demo_dataset (Some (-1)) (Some "p.png")
    "pressure" (Some "fno") =
    ([EvGet (-1); EvCall None [40; 41; 42];
      EvRender (PressureFigure 3040 402 "Pressure Results (fno)" (Some "p.png"))],
     Done tt).
Proof.
  destruct (plot_inference_results_last_step (Sc:=Qc) demo_model demo_dataset (Some (-1))
              (demo_sample 4) 3040 402 (Some "p.png"%string) (Some "fno"%string))
    as (title & Hrun).
  - reflexivity.
  - reflexivity.
  - reflexivity.
  - reflexivity.
Defined.

(** X12.  [plot_inference_results] checks [kind] last: with a [kind] that is
    none of the three, the sample is still fetched and the predictor still
    called on it, and only then is the call rejected with the "Unknown kind"
    [ValueError], with nothing drawn. *)
Theorem plot_inference_results_unknown_kind {Frame Sc : Type} (model : Model Frame)
    (dataset : Dataset Frame) (index : option Z) (s : Sample Frame)
    path (kind : string) name :
  getitem dataset (default (Z.of_nat (ds_len dataset) / 2) index) = inr s ->
  kind <> "pressure"%string -> kind <> "animation"%string -> kind <> "error"%string ->
  plot_inference_results (Sc:=Sc) model dataset index path kind name =
    ([EvGet (default (Z.of_nat (ds_len dataset) / 2) index); EvCall None (data_x s)],
     Raised (unknown_kind kind)).
Proof.
  intros Hget H1 H2 H3. unfold plot_inference_results.
  assert (Hidx : match index with
                 | Some k => k
                 | None => Z.of_nat (ds_len dataset) / 2
                 end = default (Z.of_nat (ds_len dataset) / 2) index)
    by by destruct index.
  rewrite Hidx, (get_inr _ _ _ _ Hget), call_bind.
  unfold plot_inference_results_direct.
  apply String.eqb_neq in H1, H2, H3. by rewrite H1, H2, H3.
Qed.

Lemma plot_inference_results_unknown_kind_witness :
  plot_inference_results (Sc:=Qc) demo_model demo_dataset (Some 1) None "movie" None =
    ([EvGet 1; EvCall None [10; 11; 12]], Raised (unknown_kind "movie")).
Proof.
  apply (plot_inference_results_unknown_kind (Sc:=Qc) demo_model demo_dataset (Some 1)
           (demo_sample 1) None "movie" None).
  - reflexivity.
  - discriminate.
  - discriminate.
  - discriminate.
Defined.

(** ** More on the rollout *)

(** X13.  A source no longer than one stride ([N <= D - 1]) gives a rollout
    of a single window: only [dataset[0]] is read, the predictor is called
    once, on the unchanged input of that sample, and the stitched sequences
    are the first [N] frames of that sample's target and of that one
    prediction.
    The data model is assumed: targets and predictions of [D] frames, and
    frames with no axis of size one, so that [squeeze()] removes the batch
    axis alone. *)
Theorem rollout_single_window {Frame Sc : Type} {shaped : Shaped Frame} (fuel : nat) (model : Model Frame)
    (dataset : Dataset Frame) (samples : list (Sample Frame)) :
  in_range_samples dataset = Some samples ->
  (1 <= length samples)%nat ->
  2 <= depth dataset ->
  forallb (wf_sample (depth dataset)) samples = true ->
  (forall x, Z.of_nat (length (model x)) = depth dataset) ->
  (forall x, no_unit_axis (model x) = true) ->
  (length samples <= fuel)%nat ->
  Z.of_nat (ds_len dataset) <= depth dataset - 1 ->
  exists s0,
    getitem dataset 0 = inr s0 /\
    rollout (Sc:=Sc) fuel model dataset =
      ([EvGet 0; EvGet 0; EvCall None (data_x s0)],
       Done (take (ds_len dataset) (data_y s0),
             take (ds_len dataset) (model (data_x s0)))).
Proof.
  intros Hs Hn Hd Hwf Hm Hax Hf Hshort.
  pose proof (in_range_samples_length _ _ Hs) as Hlen.
  destruct (rollout_run (Sc:=Sc) fuel model dataset samples Hs Hn Hd Hwf Hm Hax Hf)
    as (stride & s0 & c0 & Hdepth & Hstride & Hs0 & Hc0 & Hy & Hm' & Hrun).
  exists s0. split; [apply (in_range_samples_lookup _ _ 0 _ Hs Hs0)|].
  assert (Hx0 : c0 :: tail (data_x s0) = data_x s0).
  { destruct (data_x s0); [done|]. simpl in *. congruence. }
  assert (Hws : windows model samples stride fuel 0 c0 =
                [mkWindow 0 (data_x s0) (model (data_x s0)) (data_y s0)]).
  { destruct fuel as [|fuel']; [lia|]. simpl. rewrite Hs0, Hx0. f_equal.
    destruct fuel' as [|fuel'']; [done|]. simpl.
    by rewrite lookup_ge_None_2 by lia. }
  rewrite Hrun, Hws. simpl flat_map. simpl fmap. unfold window_events. simpl.
  unfold emitted_true, emitted_pred. simpl.
  rewrite !py_slice_drop_last, !app_nil_r, !take_take.
  rewrite Forall_lookup in Hy. rewrite (Hy _ _ Hs0), Hm', <- Hlen.
  do 3 f_equal; f_equal; lia.
Qed.

Lemma rollout_single_window_witness :
  rollout (Sc:=Qc) 2 demo_model (list_dataset 3 (take 2 demo_samples)) =
    ([EvGet 0; EvGet 0; EvCall None [0; 1; 2]], Done ([0; 1], [1000; 2000])).
Proof.
  destruct (rollout_single_window (Sc:=Qc) 2 demo_model
              (list_dataset 3 (take 2 demo_samples)) (take 2 demo_samples))
    as (s0 & _ & Hrun).
  - reflexivity.
  - simpl. lia.
  - simpl. lia.
  - reflexivity.
  - intros x. reflexivity.
  - intros x. reflexivity.
  - simpl. lia.
  - simpl. lia.
  - reflexivity.
Defined.

Lemma ceil_div_excess (m s : nat) :
  (1 <= s)%nat ->
  Z.of_nat ((m + s - 1) / s * s) - Z.of_nat m = (- Z.of_nat m) mod Z.of_nat s.
Proof.
  intros Hs.
  pose proof (Nat.div_mod (m + s - 1) s ltac:(lia)) as Hdm.
  pose proof (Nat.mod_upper_bound (m + s - 1) s ltac:(lia)) as Hlt.
  apply (Z.mod_unique_pos _ _ (- Z.of_nat ((m + s - 1) / s))); nia.
Qed.

(** X14.  The windows of the rollout are, for each index read, the target
    of that sample and the prediction of that call, each less its last
    frame.  The truncation to [N] entries drops [(-N) mod (D-1)] frames from
    the end of their concatenation.  That is fewer than the [D-1] frames of
    one window, so only the last window ever loses frames, and none is
    dropped when [D-1] divides [N].
    The data model is assumed: targets and predictions of [D] frames, and
    frames with no axis of size one, so that [squeeze()] removes the batch
    axis alone. *)
Theorem rollout_truncation {Frame Sc : Type} {shaped : Shaped Frame} (fuel : nat) (model : Model Frame)
    (dataset : Dataset Frame) (samples : list (Sample Frame)) :
  in_range_samples dataset = Some samples ->
  (1 <= length samples)%nat ->
  2 <= depth dataset ->
  forallb (wf_sample (depth dataset)) samples = true ->
  (forall x, Z.of_nat (length (model x)) = depth dataset) ->
  (forall x, no_unit_axis (model x) = true) ->
  (length samples <= fuel)%nat ->
  exists y_true y_pred targets wt wp,
    result (rollout (Sc:=Sc) fuel model dataset) = Done (y_true, y_pred) /\
    Forall2 (fun i t => exists s, getitem dataset i = inr s /\ t = data_y s)
      (window_starts (Z.of_nat (ds_len dataset)) (depth dataset)) targets /\
    wt = (fun t => py_slice t 0 (-1)) <$> targets /\
    wp = (fun t => py_slice t 0 (-1)) <$>
           (model <$> calls (trace (rollout (Sc:=Sc) fuel model dataset))) /\
    y_true = take (ds_len dataset) (concat wt) /\
    y_pred = take (ds_len dataset) (concat wp) /\
    Forall (fun w => Z.of_nat (length w) = depth dataset - 1) wt /\
    Forall (fun w => Z.of_nat (length w) = depth dataset - 1) wp /\
    Z.of_nat (length (concat wt)) - Z.of_nat (ds_len dataset) =
      (- Z.of_nat (ds_len dataset)) mod (depth dataset - 1) /\
    Z.of_nat (length (concat wp)) - Z.of_nat (ds_len dataset) =
      (- Z.of_nat (ds_len dataset)) mod (depth dataset - 1) /\
    (- Z.of_nat (ds_len dataset)) mod (depth dataset - 1) < depth dataset - 1 /\
    (Z.of_nat (ds_len dataset) mod (depth dataset - 1) = 0 ->
     y_true = concat wt /\ y_pred = concat wp).
Proof.
  intros Hs Hn Hd Hwf Hm Hax Hf.
  pose proof (in_range_samples_length _ _ Hs) as Hlen.
  destruct (rollout_run (Sc:=Sc) fuel model dataset samples Hs Hn Hd Hwf Hm Hax Hf)
    as (stride & s0 & c0 & Hdepth & Hstride & Hs0 & Hc0 & Hy & Hm' & Hrun).
  set (ws := windows model samples stride fuel 0 c0) in *.
  assert (Hwt : Forall (fun w => length w = stride) (emitted_true <$> ws))
    by apply (emitted_true_length model samples stride Hy).
  assert (Hwp : Forall (fun w => length w = stride) (emitted_pred <$> ws))
    by apply (emitted_pred_length model samples stride Hm').
  assert (Hws : length ws = ((length samples + stride - 1) / stride)%nat).
  { unfold ws. rewrite windows_length by nia. by rewrite Nat.sub_0_r. }
  assert (Hct : length (concat (emitted_true <$> ws)) =
                ((length samples + stride - 1) / stride * stride)%nat).
  { by rewrite (length_concat_uniform _ stride), length_fmap, Hws. }
  assert (Hcp : length (concat (emitted_pred <$> ws)) =
                ((length samples + stride - 1) / stride * stride)%nat).
  { by rewrite (length_concat_uniform _ stride), length_fmap, Hws. }
  pose proof (ceil_div_excess (length samples) stride Hstride) as Hex.
  assert (Hst : depth dataset - 1 = Z.of_nat stride) by lia.
  assert (Hstarts : (fun w => Z.of_nat (w_start w)) <$> ws =
                    window_starts (Z.of_nat (ds_len dataset)) (depth dataset)).
  { rewrite Hdepth, <- Hlen. apply windows_starts; [done | nia]. }
  assert (Hcalls : calls (trace (rollout (Sc:=Sc) fuel model dataset)) = w_input <$> ws).
  { rewrite Hrun. unfold trace. simpl fst.
    change (calls (EvGet 0 :: flat_map (window_events (Sc:=Sc)) ws))
      with (calls (flat_map (window_events (Sc:=Sc)) ws)).
    apply calls_window_events. }
  assert (Hep : (fun t => py_slice t 0 (-1)) <$> (model <$> (w_input <$> ws)) =
                emitted_pred <$> ws).
  { rewrite <- !list_fmap_compose. apply list_eq. intros k. rewrite !list_lookup_fmap.
    destruct (ws !! k) as [w|] eqn:Hw; [|done]. simpl. f_equal. unfold emitted_pred.
    apply windows_lookup in Hw as (_ & -> & _). done. }
  exists (take (length samples) (concat (emitted_true <$> ws))),
         (take (length samples) (concat (emitted_pred <$> ws))),
         (w_target <$> ws), (emitted_true <$> ws), (emitted_pred <$> ws).
  split; [by rewrite Hrun|].
  split.
  { rewrite <- Hstarts. apply Forall2_fmap, Forall2_lookup. intros k.
    destruct (ws !! k) as [w|] eqn:Hw; constructor.
    apply windows_lookup in Hw as (_ & _ & s & Hsw & Ht & _).
    exists s. split; [by apply (in_range_samples_lookup _ _ _ _ Hs) | done]. }
  split; [by rewrite <- list_fmap_compose|].
  split; [by rewrite Hcalls|].
  rewrite <- Hlen, Hst, Hct, Hcp.
  split; [done|]. split; [done|].
  split; [eapply Forall_impl; [exact Hwt|]; simpl; intros; lia|].
  split; [eapply Forall_impl; [exact Hwp|]; simpl; intros; lia|].
  split; [done|]. split; [done|].
  split; [apply Z.mod_pos_bound; lia|].
  intros Hdiv.
  assert (Hzero : (- Z.of_nat (length samples)) mod Z.of_nat stride = 0).
  { apply Z.mod_opp_l_z; [lia | done]. }
  rewrite Hzero in Hex.
  split; apply take_ge; lia.
Qed.

Lemma rollout_truncation_witness :
  result (rollout (Sc:=Qc) 5 demo_model demo_dataset) =
    Done (take 5 [0; 1; 200; 201; 400; 401],
          take 5 [1000; 2000; 4000; 5000; 7000; 8000]) /\
  (- 5) mod (3 - 1) = 1.
Proof.
  destruct (rollout_truncation (Sc:=Qc) 5 demo_model demo_dataset demo_samples)
    as (y_true & y_pred & targets & wt & wp & Hres & _).
  - reflexivity.
  - simpl. lia.
  - simpl. lia.
  - reflexivity.
  - intros x. reflexivity.
  - intros x. reflexivity.
  - simpl. lia.
  - split; reflexivity.
Defined.

Lemma torch_stack_ragged {A} (ws : list (list A)) (w0 w : list A) (k : nat) :
  ws !! 0%nat = Some w0 -> ws !! k = Some w -> length w <> length w0 ->
  torch_stack ws = inl RuntimeError.
Proof.
  intros H0 Hk Hne. destruct ws as [|w0' rest]; [done|].
  injection H0 as ->. simpl.
  destruct k as [|k]; [by injection Hk as -> |]. simpl in Hk.
  destruct (forallb _ rest) eqn:Hall; [|done].
  rewrite forallb_forall in Hall.
  apply list_elem_of_lookup_2, list_elem_of_In, Hall, Nat.eqb_eq in Hk. done.
Qed.

Lemma py_slice_drop_last_length {A} (l : list A) :
  length (py_slice l 0 (-1)) = (length l - 1)%nat.
Proof. rewrite py_slice_drop_last, length_take. lia. Qed.

(** X15.  Targets of unequal length cannot be stitched: when the target of
    the sample of some window has, less its last frame, another number of
    frames than the target of the first sample, [sample_iterative] raises
    [RuntimeError] at [torch.stack].  It does so after the predictor was
    called for every window, and before anything is printed or drawn.
    The data model is otherwise assumed: predictions of [D] frames, with no
    axis of size one. *)
Theorem sample_iterative_ragged_targets {Frame Sc : Type} {shaped : Shaped Frame} (sc : Scalars Sc)
    (field : Losses Frame Sc) (fuel : nat) (model : Model Frame)
    (dataset : Dataset Frame) (samples : list (Sample Frame))
    (j : nat) (s0 s : Sample Frame) path kind name compute_metrics index :
  in_range_samples dataset = Some samples ->
  2 <= depth dataset ->
  forallb has_input samples = true ->
  (forall x, Z.of_nat (length (model x)) = depth dataset) ->
  (forall x, no_unit_axis (model x) = true) ->
  (length samples <= fuel)%nat ->
  getitem dataset 0 = inr s0 ->
  Z.of_nat j * (depth dataset - 1) < Z.of_nat (ds_len dataset) ->
  getitem dataset (Z.of_nat j * (depth dataset - 1)) = inr s ->
  (length (data_y s) - 1)%nat <> (length (data_y s0) - 1)%nat ->
  result (sample_iterative sc field fuel model dataset path kind name compute_metrics
            index) = Raised RuntimeError /\
  gets (trace (sample_iterative sc field fuel model dataset path kind name
                 compute_metrics index)) =
    0 :: window_starts (Z.of_nat (ds_len dataset)) (depth dataset) /\
  length (calls (trace (sample_iterative sc field fuel model dataset path kind name
                          compute_metrics index))) =
    length (window_starts (Z.of_nat (ds_len dataset)) (depth dataset)).
Proof.
  intros Hs Hd Hin Hm Hax Hf Hget0 Hj Hgetj Hne.
  pose proof (in_range_samples_length _ _ Hs) as Hlen.
  set (stride := Z.to_nat (depth dataset - 1)).
  assert (Hdepth : depth dataset = Z.of_nat (S stride)) by (unfold stride; lia).
  assert (Hstride : (1 <= stride)%nat) by (unfold stride; lia).
  assert (Hx : Forall (fun s => data_x s <> []) samples).
  { rewrite forallb_forall in Hin. apply Forall_forall. intros s' Hs'.
    apply list_elem_of_In, Hin in Hs'. unfold has_input in Hs'. by destruct (data_x s'). }
  assert (Hm' : forall x, length (model x) = S stride).
  { intros x. specialize (Hm x). lia. }
  assert (Hn : (1 <= length samples)%nat) by lia.
  destruct (lookup_lt_is_Some_2 samples 0%nat) as (s0' & Hs0); [lia|].
  pose proof (in_range_samples_lookup _ _ 0 _ Hs Hs0) as Hget0'.
  change (Z.of_nat 0) with 0 in Hget0'. rewrite Hget0 in Hget0'. injection Hget0' as <-.
  destruct (data_x s0) as [|c0 rest0] eqn:Hx0.
  { rewrite Forall_lookup in Hx. by specialize (Hx _ _ Hs0). }
  set (ws := windows model samples stride fuel 0 c0).
  assert (Hloop : rollout_loop (Sc:=Sc) fuel model dataset 0 c0 [] [] =
                  (flat_map window_events ws,
                   Done (map emitted_true ws, map emitted_pred ws))).
  { apply (rollout_loop_windows (Sc:=Sc) model dataset samples stride Hs Hdepth Hx Hm'
             Hstride Hax fuel 0%nat c0 [] []). nia. }
  assert (Hws : length ws = ((length samples + stride - 1) / stride)%nat).
  { unfold ws. rewrite windows_length by nia. by rewrite Nat.sub_0_r. }
  pose proof (ceil_div_covers (length samples) stride Hstride) as Hcover.
  destruct (lookup_lt_is_Some_2 ws 0%nat) as (w0 & Hw0); [nia|].
  destruct (lookup_lt_is_Some_2 ws j) as (wj & Hwj); [nia|].
  destruct (windows_lookup _ _ _ _ _ _ _ _ Hw0) as (Hst0 & _ & s0' & Hs0' & Ht0 & _).
  destruct (windows_lookup _ _ _ _ _ _ _ _ Hwj) as (Hstj & _ & sj & Hsj & Htj & _).
  rewrite Hst0 in Hs0'. simpl in Hs0'. rewrite Hs0 in Hs0'. injection Hs0' as <-.
  pose proof (in_range_samples_lookup _ _ _ _ Hs Hsj) as Hgetj'.
  replace (Z.of_nat (w_start wj)) with (Z.of_nat j * (depth dataset - 1)) in Hgetj' by lia.
  rewrite Hgetj in Hgetj'. injection Hgetj' as <-.
  assert (Hstack : torch_stack (map emitted_true ws) = inl RuntimeError).
  { apply (torch_stack_ragged _ (emitted_true w0) (emitted_true wj) j).
    - by rewrite list_lookup_fmap, Hw0.
    - by rewrite list_lookup_fmap, Hwj.
    - unfold emitted_true. by rewrite !py_slice_drop_last_length, Ht0, Htj. }
  assert (Hroll : rollout (Sc:=Sc) fuel model dataset =
                  (EvGet 0 :: flat_map window_events ws, Raised RuntimeError)).
  { unfold rollout. rewrite (get_inr _ _ _ _ Hget0), Hx0.
    change (py_getitem (c0 :: rest0) 0) with (inr (A:=exn) c0).
    rewrite bind_lift_inr, (bind_step _ _ _ _ Hloop). cbv beta iota zeta.
    rewrite Hstack. unfold trace, result. cbn. by rewrite app_nil_r. }
  rewrite (sample_iterative_rollout_raised sc field _ _ _ path kind name compute_metrics
             index _ _ Hroll).
  unfold trace, result. cbn [fst snd].
  split; [done|].
  change (gets (EvGet 0 :: flat_map (window_events (Sc:=Sc)) ws))
    with (0 :: gets (flat_map (window_events (Sc:=Sc)) ws)).
  change (calls (EvGet 0 :: flat_map (window_events (Sc:=Sc)) ws))
    with (calls (flat_map (window_events (Sc:=Sc)) ws)).
  rewrite gets_window_events, calls_window_events, length_fmap.
  assert (Hstarts : (fun w => Z.of_nat (w_start w)) <$> ws =
                    window_starts (Z.of_nat (ds_len dataset)) (depth dataset)).
  { rewrite Hdepth, <- Hlen. apply windows_starts; [done | nia]. }
  split; [by rewrite Hstarts|].
  by rewrite <- Hstarts, length_fmap.
Qed.

Lemma sample_iterative_ragged_targets_witness :
  sample_iterative exact_scalars pixel_losses 5 demo_model
    (list_dataset 3 demo_ragged_samples) None "pressure" None true None =
    ([EvGet 0; EvGet 0; EvCall None [0; 1; 2]; EvGet 2; EvCall None [3000; 21; 22];
      EvGet 4; EvCall None [6000; 41; 42]],
     Raised RuntimeError).
Proof.
  destruct (sample_iterative_ragged_targets exact_scalars pixel_losses 5 demo_model
              (list_dataset 3 demo_ragged_samples) demo_ragged_samples 1
              (demo_sample 0) (mkSample [20; 21; 22] [200; 201])
              None "pressure" None true None)
    as (Hres & _).
  - reflexivity.
  - simpl. lia.
  - reflexivity.
  - intros x. reflexivity.
  - intros x. reflexivity.
  - simpl. lia.
  - reflexivity.
  - simpl. lia.
  - reflexivity.
  - simpl. lia.
  - reflexivity.
Defined.


(** ** The initial conditions *)

Lemma Forall_zip_with_both {A B C} (P : A -> Prop) (Q : B -> Prop) (R : C -> Prop)
    (f : A -> B -> C) (l : list A) (k : list B) :
  (forall a b, P a -> Q b -> R (f a b)) ->
  Forall P l -> Forall Q k -> Forall R (zip_with f l k).
Proof.
  intros Hf Hl. revert k. induction Hl as [|a l Ha Hl IH]; intros k Hk; [constructor|].
  destruct Hk as [|b k Hb Hk]; [constructor|]. simpl. constructor; [by apply Hf | by apply IH].
Qed.

Lemma Forall_zip_with_any {A B C} (R : C -> Prop) (f : A -> B -> C)
    (l : list A) (k : list B) :
  (forall a b, R (f a b)) -> Forall R (zip_with f l k).
Proof.
  intros Hf. revert k. induction l as [|a l IH]; intros k; [constructor|].
  destruct k as [|b k]; [constructor|]. simpl. by constructor.
Qed.

Lemma Forall_concat_inv {A} (P : A -> Prop) (ls : list (list A)) :
  Forall P (concat ls) -> Forall (Forall P) ls.
Proof.
  induction ls as [|l ls IH]; [constructor|]. simpl.
  intros H. apply Forall_app in H as [Hl Hls]. constructor; [done | by apply IH].
Qed.

Lemma pair_up_odd {S} (v : list (list (list S))) :
  Nat.odd (length v) = true -> pair_up v = inl RuntimeError.
Proof.
  induction v as [v IH] using (induction_ltof1 _ length). unfold ltof in IH.
  destruct v as [|vx [|vy rest]]; [done | done |].
  intros Hodd. cbn [pair_up]. rewrite IH; [done | simpl; lia |].
  by rewrite <- Hodd.
Qed.

Lemma pair_up_elem {S} (v : list (list (list S))) pairs p :
  pair_up v = inr pairs -> p ∈ pairs -> p.1 ∈ v /\ p.2 ∈ v.
Proof.
  revert pairs. induction v as [v IH] using (induction_ltof1 _ length). unfold ltof in IH.
  destruct v as [|vx [|vy rest]]; intros pairs Hp Hin.
  - injection Hp as <-. by apply elem_of_nil in Hin.
  - done.
  - cbn [pair_up] in Hp. destruct (pair_up rest) as [e | pairs'] eqn:Hrest; [done|].
    injection Hp as <-. apply elem_of_cons in Hin as [-> | Hin].
    + split; simpl; [apply elem_of_cons; by left |].
      apply elem_of_cons; right. apply elem_of_cons; by left.
    + destruct (IH rest ltac:(simpl; lia) pairs' Hrest Hin) as [H1 H2].
      split; do 2 (apply elem_of_cons; right); done.
Qed.

Section ExactRange.

Local Open Scope Qc_scope.

Lemma foldl_min_le (rest : list Qc) (a : Qc) :
  foldl (e_min rational_ops) a rest <= a /\
  Forall (fun x => foldl (e_min rational_ops) a rest <= x) rest.
Proof.
  revert a. induction rest as [|b rest IH]; intros a.
  - split; [apply Qcle_refl | constructor].
  - cbn [foldl]. destruct (IH (e_min rational_ops a b)) as [H1 H2].
    assert (Hm : e_min rational_ops a b <= a /\ e_min rational_ops a b <= b).
    { simpl. destruct (Qclt_le_dec b a) as [Hlt | Hle].
      - split; [by apply Qclt_le_weak | apply Qcle_refl].
      - split; [apply Qcle_refl | done]. }
    destruct Hm as [Ha Hb].
    split; [by eapply Qcle_trans|].
    constructor; [by eapply Qcle_trans | done].
Qed.

Lemma foldl_max_ge (rest : list Qc) (a : Qc) :
  a <= foldl (e_max rational_ops) a rest /\
  Forall (fun x => x <= foldl (e_max rational_ops) a rest) rest.
Proof.
  revert a. induction rest as [|b rest IH]; intros a.
  - split; [apply Qcle_refl | constructor].
  - cbn [foldl]. destruct (IH (e_max rational_ops a b)) as [H1 H2].
    assert (Hm : a <= e_max rational_ops a b /\ b <= e_max rational_ops a b).
    { simpl. destruct (Qclt_le_dec a b) as [Hlt | Hle].
      - split; [by apply Qclt_le_weak | apply Qcle_refl].
      - split; [apply Qcle_refl | done]. }
    destruct Hm as [Ha Hb].
    split; [by eapply Qcle_trans|].
    constructor; [by eapply Qcle_trans | done].
Qed.

Lemma reduce_min_le (l : list Qc) lo :
  reduce (e_min rational_ops) l = inr lo -> Forall (fun x => lo <= x) l.
Proof.
  destruct l as [|a rest]; [done|]. intros [= <-].
  destruct (foldl_min_le rest a). by constructor.
Qed.

Lemma reduce_max_ge (l : list Qc) hi :
  reduce (e_max rational_ops) l = inr hi -> Forall (fun x => x <= hi) l.
Proof.
  destruct l as [|a rest]; [done|]. intros [= <-].
  destruct (foldl_max_ge rest a). by constructor.
Qed.

Lemma normalised_in_unit (lo hi x : Qc) :
  lo < hi -> lo <= x -> x <= hi -> 0 <= (x - lo) / (hi - lo) /\ (x - lo) / (hi - lo) <= 1.
Proof.
  intros Hlh Hlo Hhi.
  assert (Hd : 0 < hi - lo).
  { apply Qclt_minus_iff in Hlh. by rewrite <- Qcminus' in Hlh || exact Hlh. }
  assert (Hinv : 0 < / (hi - lo)) by by apply Qcinv_pos.
  assert (Hn : 0 <= x - lo).
  { apply Qcle_minus_iff in Hlo. exact Hlo. }
  unfold Qcdiv. split.
  - apply Qcmult_nonneg_nonneg; [done | by apply Qclt_le_weak].
  - rewrite <- (Qcmult_inv_r (hi - lo)).
    + apply Qcmult_le_compat_r; [|by apply Qclt_le_weak].
      unfold Qcminus. apply Qcplus_le_compat; [done | apply Qcle_refl].
    + intros Hz. rewrite Hz in Hd. apply Qclt_not_le in Hd. apply Hd, Qcle_refl.
Qed.

End ExactRange.

Lemma py_getitem_head {A} (a : A) (l : list A) : py_getitem (a :: l) 0 = inr a.
Proof.
  unfold py_getitem. change (0 <? 0) with false. cbv beta iota zeta.
  replace ((0 <=? 0) && (0 <? Z.of_nat (length (a :: l)))) with true; [done|].
  symmetry. apply andb_true_iff. split; [done|]. apply Z.ltb_lt. simpl. lia.
Qed.

Lemma py_getitem_first {A} (l : list A) (a : A) :
  l !! 0%nat = Some a -> py_getitem l 0 = inr a.
Proof. destruct l as [|b l]; [done|]. intros [= ->]. apply py_getitem_head. Qed.

Lemma reduce_some {S} (f : S -> S -> S) (l : list S) :
  l <> [] -> exists a rest, l = a :: rest /\ reduce f l = inr (foldl f a rest).
Proof. destruct l as [|a rest]; [done|]. by eexists _, _. Qed.

(** Every pixel built by [to_pixels] has the two velocity components and the
    added zero. *)
Lemma to_pixels_shape {S} (ops : FieldOps S) p :
  Forall (Forall (fun px => exists vx vy, px = [vx; vy; e_zero ops])) (to_pixels ops p).
Proof.
  unfold to_pixels. apply Forall_zip_with_any. intros a b.
  apply Forall_zip_with_any. intros vx vy. by eexists _, _.
Qed.

Lemma Forall_map_map_map {A B} (f : A -> B) (P : B -> Prop)
    (img : list (list (list A))) :
  Forall (Forall (Forall (fun a => P (f a)))) img ->
  Forall (Forall (Forall P)) (map (map (map f)) img).
Proof.
  intros H. apply Forall_fmap. eapply Forall_impl; [exact H|]. intros row Hrow. simpl.
  apply Forall_fmap. eapply Forall_impl; [exact Hrow|]. intros px Hpx. simpl.
  by apply Forall_fmap.
Qed.

Lemma plot_initial_conditions_run {S} (ops : FieldOps S) dataset index path
    data pair pairs lo hi p0 a0 :
  let i := match index with None => Z.of_nat (fd_len dataset) / 2 | Some k => k end in
  fd_getitem dataset i = inr data ->
  pair_up (fs_v data) = inr (pair :: pairs) ->
  reduce (e_min ops) (pixel_entries (map (to_pixels ops) (pair :: pairs))) = inr lo ->
  reduce (e_max ops) (pixel_entries (map (to_pixels ops) (pair :: pairs))) = inr hi ->
  fs_y data !! 0%nat = Some p0 ->
  fs_a data !! 0%nat = Some a0 ->
  plot_initial_conditions ops dataset index path =
    ([InitGet i;
      InitRender p0
        (map (map (map (fun a => e_div ops (e_sub ops a lo) (e_sub ops hi lo))))
           (to_pixels ops pair)) a0 path], Done tt).
Proof.
  intros i Hget Hpairs Hlo Hhi Hp Ha. unfold plot_initial_conditions. fold i.
  rewrite bind_emit, Hget, bind_lift_inr. cbv zeta.
  rewrite Hpairs, bind_lift_inr, Hlo, bind_lift_inr, Hhi, bind_lift_inr.
  rewrite (py_getitem_first _ _ Hp), bind_lift_inr.
  unfold normalise. cbn [map]. rewrite py_getitem_head, bind_lift_inr.
  rewrite (py_getitem_first _ _ Ha), bind_lift_inr. reflexivity.
Qed.

(** X16.  [plot_initial_conditions] pairs the velocity channels two by two
    ([v.reshape(-1, 2, H, W)]).  When the sample has an odd number of
    velocity channels the reshape fails: the call raises [RuntimeError] right
    after the sample was fetched, and nothing is drawn. *)
Theorem plot_initial_conditions_odd_channels {S} (ops : FieldOps S) dataset index path data :
  let i := match index with None => Z.of_nat (fd_len dataset) / 2 | Some k => k end in
  fd_getitem dataset i = inr data ->
  Nat.odd (length (fs_v data)) = true ->
  plot_initial_conditions ops dataset index path = ([InitGet i], Raised RuntimeError).
Proof.
  intros i Hget Hodd. unfold plot_initial_conditions. fold i.
  rewrite bind_emit, Hget, bind_lift_inr. cbv zeta.
  by rewrite (pair_up_odd _ Hodd).
Qed.

Lemma elem_of_concat {A} (x : A) (ls : list (list A)) :
  x ∈ concat ls <-> exists l, l ∈ ls /\ x ∈ l.
Proof.
  rewrite list_elem_of_In, in_concat. split; intros (l & H1 & H2); exists l.
  - by rewrite !list_elem_of_In.
  - by rewrite <- !list_elem_of_In.
Qed.

(** The added channel puts a zero among the entries as soon as there is any
    entry. *)
Lemma pixel_entries_zero {S} (ops : FieldOps S) pairs x :
  x ∈ pixel_entries (map (to_pixels ops) pairs) ->
  e_zero ops ∈ pixel_entries (map (to_pixels ops) pairs).
Proof.
  unfold pixel_entries. intros H.
  apply elem_of_concat in H as (px & Hpx & Hx).
  apply elem_of_concat in Hpx as (row & Hrow & Hpx).
  apply elem_of_concat in Hrow as (img & Himg & Hrow).
  apply elem_of_concat. exists px. split.
  - apply elem_of_concat. exists row. split; [|done].
    apply elem_of_concat. by exists img.
  - apply list_elem_of_fmap in Himg as (p & -> & _).
    pose proof (to_pixels_shape ops p) as Hshape.
    rewrite Forall_forall in Hshape. specialize (Hshape row Hrow).
    rewrite Forall_forall in Hshape. destruct (Hshape px Hpx) as (vx & vy & ->).
    do 2 (apply elem_of_cons; right). apply elem_of_cons; by left.
Qed.

Section ExactImage.

Local Open Scope Qc_scope.

(** X17.  In exact arithmetic, when the reshape succeeds and some entry of
    the extended velocity tensor is not zero, [plot_initial_conditions]
    draws one figure with the first pressure and alpha frames, and the
    normalisation [(v - v.min()) / (v.max() - v.min())] is well defined:
    [v.min() <= 0 <= v.max()] (the added channel is zero) and
    [v.min() < v.max()].  Every pixel of the drawn velocity image has three
    channels, each between 0 and 1, and the third channel is the same number
    [(0 - v.min()) / (v.max() - v.min())] at every pixel. *)
Theorem plot_initial_conditions_unit_range (dataset : FieldDataset Qc) index path
    data pairs x p0 a0 :
  let i := match index with None => (Z.of_nat (fd_len dataset) / 2)%Z | Some k => k end in
  fd_getitem dataset i = inr data ->
  pair_up (fs_v data) = inr pairs ->
  x ∈ pixel_entries (map (to_pixels rational_ops) pairs) ->
  x <> 0 ->
  fs_y data !! 0%nat = Some p0 ->
  fs_a data !! 0%nat = Some a0 ->
  exists lo hi v0,
    reduce (e_min rational_ops) (pixel_entries (map (to_pixels rational_ops) pairs)) = inr lo /\
    reduce (e_max rational_ops) (pixel_entries (map (to_pixels rational_ops) pairs)) = inr hi /\
    lo <= 0 /\ 0 <= hi /\ lo < hi /\
    plot_initial_conditions rational_ops dataset index path =
      ([InitGet i; InitRender p0 v0 a0 path], Done tt) /\
    Forall (Forall (fun px => exists r g,
      px = [r; g; (0 - lo) / (hi - lo)] /\
      0 <= r /\ r <= 1 /\ 0 <= g /\ g <= 1 /\
      0 <= (0 - lo) / (hi - lo) /\ (0 - lo) / (hi - lo) <= 1)) v0.
Proof.
  intros i Hget Hpairs Hx Hx0 Hp Ha.
  set (entries := pixel_entries (map (to_pixels rational_ops) pairs)) in *.
  assert (Hne : entries <> []) by (intros Hnil; rewrite Hnil in Hx; by apply elem_of_nil in Hx).
  destruct (reduce_some (e_min rational_ops) entries Hne) as (a1 & r1 & He1 & Hlo).
  destruct (reduce_some (e_max rational_ops) entries Hne) as (a2 & r2 & He2 & Hhi).
  set (lo := foldl (e_min rational_ops) a1 r1) in *.
  set (hi := foldl (e_max rational_ops) a2 r2) in *.
  pose proof (reduce_min_le _ _ Hlo) as Hlo_all.
  pose proof (reduce_max_ge _ _ Hhi) as Hhi_all.
  rewrite Forall_forall in Hlo_all, Hhi_all.
  pose proof (pixel_entries_zero rational_ops pairs x Hx) as Hz. fold entries in Hz.
  change (e_zero rational_ops) with 0 in Hz.
  assert (Hlt : lo < hi).
  { destruct (Qcle_lt_or_eq lo hi) as [Hlt | Heq]; [|done|].
    - eapply Qcle_trans; [by apply Hlo_all | by apply Hhi_all].
    - exfalso. apply Hx0.
      assert (x = lo) as ->.
      { apply Qcle_antisym; [rewrite Heq; by apply Hhi_all | by apply Hlo_all]. }
      apply Qcle_antisym; [by apply Hlo_all | rewrite Heq; by apply Hhi_all]. }
  assert (Hall : Forall (fun a => lo <= a /\ a <= hi) entries).
  { apply Forall_forall. intros a Ha'. split; [by apply Hlo_all | by apply Hhi_all]. }
  destruct pairs as [|pair pairs']; [by apply elem_of_nil in Hx|].
  exists lo, hi. eexists. split; [done|]. split; [done|].
  split; [by apply Hlo_all|]. split; [by apply Hhi_all|]. split; [done|].
  split; [by apply (plot_initial_conditions_run rational_ops dataset index path
                      data pair pairs' lo hi p0 a0)|].
  unfold entries, pixel_entries in Hall.
  do 3 apply Forall_concat_inv in Hall.
  cbn [map] in Hall. apply Forall_cons in Hall as [Himg _].
  pose proof (to_pixels_shape rational_ops pair) as Hshape.
  apply Forall_fmap. rewrite Forall_forall in Himg, Hshape. apply Forall_forall.
  intros row Hrow. simpl. apply Forall_fmap.
  specialize (Himg row Hrow). specialize (Hshape row Hrow).
  rewrite Forall_forall in Himg, Hshape. apply Forall_forall.
  intros px Hpx. simpl.
  destruct (Hshape px Hpx) as (vx & vy & ->). specialize (Himg _ Hpx).
  apply Forall_cons in Himg as [[Hx1 Hx2] Himg].
  apply Forall_cons in Himg as [[Hy1 Hy2] Himg].
  apply Forall_cons in Himg as [[Hz1 Hz2] _].
  change (e_zero rational_ops) with 0 in *.
  destruct (normalised_in_unit lo hi vx Hlt Hx1 Hx2).
  destruct (normalised_in_unit lo hi vy Hlt Hy1 Hy2).
  destruct (normalised_in_unit lo hi 0 Hlt Hz1 Hz2).
  eexists _, _. split; [reflexivity|]. done.
Qed.

End ExactImage.

(** ** A field at rest, in float32 *)

Lemma f32_min_zero (a b : spec_float) :
  is_zero a = true -> is_zero b = true -> is_zero (e_min f32_ops a b) = true.
Proof. destruct a; try done. destruct b; try done. Qed.

Lemma f32_max_zero (a b : spec_float) :
  is_zero a = true -> is_zero b = true -> is_zero (e_max f32_ops a b) = true.
Proof. destruct a; try done. destruct b; try done. Qed.

Lemma foldl_zero (f : spec_float -> spec_float -> spec_float) (rest : list spec_float) a :
  (forall a b, is_zero a = true -> is_zero b = true -> is_zero (f a b) = true) ->
  is_zero a = true -> Forall (fun b => is_zero b = true) rest ->
  is_zero (foldl f a rest) = true.
Proof.
  intros Hf Ha Hrest. revert a Ha.
  induction Hrest as [|b rest Hb Hrest IH]; intros a Ha; [done|].
  cbn [foldl]. apply IH. by apply Hf.
Qed.

Lemma f32_rest_normalised (a lo hi : spec_float) :
  is_zero a = true -> is_zero lo = true -> is_zero hi = true ->
  e_div f32_ops (e_sub f32_ops a lo) (e_sub f32_ops hi lo) = S754_nan.
Proof.
  destruct a as [sa| | |]; try done. destruct lo as [sl| | |]; try done.
  destruct hi as [sh| | |]; try done. intros _ _ _. by destruct sa, sl, sh.
Qed.

Lemma Forall_concat_all {A} (P : A -> Prop) (ls : list (list A)) :
  Forall (Forall P) ls -> Forall P (concat ls).
Proof.
  induction 1 as [|l ls Hl Hls IH]; [constructor|]. simpl. by apply Forall_app.
Qed.

Lemma to_pixels_zero (p : list (list spec_float) * list (list spec_float)) :
  Forall (Forall (fun a => is_zero a = true)) p.1 ->
  Forall (Forall (fun a => is_zero a = true)) p.2 ->
  Forall (Forall (Forall (fun a => is_zero a = true))) (to_pixels f32_ops p).
Proof.
  intros H1 H2. unfold to_pixels.
  eapply Forall_zip_with_both; [|exact H1|exact H2].
  intros r1 r2 Hr1 Hr2. eapply Forall_zip_with_both; [|exact Hr1|exact Hr2].
  intros vx vy Hvx Hvy. by repeat constructor.
Qed.

(** X18.  In float32, when every velocity entry of the sample is a zero
    (of either sign), the minimum and the maximum of the extended tensor are
    both zero, the normalisation divides zero by zero, and every channel of
    every pixel of the velocity image handed to the presenter is NaN.  The
    call itself completes: the figure is drawn with the first pressure and
    alpha frames. *)
Theorem plot_initial_conditions_at_rest (dataset : FieldDataset spec_float) index path
    data pairs p0 a0 :
  let i := match index with None => Z.of_nat (fd_len dataset) / 2 | Some k => k end in
  fd_getitem dataset i = inr data ->
  pair_up (fs_v data) = inr pairs ->
  pixel_entries (map (to_pixels f32_ops) pairs) <> [] ->
  Forall (Forall (Forall (fun a => is_zero a = true))) (fs_v data) ->
  fs_y data !! 0%nat = Some p0 ->
  fs_a data !! 0%nat = Some a0 ->
  exists v0,
    plot_initial_conditions f32_ops dataset index path =
      ([InitGet i; InitRender p0 v0 a0 path], Done tt) /\
    Forall (Forall (Forall (fun a => a = S754_nan))) v0.
Proof.
  intros i Hget Hpairs Hne Hzero Hp Ha.
  assert (Himgs : Forall (fun img => Forall (Forall (Forall (fun a => is_zero a = true))) img)
                    (map (to_pixels f32_ops) pairs)).
  { apply Forall_fmap, Forall_forall. intros p Hin. simpl.
    destruct (pair_up_elem _ _ _ Hpairs Hin) as [H1 H2].
    rewrite Forall_forall in Hzero. apply to_pixels_zero; by apply Hzero. }
  assert (Hall : Forall (fun a => is_zero a = true)
                   (pixel_entries (map (to_pixels f32_ops) pairs))).
  { unfold pixel_entries. by do 3 apply Forall_concat_all. }
  destruct (reduce_some (e_min f32_ops) _ Hne) as (a1 & r1 & He1 & Hlo).
  destruct (reduce_some (e_max f32_ops) _ Hne) as (a2 & r2 & He2 & Hhi).
  assert (Hlo0 : is_zero (foldl (e_min f32_ops) a1 r1) = true).
  { rewrite He1 in Hall. apply Forall_cons in Hall as [Ha1 Hr1].
    by apply foldl_zero; [apply f32_min_zero | |]. }
  assert (Hhi0 : is_zero (foldl (e_max f32_ops) a2 r2) = true).
  { rewrite He2 in Hall. apply Forall_cons in Hall as [Ha2 Hr2].
    by apply foldl_zero; [apply f32_max_zero | |]. }
  destruct pairs as [|pair pairs']; [done|].
  eexists. split.
  - by apply (plot_initial_conditions_run f32_ops dataset index path data pair pairs'
                (foldl (e_min f32_ops) a1 r1) (foldl (e_max f32_ops) a2 r2) p0 a0).
  - cbn [map] in Himgs. apply Forall_cons in Himgs as [Himg _].
    apply Forall_map_map_map.
    eapply Forall_impl; [exact Himg|]. intros row Hrow. simpl.
    eapply Forall_impl; [exact Hrow|]. intros px Hpx. simpl.
    eapply Forall_impl; [exact Hpx|]. intros a Hz. simpl.
    by apply f32_rest_normalised.
Qed.

Lemma plot_initial_conditions_odd_channels_witness :
  plot_initial_conditions rational_ops demo_odd_dataset None None =
    ([InitGet 0], Raised RuntimeError).
Proof.
  apply (plot_initial_conditions_odd_channels rational_ops demo_odd_dataset None None
           demo_odd_sample); reflexivity.
Defined.

Lemma plot_initial_conditions_unit_range_witness :
  exists lo hi v0,
    reduce (e_min rational_ops) (pixel_entries (map (to_pixels rational_ops)
      [([[q (-2); q 0]; [q 1; q 2]], [[q 2; q (-1)]; [q 0; q 1]])])) = inr lo /\
    reduce (e_max rational_ops) (pixel_entries (map (to_pixels rational_ops)
      [([[q (-2); q 0]; [q 1; q 2]], [[q 2; q (-1)]; [q 0; q 1]])])) = inr hi /\
    (lo <= 0)%Qc /\ (0 <= hi)%Qc /\ (lo < hi)%Qc /\
    plot_initial_conditions rational_ops demo_field_dataset None None =
      ([InitGet 0; InitRender [[q 1; q 2]; [q 3; q 4]] v0 [[q 5; q 5]; [q 5; q 5]] None],
       Done tt) /\
    Forall (Forall (fun px => exists r g,
      px = [r; g; ((0 - lo) / (hi - lo))%Qc] /\
      (0 <= r)%Qc /\ (r <= 1)%Qc /\ (0 <= g)%Qc /\ (g <= 1)%Qc /\
      (0 <= (0 - lo) / (hi - lo))%Qc /\ ((0 - lo) / (hi - lo) <= 1)%Qc)) v0.
Proof.
  apply (plot_initial_conditions_unit_range demo_field_dataset None None
           demo_field_sample
           [([[q (-2); q 0]; [q 1; q 2]], [[q 2; q (-1)]; [q 0; q 1]])] (q (-2))).
  - reflexivity.
  - reflexivity.
  - apply list_elem_of_In. left. reflexivity.
  - intros H. discriminate H.
  - reflexivity.
  - reflexivity.
Defined.

Lemma plot_initial_conditions_at_rest_witness :
  exists v0,
    plot_initial_conditions f32_ops demo_still_dataset None None =
      ([InitGet 0; InitRender [[f32 1; f32 2]] v0 [[f32 3; f32 3]] None], Done tt) /\
    Forall (Forall (Forall (fun a => a = S754_nan))) v0.
Proof.
  apply (plot_initial_conditions_at_rest demo_still_dataset None None demo_still_sample
           [([[f32 0; f32 0]], [[f32 0; f32 0]])]).
  - reflexivity.
  - reflexivity.
  - discriminate.
  - repeat constructor.
  - reflexivity.
  - reflexivity.
Defined.

(** ** The metrics of the rollout *)

Lemma rollout_totals_from {Frame Sc} (sc : Scalars Sc) (field : Losses Frame Sc)
    (pairs : list (Frame * Frame)) (tot : RolloutMetrics Sc) :
  let step := fun (tot : RolloutMetrics Sc) '(y, pred) =>
    {| avg_l2_loss := fadd sc (avg_l2_loss tot) (lp_loss field pred y);
       avg_h1_loss := fadd sc (avg_h1_loss tot) (sobolev_loss field pred y);
       avg_mse_loss := fadd sc (avg_mse_loss tot) (mse_loss field pred y);
       avg_max_error := fadd sc (avg_max_error tot) (max_abs field (tsub field pred y)) |} in
  avg_mse_loss (foldl step tot pairs) =
    foldl (fun acc yp => fadd sc acc (mse_loss field yp.2 yp.1)) (avg_mse_loss tot) pairs /\
  avg_l2_loss (foldl step tot pairs) =
    foldl (fun acc yp => fadd sc acc (lp_loss field yp.2 yp.1)) (avg_l2_loss tot) pairs /\
  avg_h1_loss (foldl step tot pairs) =
    foldl (fun acc yp => fadd sc acc (sobolev_loss field yp.2 yp.1)) (avg_h1_loss tot) pairs /\
  avg_max_error (foldl step tot pairs) =
    foldl (fun acc yp => fadd sc acc (max_abs field (tsub field yp.2 yp.1)))
      (avg_max_error tot) pairs.
Proof.
  intros step. revert tot. induction pairs as [|[y pred] pairs IH]; intros tot; [done|].
  cbn [foldl]. destruct (IH (step tot (y, pred))) as (H1 & H2 & H3 & H4).
  rewrite H1, H2, H3, H4. done.
Qed.

(** X19.  With [compute_metrics] set, [sample_iterative] prints one report
    between the printed length and the presenter's events, whatever [kind],
    [index] and [path] are, and never fails in the metric loop.  Each of the
    four printed averages is the running sum of that metric over the [N]
    aligned pairs [(y_true[k], y_pred[k])] of the stitched sequences, one
    term per time step, divided by [N]; the maximum error is taken on
    [pred - y].  Without [compute_metrics] the events are the same with the
    report left out.
    The data model is assumed: targets and predictions of [D] frames, and
    frames with no axis of size one, so that [squeeze()] removes the batch
    axis alone. *)
Theorem sample_iterative_metrics {Frame Sc : Type} {shaped : Shaped Frame} (sc : Scalars Sc)
    (field : Losses Frame Sc) (fuel : nat) (model : Model Frame)
    (dataset : Dataset Frame) (samples : list (Sample Frame)) :
  in_range_samples dataset = Some samples ->
  (1 <= length samples)%nat ->
  2 <= depth dataset ->
  forallb (wf_sample (depth dataset)) samples = true ->
  (forall x, Z.of_nat (length (model x)) = depth dataset) ->
  (forall x, no_unit_axis (model x) = true) ->
  (length samples <= fuel)%nat ->
  exists y_true y_pred r,
    result (rollout (Sc:=Sc) fuel model dataset) = Done (y_true, y_pred) /\
    length (zip y_true y_pred) = ds_len dataset /\
    (forall path kind name index,
       exists shown_pred shown_true,
         sample_iterative sc field fuel model dataset path kind name true index =
           (trace (rollout (Sc:=Sc) fuel model dataset) ++
            EvSampled (ds_len dataset) :: EvRolloutReport name r ::
            trace (plot_inference_results_direct (Sc:=Sc) shown_pred shown_true
                     path kind name),
            result (plot_inference_results_direct (Sc:=Sc) shown_pred shown_true
                      path kind name)) /\
         sample_iterative sc field fuel model dataset path kind name false index =
           (trace (rollout (Sc:=Sc) fuel model dataset) ++
            EvSampled (ds_len dataset) ::
            trace (plot_inference_results_direct (Sc:=Sc) shown_pred shown_true
                     path kind name),
            result (plot_inference_results_direct (Sc:=Sc) shown_pred shown_true
                      path kind name))) /\
    avg_mse_loss r =
      fdiv sc (running_sum sc (fun yp => mse_loss field yp.2 yp.1) (zip y_true y_pred))
        (of_int sc (Z.of_nat (ds_len dataset))) /\
    avg_l2_loss r =
      fdiv sc (running_sum sc (fun yp => lp_loss field yp.2 yp.1) (zip y_true y_pred))
        (of_int sc (Z.of_nat (ds_len dataset))) /\
    avg_h1_loss r =
      fdiv sc (running_sum sc (fun yp => sobolev_loss field yp.2 yp.1) (zip y_true y_pred))
        (of_int sc (Z.of_nat (ds_len dataset))) /\
    avg_max_error r =
      fdiv sc (running_sum sc (fun yp => max_abs field (tsub field yp.2 yp.1))
                 (zip y_true y_pred))
        (of_int sc (Z.of_nat (ds_len dataset))).
Proof.
  intros Hs Hn Hd Hwf Hm Hax Hf.
  destruct (sample_iterative_stitched sc field fuel model dataset samples Hs Hn Hd Hwf Hm Hax Hf)
    as (y_true & y_pred & Hres & Ht & Hp & _ & Hrun).
  exists y_true, y_pred, (rollout_report sc field (Z.of_nat (ds_len dataset)) y_true y_pred).
  split; [done|]. split; [rewrite length_zip; lia|]. split.
  - intros path kind name index. eexists _, _. split; by rewrite Hrun.
  - destruct (rollout_totals_from sc field (zip y_true y_pred) (zero_totals sc))
      as (H1 & H2 & H3 & H4).
    unfold rollout_report, rollout_totals, running_sum. cbn [avg_mse_loss avg_l2_loss avg_h1_loss avg_max_error].
    by rewrite H1, H2, H3, H4.
Qed.

Lemma sample_iterative_metrics_witness :
  exists y_true y_pred r,
    result (rollout (Sc:=Qc) 5 demo_model demo_dataset) = Done (y_true, y_pred) /\
    length (zip y_true y_pred) = 5%nat /\
    In (EvRolloutReport (Some "fno") r)
       (trace (sample_iterative exact_scalars pixel_losses 5 demo_model demo_dataset None
                 "pressure" (Some "fno") true None)) /\
    avg_mse_loss r =
      fdiv exact_scalars
        (running_sum exact_scalars (fun yp => mse_loss pixel_losses yp.2 yp.1)
           (zip y_true y_pred)) (of_int exact_scalars 5).
Proof.
  destruct (sample_iterative_metrics exact_scalars pixel_losses 5 demo_model demo_dataset
              demo_samples)
    as (y_true & y_pred & r & Hres & Hlen & Hrun & Hmse & _).
  - reflexivity.
  - simpl. lia.
  - simpl. lia.
  - reflexivity.
  - intros x. reflexivity.
  - intros x. reflexivity.
  - simpl. lia.
  - exists y_true, y_pred, r. split; [exact Hres|]. split; [exact Hlen|]. split; [|exact Hmse].
    destruct (Hrun None "pressure"%string (Some "fno"%string) None) as (sp & st & Htrue & _).
    rewrite Htrue. unfold trace. cbn [fst]. apply in_or_app. right. right. left. reflexivity.
Defined.

(** ** An axis of size one *)

(** X20.  [sample_iterative] removes the batch axis of a prediction with
    [squeeze()], which drops every axis of size one.  When the prediction of
    the first window has a single frame, or frames with a single row or a
    single column, the index [pred[-1, :, :]] that follows has too many
    indices: the call raises [IndexError] in the first window, after the two
    accesses to [dataset[0]] and one call of the predictor, and nothing is
    printed or drawn. *)
Theorem sample_iterative_squeezed_axis {Frame Sc : Type} {shaped : Shaped Frame}
    (sc : Scalars Sc) (field : Losses Frame Sc) (fuel : nat) (model : Model Frame)
    (dataset : Dataset Frame) (s0 : Sample Frame)
    path kind name compute_metrics index :
  (1 <= ds_len dataset)%nat -> (1 <= fuel)%nat ->
  getitem dataset 0 = inr s0 -> data_x s0 <> [] ->
  length (model (data_x s0)) = 1%nat \/ no_unit_axis (model (data_x s0)) = false ->
  sample_iterative sc field fuel model dataset path kind name compute_metrics index =
    ([EvGet 0; EvGet 0; EvCall None (data_x s0)], Raised IndexError).
Proof.
  intros Hn Hfuel Hget Hx Hsq.
  apply sample_iterative_rollout_raised.
  destruct (data_x s0) as [|c rest] eqn:Hxs; [done|].
  assert (Hlast : squeezed_last (model (c :: rest)) = inl IndexError).
  { destruct Hsq as [Hone | Hax]; [|by apply squeezed_last_unit_axis].
    unfold squeezed_last. by rewrite Hone. }
  destruct fuel as [|fuel']; [lia|].
  unfold rollout. rewrite (get_inr _ _ _ _ Hget), Hxs.
  rewrite py_getitem_head, bind_lift_inr, rollout_loop_unfold.
  destruct (Z.ltb_spec 0 (Z.of_nat (ds_len dataset))); [|lia].
  rewrite (get_inr _ _ _ _ Hget), Hxs. simpl py_setitem0.
  rewrite bind_lift_inr, call_bind, Hlast. reflexivity.
Qed.

Lemma sample_iterative_squeezed_axis_witness :
  sample_iterative exact_scalars rational_frame_losses 5 (fun x => x) demo_qdataset None
    "pressure" None false None =
    ([EvGet 0; EvGet 0; EvCall None [[[q 1; q 2]]; [[q 3; q 4]]]], Raised IndexError).
Proof.
  apply (sample_iterative_squeezed_axis exact_scalars rational_frame_losses 5
           (fun x => x) demo_qdataset
           (mkSample [[[q 1; q 2]]; [[q 3; q 4]]] [[[q 1; q 2]]; [[q 3; q 4]]])).
  - simpl. lia.
  - lia.
  - reflexivity.
  - discriminate.
  - right. reflexivity.
Defined.
